(** * libmount monitor: the change-notification aggregator

    A shallow embedding of [libmount/src/monitor.c] and
    [libmount/src/monitor.h] (util-linux), together with a small executable
    model of the kernel services the monitor calls (descriptor table,
    epoll instances, errno), and the properties of the consumer-facing
    state machine: get-descriptor, wait, next-change, detail enumeration,
    close. *)

From Stdlib Require Import ZArith NArith List String Bool Lia.
From stdpp Require Import base option list gmap.

Local Open Scope Z_scope.

(** ** Constants of the system headers

    Linux values of [<errno.h>] and [<sys/epoll.h>]. *)

Definition EPERM   : N := 1.
Definition ENOENT  : N := 2.
Definition EINTR   : N := 4.
Definition EBADF   : N := 9.
Definition ENOMEM  : N := 12.
Definition EEXIST  : N := 17.
Definition EINVAL  : N := 22.
Definition EMFILE  : N := 24.
Definition ENOTSUP : N := 95.

Definition EPOLLIN : Z := 1.
Definition EPOLLET : Z := 2147483648.   (* 1u << 31 *)

Inductive epoll_op := EPOLL_CTL_ADD | EPOLL_CTL_DEL.

(** ** The kernel, as far as the monitor sees it *)

Module Kernel.

(** One registration in an epoll interest list: the [events] mask of the
    [struct epoll_event] and its [data.ptr], which the monitor uses to find
    the entry again.  Entries of the monitor are addressed by their position
    in the entry list, so a pointer to an entry is that position and the
    null pointer is [None]. *)
Record epoll_event := { ev_events : Z; ev_data : option nat }.

(** Is the registration edge-triggered (EPOLLET in its [events] mask)?  The
    others are level-triggered. *)
Definition edge_triggered (ev : epoll_event) : bool :=
  negb (Z.eqb (Z.land (ev_events ev) EPOLLET) 0).

(** An open descriptor is an epoll instance with its interest list, or some
    other pollable file.  [FdFile true] is a file that is ready when it is
    added to an epoll instance (such as a freshly opened mount table). *)
Inductive fdesc :=
| FdEpoll (interest : gmap Z epoll_event)
| FdFile (ready : bool).

(** What may happen while a caller sleeps in [epoll_wait]. *)
Inductive happening :=
| Ready (fd : Z)      (* the file behind [fd] becomes ready *)
| Signal              (* a signal handler interrupts the sleep *)
| Elapse.             (* the timeout of a bounded wait runs out *)

(** [k_errno] is the calling thread's errno (errno values are positive, 0 is
    "no error"); [k_fdt] the descriptor table; [k_ready] the descriptors
    whose file has become ready and has not been read since, oldest first
    (an edge-triggered registration reports such a notification once, a
    level-triggered one at every wait until the file is read); [k_future]
    what happens during later sleeps; [k_nomem] tells for each coming
    allocation of the epoll code whether the kernel is out of memory. *)
Record kernel := {
  k_errno  : N;
  k_fdt    : gmap Z fdesc;
  k_ready  : list Z;
  k_future : list happening;
  k_nomem  : list bool
}.

Definition set_errno (e : N) (k : kernel) : kernel :=
  {| k_errno := e; k_fdt := k_fdt k; k_ready := k_ready k;
     k_future := k_future k; k_nomem := k_nomem k |}.

Definition set_fdt (t : gmap Z fdesc) (k : kernel) : kernel :=
  {| k_errno := k_errno k; k_fdt := t; k_ready := k_ready k;
     k_future := k_future k; k_nomem := k_nomem k |}.

Definition set_ready (q : list Z) (k : kernel) : kernel :=
  {| k_errno := k_errno k; k_fdt := k_fdt k; k_ready := q;
     k_future := k_future k; k_nomem := k_nomem k |}.

Definition set_future (f : list happening) (k : kernel) : kernel :=
  {| k_errno := k_errno k; k_fdt := k_fdt k; k_ready := k_ready k;
     k_future := f; k_nomem := k_nomem k |}.

Definition set_nomem (m : list bool) (k : kernel) : kernel :=
  {| k_errno := k_errno k; k_fdt := k_fdt k; k_ready := k_ready k;
     k_future := k_future k; k_nomem := m |}.

(** A failing system call: errno is set and -1 returned. *)
Definition fail (e : N) (k : kernel) : kernel * Z := (set_errno e k, -1).

(** The interest list of the epoll instance behind [epfd], if it is one. *)
Definition interest_of (k : kernel) (epfd : Z) : option (gmap Z epoll_event) :=
  match k_fdt k !! epfd with
  | Some (FdEpoll i) => Some i
  | _ => None
  end.

(** The lowest descriptor number that is not in use. *)
Definition lowest_free (t : gmap Z fdesc) : option Z :=
  List.find (fun n => bool_decide (t !! n = None))
            (List.map Z.of_nat (seq 0 (S (size t)))).

(** Does the next allocation of the epoll code fail? *)
Definition out_of_memory (k : kernel) : bool :=
  match k_nomem k with b :: _ => b | [] => false end.

Definition allocated (k : kernel) : kernel := set_nomem (tl (k_nomem k)) k.

(** [open]/[inotify_init1]/...: a new descriptor for a pollable file. *)
Definition open_file (ready : bool) (k : kernel) : kernel * Z :=
  match lowest_free (k_fdt k) with
  | Some fd => (set_fdt (<[fd := FdFile ready]> (k_fdt k)) k, fd)
  | None => fail EMFILE k
  end.

(** [epoll_create1(EPOLL_CLOEXEC)]. *)
Definition epoll_create1 (k : kernel) : kernel * Z :=
  if out_of_memory k then fail ENOMEM (allocated k)
  else match lowest_free (k_fdt k) with
       | Some fd => (set_fdt (<[fd := FdEpoll ∅]> (k_fdt k)) (allocated k), fd)
       | None => fail EMFILE (allocated k)
       end.

(** Closing a descriptor also takes it out of every interest list and
    forgets its unreported notifications. *)
Definition unregister (fd : Z) (d : fdesc) : fdesc :=
  match d with
  | FdEpoll i => FdEpoll (delete fd i)
  | FdFile r => FdFile r
  end.

Definition close (k : kernel) (fd : Z) : kernel * Z :=
  match k_fdt k !! fd with
  | None => fail EBADF k
  | Some _ =>
      (set_ready (List.filter (fun x => negb (Z.eqb x fd)) (k_ready k))
         (set_fdt (unregister fd <$> delete fd (k_fdt k)) k), 0)
  end.

(** [read(fd, ...)] until the file has nothing more: its readiness is used
    up.  (The monitor never reads; its drivers do.) *)
Definition read_file (k : kernel) (fd : Z) : kernel :=
  set_ready (List.filter (fun x => negb (Z.eqb x fd)) (k_ready k)) k.

(** [epoll_ctl(epfd, op, fd, ev)], for the two operations the monitor uses.
    Adding a file that is ready queues its first notification at once. *)
Definition epoll_ctl (k : kernel) (epfd : Z) (op : epoll_op) (fd : Z)
    (ev : epoll_event) : kernel * Z :=
  match k_fdt k !! epfd, k_fdt k !! fd with
  | None, _ | _, None => fail EBADF k
  | Some (FdFile _), Some _ => fail EINVAL k
  | Some (FdEpoll i), Some target =>
      if Z.eqb epfd fd then fail EINVAL k
      else match op, i !! fd with
           | EPOLL_CTL_ADD, Some _ => fail EEXIST k
           | EPOLL_CTL_ADD, None =>
               if out_of_memory k then fail ENOMEM (allocated k)
               else
                 let k1 := set_fdt (<[epfd := FdEpoll (<[fd := ev]> i)]> (k_fdt k))
                                   (allocated k) in
                 match target with
                 | FdFile true => (set_ready (k_ready k1 ++ [fd]) k1, 0)
                 | _ => (k1, 0)
                 end
           | EPOLL_CTL_DEL, None => fail ENOENT k
           | EPOLL_CTL_DEL, Some _ =>
               (set_fdt (<[epfd := FdEpoll (delete fd i)]> (k_fdt k)) k, 0)
           end
  end.

(** The oldest notification of a descriptor in the interest list [i]: the
    descriptor, its registration, and the queue without that notification. *)
Fixpoint pick (i : gmap Z epoll_event) (q : list Z)
    : option (Z * epoll_event * list Z) :=
  match q with
  | [] => None
  | fd :: q' =>
      match i !! fd with
      | Some ev => Some (fd, ev, q')
      | None => match pick i q' with
                | Some (x, ev, r) => Some (x, ev, fd :: r)
                | None => None
                end
      end
  end.

(** The queue after [fd] has been reported through its registration [ev].
    Edge-triggered: the notification is used up.  Level-triggered: the file
    is as ready as it was, and is reported again, after the others. *)
Definition requeue (fd : Z) (ev : epoll_event) (rest : list Z) : list Z :=
  if edge_triggered ev then rest else rest ++ [fd].

(** Sleeping in [epoll_wait] with nothing to report: the future is consumed
    until something ends the sleep.  [None]: the call never returns (an
    unbounded wait and nothing ever happens). *)
Fixpoint sleep (i : gmap Z epoll_event) (timeout : Z) (k : kernel)
    (fut : list happening) : option (kernel * Z * option nat) :=
  match fut with
  | [] => if Z.ltb timeout 0 then None else Some (set_future [] k, 0, None)
  | Ready fd :: fut' =>
      match i !! fd with
      | Some ev => Some (set_ready (requeue fd ev (k_ready k)) (set_future fut' k),
                         1, ev_data ev)
      | None => sleep i timeout (set_ready (k_ready k ++ [fd]) k) fut'
      end
  | Signal :: fut' => Some (set_errno EINTR (set_future fut' k), -1, None)
  | Elapse :: fut' =>
      if Z.ltb timeout 0 then sleep i timeout k fut'
      else Some (set_future fut' k, 0, None)
  end.

(** [epoll_wait(epfd, events, 1, timeout)]: the return value and, when it is
    1, [events[0].data.ptr]. *)
Definition epoll_wait (k : kernel) (epfd : Z) (timeout : Z)
    : option (kernel * Z * option nat) :=
  match k_fdt k !! epfd with
  | None => Some (fail EBADF k, None)
  | Some (FdFile _) => Some (fail EINVAL k, None)
  | Some (FdEpoll i) =>
      match pick i (k_ready k) with
      | Some (fd, ev, q) => Some (set_ready (requeue fd ev q) k, 1, ev_data ev)
      | None =>
          if Z.eqb timeout 0 then Some (k, 0, None)
          else sleep i timeout k (k_future k)
      end
  end.

End Kernel.
Import Kernel.

(** ** Data model ([monitor.h]) *)

(** [struct libmnt_fs] is declared elsewhere in libmount; the monitor only
    hands it to the driver, which fills it in. *)
Record libmnt_fs := { fs_uniq_id : Z }.

(** [struct monitor_entry].  [me_opers] is the null pointer ([None]) or the
    address of a driver's static operation table; [me_path] is a C string
    or the null pointer; the list linkage [ents] is the position in
    [mn_ents]. *)
Record monitor_entry := {
  me_fd      : Z;               (* private entry file descriptor *)
  me_id      : Z;               (* external identifier (-1 for undefined) *)
  me_path    : option string;   (* path to the monitored file *)
  me_type    : Z;               (* MNT_MONITOR_TYPE_* *)
  me_events  : Z;               (* wanted epoll events *)
  me_opers   : option nat;
  me_data    : Z;               (* private type-specific data *)
  me_enabled : bool;            (* monitoring fd *)
  me_active  : bool             (* ready for mnt_monitor_next_change() *)
}.

(** [struct libmnt_monitor].  [mn_last] points to an entry of [mn_ents]. *)
Record libmnt_monitor := {
  mn_refcount      : Z;
  mn_fd            : Z;         (* public monitor file descriptor *)
  mn_ents          : list monitor_entry;
  mn_last          : option nat;
  mn_kernel_veiled : bool
}.

(** A pointer to the monitor as an argument of the public functions. *)
Inductive mn_ptr := NULL | PTR.

(** What a driver operation leaves behind: the kernel after its system
    calls, the descriptor and private data of its entry, its return value. *)
Record op_result := {
  or_kernel : kernel;
  or_fd     : Z;
  or_data   : Z;
  or_rc     : Z
}.

(** Modelled from the spec: the backend drivers (the polled system table,
    the userspace table file, the attach/detach channel) live in files of
    their own; [monitor.h] declares their interface, [struct monitor_opers],
    and nothing more.  A driver is a
    stateless table of operations that reads the monitor and its entry,
    calls the kernel, and owns the entry's descriptor and private data.
    [op_get_fd], [op_close_fd] and [op_process_event] are called without a
    null check (or under [assert]); the other two may be null. *)
Record monitor_opers := {
  op_get_fd        : kernel -> libmnt_monitor -> monitor_entry -> op_result;
  op_close_fd      : kernel -> libmnt_monitor -> monitor_entry -> op_result;
  op_free_data     : option (kernel -> monitor_entry -> op_result);
  op_process_event : kernel -> libmnt_monitor -> monitor_entry -> op_result;
  op_next_fs       : option (kernel -> libmnt_monitor -> monitor_entry ->
                             libmnt_fs -> op_result * libmnt_fs)
}.

Definition set_flags (enabled active : bool) (me : monitor_entry) : monitor_entry :=
  {| me_fd := me_fd me; me_id := me_id me; me_path := me_path me;
     me_type := me_type me; me_events := me_events me; me_opers := me_opers me;
     me_data := me_data me; me_enabled := enabled; me_active := active |}.

Definition set_active (active : bool) (me : monitor_entry) : monitor_entry :=
  set_flags (me_enabled me) active me.

(** The entry after a driver operation. *)
Definition driven (r : op_result) (me : monitor_entry) : monitor_entry :=
  {| me_fd := or_fd r; me_id := me_id me; me_path := me_path me;
     me_type := me_type me; me_events := me_events me; me_opers := me_opers me;
     me_data := or_data r; me_enabled := me_enabled me; me_active := me_active me |}.

Definition set_ents (l : list monitor_entry) (mn : libmnt_monitor) : libmnt_monitor :=
  {| mn_refcount := mn_refcount mn; mn_fd := mn_fd mn; mn_ents := l;
     mn_last := mn_last mn; mn_kernel_veiled := mn_kernel_veiled mn |}.

Definition set_fd (fd : Z) (mn : libmnt_monitor) : libmnt_monitor :=
  {| mn_refcount := mn_refcount mn; mn_fd := fd; mn_ents := mn_ents mn;
     mn_last := mn_last mn; mn_kernel_veiled := mn_kernel_veiled mn |}.

Definition set_last (l : option nat) (mn : libmnt_monitor) : libmnt_monitor :=
  {| mn_refcount := mn_refcount mn; mn_fd := mn_fd mn; mn_ents := mn_ents mn;
     mn_last := l; mn_kernel_veiled := mn_kernel_veiled mn |}.

Definition set_refcount (n : Z) (mn : libmnt_monitor) : libmnt_monitor :=
  {| mn_refcount := n; mn_fd := mn_fd mn; mn_ents := mn_ents mn;
     mn_last := mn_last mn; mn_kernel_veiled := mn_kernel_veiled mn |}.

(** Writing through a pointer to the entry at position [i]. *)
Definition set_entry (i : nat) (me : monitor_entry) (mn : libmnt_monitor)
    : libmnt_monitor :=
  set_ents (<[i := me]> (mn_ents mn)) mn.

(** The return value [-errno]. *)
Definition neg_errno (k : kernel) : Z := - Z.of_N (k_errno k).

(** ** Operations ([monitor.c])

    A function that may not return (it sleeps or loops for ever, or follows
    a null operation table or a pointer that refers to no entry) yields an
    [option]; loops whose length the kernel decides carry an iteration
    budget [fuel]. *)

Section Monitor.

(** The operation tables of the drivers, by address. *)
Variable opers_at : nat -> monitor_opers.

(** [me->opers]: the table behind the pointer, if it is not null. *)
Definition opers (me : monitor_entry) : option monitor_opers :=
  match me_opers me with
  | Some a => Some (opers_at a)
  | None => None
  end.

Definition mnt_new_monitor : libmnt_monitor :=
  {| mn_refcount := 1; mn_fd := -1; mn_ents := []; mn_last := None;
     mn_kernel_veiled := false |}.

Definition mnt_ref_monitor (p : mn_ptr) (mn : libmnt_monitor) : libmnt_monitor :=
  match p with
  | NULL => mn
  | PTR => set_refcount (mn_refcount mn + 1) mn
  end.

(** The entries in list order, as [monitor_next_entry] yields them to a
    forward iterator. *)
Definition positions (mn : libmnt_monitor) : list nat :=
  seq 0 (length (mn_ents mn)).

(** returns entry by type *)
Definition monitor_get_entry (mn : libmnt_monitor) (type id : Z) : option nat :=
  List.find (fun i => match mn_ents mn !! i with
                      | Some me => Z.eqb (me_type me) type && Z.eqb (me_id me) id
                      | None => false
                      end)
            (positions mn).

(** [while (epoll_wait(mn->fd, events, 1, 0) > 0);] *)
Fixpoint drain_loop (fuel : nat) (k : kernel) (epfd : Z) : option kernel :=
  match fuel with
  | O => None
  | S fuel' =>
      match epoll_wait k epfd 0 with
      | None => None
      | Some (k', rc, _) =>
          if Z.ltb 0 rc then drain_loop fuel' k' epfd else Some k'
      end
  end.

(** The loop for as long as it takes.  A turn that goes on either uses up
    an edge-triggered notification or reports a level-triggered one, which
    stays; in the first case the queue gets shorter, in the second the loop
    never ends (nothing reads the file).  So the loop ends within one turn
    per queued notification and one more, or not at all: [None].  (See
    [drain_loop_spins] and [drain_loop_ends] below.) *)
Definition drain (k : kernel) (epfd : Z) : option kernel :=
  drain_loop (S (length (k_ready k))) k epfd.

(** Add/Remove monitor entry to/from monitor epoll. *)
Definition monitor_modify_epoll (k : kernel) (mn : libmnt_monitor) (i : nat)
    (enable : bool) : option (kernel * libmnt_monitor * Z) :=
  match mn_ents mn !! i with
  | None => None
  | Some me0 =>
      let me := set_flags enable false me0 in
      let mn := set_entry i me mn in
      if Z.ltb (mn_fd mn) 0 then Some (k, mn, 0)   (* no epoll, ignore request *)
      else if enable then
        let ev_mask := me_events me in
        match opers me with
        | None => None
        | Some o =>
            let r := op_get_fd o k mn me in
            let me := driven r me in
            let mn := set_entry i me mn in
            let k := or_kernel r in
            let fd := or_rc r in
            if Z.ltb fd 0 then Some (k, mn, neg_errno k)
            else
              let '(k, rc) := epoll_ctl k (mn_fd mn) EPOLL_CTL_ADD fd
                                {| ev_events := ev_mask; ev_data := Some i |} in
              if Z.ltb rc 0 && negb (N.eqb (k_errno k) EEXIST)
              then Some (k, mn, neg_errno k)
              else if negb (Z.eqb (Z.land (me_events me) (Z.lor EPOLLIN EPOLLET)) 0)
              then
                (* Drain initial events generated for /proc/self/mountinfo *)
                match drain k (mn_fd mn) with
                | Some k => Some (k, mn, 0)
                | None => None
                end
              else Some (k, mn, 0)
        end
      else if negb (Z.eqb (me_fd me) 0) then
        let '(k, rc) := epoll_ctl k (mn_fd mn) EPOLL_CTL_DEL (me_fd me)
                          {| ev_events := 0; ev_data := None |} in
        if Z.ltb rc 0 && negb (N.eqb (k_errno k) ENOENT)
        then Some (k, mn, neg_errno k)
        else Some (k, mn, 0)
      else Some (k, mn, 0)
  end.

(** The loop of [mnt_monitor_close_fd]: disable all monitor entries. *)
Fixpoint close_entries (k : kernel) (mn : libmnt_monitor) (todo : list nat)
    : option (kernel * libmnt_monitor) :=
  match todo with
  | [] => Some (k, mn)
  | i :: todo' =>
      (* remove entry from epoll *)
      match (if Z.leb 0 (mn_fd mn) then monitor_modify_epoll k mn i false
             else Some (k, mn, 0)) with
      | None => None
      | Some (k, mn, _) =>
          (* close entry FD *)
          match mn_ents mn !! i with
          | None => None
          | Some me =>
              match opers me with
              | None => None
              | Some o =>
                  let r := op_close_fd o k mn me in
                  close_entries (or_kernel r) (set_entry i (driven r me) mn) todo'
              end
          end
      end
  end.

Definition mnt_monitor_close_fd (p : mn_ptr) (k : kernel) (mn : libmnt_monitor)
    : option (kernel * libmnt_monitor * Z) :=
  match p with
  | NULL => Some (k, mn, - Z.of_N EINVAL)
  | PTR =>
      match close_entries k mn (positions mn) with
      | None => None
      | Some (k, mn) =>
          let k := if Z.leb 0 (mn_fd mn) then fst (close k (mn_fd mn)) else k in
          Some (k, set_fd (-1) mn, 0)
      end
  end.

(** The loop of [mnt_monitor_get_fd]: the enabled entries are added in list
    order; the first failure ends the loop with its return value. *)
Fixpoint add_entries (k : kernel) (mn : libmnt_monitor) (todo : list nat)
    : option (kernel * libmnt_monitor * Z) :=
  match todo with
  | [] => Some (k, mn, 0)
  | i :: todo' =>
      match mn_ents mn !! i with
      | None => None
      | Some me =>
          if negb (me_enabled me) then add_entries k mn todo'
          else match monitor_modify_epoll k mn i true with
               | None => None
               | Some (k, mn, rc) =>
                   if Z.eqb rc 0 then add_entries k mn todo'
                   else Some (k, mn, rc)
               end
      end
  end.

Definition mnt_monitor_get_fd (p : mn_ptr) (k : kernel) (mn : libmnt_monitor)
    : option (kernel * libmnt_monitor * Z) :=
  match p with
  | NULL => Some (k, mn, - Z.of_N EINVAL)
  | PTR =>
      if Z.leb 0 (mn_fd mn) then Some (k, mn, mn_fd mn)
      else
        let '(k, fd) := epoll_create1 k in
        let mn := set_fd fd mn in
        if Z.ltb (mn_fd mn) 0 then Some (k, mn, neg_errno k)
        else match add_entries k mn (positions mn) with
             | None => None
             | Some (k, mn, rc) =>
                 if Z.eqb rc 0 then Some (k, mn, mn_fd mn)
                 else
                   let rc := if N.eqb (k_errno k) 0 then - Z.of_N EINVAL
                             else neg_errno k in
                   Some (fst (close k (mn_fd mn)), set_fd (-1) mn, rc)
             end
  end.

(** Returns: <0 on error, 0 on success, 1 nothing (timeout).  The last
    component is what is stored in [*act] (the null pointer is [None]); the
    callers that pass no [act] ignore it. *)
Fixpoint read_epoll_events (fuel : nat) (k : kernel) (mn : libmnt_monitor)
    (timeout : Z) : option (kernel * libmnt_monitor * Z * option nat) :=
  match fuel with
  | O => None
  | S fuel' =>
      match epoll_wait k (mn_fd mn) timeout with
      | None => None
      | Some (k, rc, ptr) =>
          if Z.ltb rc 0 then Some (k, mn, neg_errno k, None)
          else if Z.eqb rc 0 then Some (k, mn, 1, None)      (* timeout *)
          else match ptr with
               | None => Some (k, mn, - Z.of_N EINVAL, None)
               | Some i =>
                   match mn_ents mn !! i with
                   | None => None
                   | Some me =>
                       match opers me with
                       | None => None
                       | Some o =>
                           (* rc: <0 error; 0 accepted; 1 nothing *)
                           let r := op_process_event o k mn me in
                           let me := driven r me in
                           let mn := set_entry i me mn in
                           let k := or_kernel r in
                           if Z.ltb (or_rc r) 0 then Some (k, mn, or_rc r, None)
                           else if Z.eqb (or_rc r) 0
                           then Some (k, set_entry i (set_active true me) mn, 0, Some i)
                           else read_epoll_events fuel' k mn timeout
                       end
                   end
               end
      end
  end.

(** Returns: 1 success (something changed), 0 timeout, <0 error. *)
Definition mnt_monitor_wait (fuel : nat) (p : mn_ptr) (k : kernel)
    (mn : libmnt_monitor) (timeout : Z) : option (kernel * libmnt_monitor * Z) :=
  match p with
  | NULL => Some (k, mn, - Z.of_N EINVAL)
  | PTR =>
      let continue k mn :=
        match read_epoll_events fuel k mn timeout with
        | None => None
        | Some (k, mn, rc, _) =>
            Some (k, mn, if Z.eqb rc 0 then 1          (* success *)
                         else if Z.eqb rc 1 then 0     (* timeout (aka nothing) *)
                         else rc)                      (* error *)
        end in
      if Z.ltb (mn_fd mn) 0 then
        match mnt_monitor_get_fd PTR k mn with
        | None => None
        | Some (k, mn, rc) =>
            if Z.ltb rc 0 then Some (k, mn, rc) else continue k mn
        end
      else continue k mn
  end.

Definition get_active (mn : libmnt_monitor) : option nat :=
  List.find (fun i => match mn_ents mn !! i with
                      | Some me => me_active me
                      | None => false
                      end)
            (positions mn).

(** The outcome of [mnt_monitor_next_change]: the return value and the
    cells behind the optional arguments [filename] and [type] ([None] for a
    null argument). *)
Record change := {
  ch_rc       : Z;
  ch_filename : option (option string);
  ch_type     : option Z
}.

(** Returns: 0 on success, 1 no change, <0 on error *)
Definition mnt_monitor_next_change (fuel : nat) (p : mn_ptr) (k : kernel)
    (mn : libmnt_monitor) (filename : option (option string)) (type : option Z)
    : option (kernel * libmnt_monitor * change) :=
  let give rc := {| ch_rc := rc; ch_filename := filename; ch_type := type |} in
  let report k mn i :=
    match mn_ents mn !! i with
    | None => None
    | Some me =>
        let mn := set_last (Some i) (set_entry i (set_active false me) mn) in
        Some (k, mn, {| ch_rc := 0;
                        ch_filename := match filename with
                                       | Some _ => Some (me_path me)
                                       | None => None
                                       end;
                        ch_type := match type with
                                   | Some _ => Some (me_type me)
                                   | None => None
                                   end |})
    end in
  match p with
  | NULL => Some (k, mn, give (- Z.of_N EINVAL))
  | PTR =>
      if Z.ltb (mn_fd mn) 0 then Some (k, mn, give (- Z.of_N EINVAL))
      else
        let mn := set_last None mn in
        match get_active mn with
        | Some i => report k mn i
        | None =>
            match read_epoll_events fuel k mn 0 with   (* try without timeout *)
            | None => None
            | Some (k, mn, rc, act) =>
                if negb (Z.eqb rc 0) then Some (k, mn, give rc)
                else match act with
                     | Some i => report k mn i
                     | None => None
                     end
            end
        end
  end.

(** [while ((rc = mnt_monitor_next_change(mn, NULL, NULL)) == 0);] *)
Fixpoint cleanup_loop (fuel n : nat) (k : kernel) (mn : libmnt_monitor)
    : option (kernel * libmnt_monitor * Z) :=
  match n with
  | O => None
  | S n' =>
      match mnt_monitor_next_change fuel PTR k mn None None with
      | None => None
      | Some (k, mn, c) =>
          if Z.eqb (ch_rc c) 0 then cleanup_loop fuel n' k mn
          else Some (k, mn, ch_rc c)
      end
  end.

(** Returns: 0 on success, <0 on error *)
Definition mnt_monitor_event_cleanup (fuel : nat) (p : mn_ptr) (k : kernel)
    (mn : libmnt_monitor) : option (kernel * libmnt_monitor * Z) :=
  match p with
  | NULL => Some (k, mn, - Z.of_N EINVAL)
  | PTR =>
      if Z.ltb (mn_fd mn) 0 then Some (k, mn, - Z.of_N EINVAL)
      else match cleanup_loop fuel fuel k mn with
           | None => None
           | Some (k, mn, rc) => Some (k, mn, if Z.ltb rc 0 then rc else 0)
           end
  end.

(** Returns: 0 on success, 1 no more data, <0 on error.  [fs] is the
    object behind the argument, [None] for a null pointer. *)
Definition mnt_monitor_event_next_fs (p : mn_ptr) (k : kernel)
    (mn : libmnt_monitor) (fs : option libmnt_fs)
    : option (kernel * libmnt_monitor * Z * option libmnt_fs) :=
  match p, fs with
  | NULL, _ | _, None => Some (k, mn, - Z.of_N EINVAL, fs)
  | PTR, Some f =>
      match mn_last mn with
      | None => Some (k, mn, 1, fs)
      | Some i =>
          match mn_ents mn !! i with
          | None => None
          | Some me =>
              match opers me with
              | None => None
              | Some o =>
                  match op_next_fs o with
                  | None => Some (k, mn, - Z.of_N ENOTSUP, fs)
                  | Some next_fs =>
                      let '(r, f') := next_fs k mn me f in
                      Some (or_kernel r, set_entry i (driven r me) mn, or_rc r, Some f')
                  end
              end
          end
      end
  end.

(** The memory [calloc] hands out is zeroed: the pointers [path], [opers]
    and [data] of a new entry are null. *)
Definition blank_entry : monitor_entry :=
  {| me_fd := -1; me_id := -1; me_path := None; me_type := 0; me_events := 0;
     me_opers := None; me_data := 0; me_enabled := false; me_active := false |}.

(** [monitor_new_entry]: the new entry goes to the tail of the list and is
    returned (its position); [calloc_ok] tells whether the allocation
    succeeds, otherwise the null pointer is returned. *)
Definition monitor_new_entry (calloc_ok : bool) (mn : libmnt_monitor)
    : libmnt_monitor * option nat :=
  if calloc_ok
  then (set_ents (mn_ents mn ++ [blank_entry]) mn, Some (length (mn_ents mn)))
  else (mn, None).

(** [free_monitor_entry], as far as the kernel is concerned: the driver
    frees its private data, then the descriptor of the entry is closed if
    there is one.  Unlinking and freeing the entry itself is the step to the
    rest of the list in [free_entries]. *)
Definition free_monitor_entry (k : kernel) (me : option monitor_entry)
    : option kernel :=
  match me with
  | None => Some k
  | Some me =>
      match opers me with
      | None => None
      | Some o =>
          let '(k, me) :=
            match op_free_data o with
            | Some free_data => let r := free_data k me in (or_kernel r, driven r me)
            | None => (k, me)
            end in
          Some (if Z.leb 0 (me_fd me) then fst (close k (me_fd me)) else k)
      end
  end.

(** [while (!list_empty(&mn->ents)) free_monitor_entry(first entry);] *)
Fixpoint free_entries (k : kernel) (ents : list monitor_entry) : option kernel :=
  match ents with
  | [] => Some k
  | me :: rest =>
      match free_monitor_entry k (Some me) with
      | Some k => free_entries k rest
      | None => None
      end
  end.

(** [mnt_unref_monitor]: the monitor that is left, [None] once it has been
    deallocated. *)
Definition mnt_unref_monitor (p : mn_ptr) (k : kernel) (mn : libmnt_monitor)
    : option (kernel * option libmnt_monitor) :=
  match p with
  | NULL => Some (k, Some mn)
  | PTR =>
      let mn := set_refcount (mn_refcount mn - 1) mn in
      if Z.leb (mn_refcount mn) 0 then
        match mnt_monitor_close_fd PTR k mn with   (* destroys all file descriptors *)
        | None => None
        | Some (k, mn, _) =>
            match free_entries k (mn_ents mn) with
            | Some k => Some (k, None)
            | None => None
            end
        end
      else Some (k, Some mn)
  end.

(** ** Vocabulary of the statements

    Properties of states and of drivers that the theorems below speak
    about. *)

(** Nothing to report on [epfd]: it is an epoll instance and no queued
    notification belongs to a descriptor of its interest list. *)
Definition quiet (k : kernel) (epfd : Z) : Prop :=
  exists i, interest_of k epfd = Some i /\ pick i (k_ready k) = None.

(** What no operation below changes in an entry: the fields set up when the
    entry is created. *)
Definition same_identity (me me' : monitor_entry) : Prop :=
  me_id me' = me_id me /\ me_path me' = me_path me /\ me_type me' = me_type me /\
  me_events me' = me_events me /\ me_opers me' = me_opers me.

(** The monitor up to its entries: descriptor, back-reference, reference
    count, veil, and the number of entries. *)
Definition same_frame (mn mn' : libmnt_monitor) : Prop :=
  mn_fd mn' = mn_fd mn /\ mn_last mn' = mn_last mn /\
  mn_refcount mn' = mn_refcount mn /\
  mn_kernel_veiled mn' = mn_kernel_veiled mn /\
  length (mn_ents mn') = length (mn_ents mn).

(** The wanted conditions include EPOLLIN or EPOLLET. *)
Definition wants_drain (me : monitor_entry) : bool :=
  negb (Z.eqb (Z.land (me_events me) (Z.lor EPOLLIN EPOLLET)) 0).

(** Every enabled entry wants the drain. *)
Definition all_want_drain (mn : libmnt_monitor) : Prop :=
  forall j e, mn_ents mn !! j = Some e -> me_enabled e = true -> wants_drain e = true.

(** Among the entries at the positions [D], the descriptors in the interest
    list of the monitor's epoll instance are exactly those of the enabled
    entries. *)
Definition registered (k : kernel) (mn : libmnt_monitor) (D : nat -> Prop) : Prop :=
  exists int, interest_of k (mn_fd mn) = Some int /\
    (forall j e, D j -> mn_ents mn !! j = Some e -> me_enabled e = true ->
                 is_Some (int !! me_fd e)) /\
    (forall x, is_Some (int !! x) ->
               exists j e, D j /\ mn_ents mn !! j = Some e /\
                           me_enabled e = true /\ me_fd e = x).

(** Is a notification queued for a level-triggered registration of
    [epfd]?  (Then every poll of [epfd] reports something.) *)
Definition level_pending (k : kernel) (epfd : Z) : bool :=
  match interest_of k epfd with
  | Some int =>
      existsb (fun fd => match int !! fd with
                         | Some ev => negb (edge_triggered ev)
                         | None => false
                         end) (k_ready k)
  | None => false
  end.

(** Every registration of [epfd] is edge-triggered. *)
Definition all_edge_triggered (k : kernel) (epfd : Z) : Prop :=
  forall int fd ev, interest_of k epfd = Some int -> int !! fd = Some ev ->
                    edge_triggered ev = true.

(** Every entry points to an operation table. *)
Definition has_opers (mn : libmnt_monitor) : Prop :=
  forall j e, mn_ents mn !! j = Some e -> is_Some (me_opers e).

(** The wanted conditions include EPOLLET. *)
Definition wants_edge (me : monitor_entry) : bool :=
  negb (Z.eqb (Z.land (me_events me) EPOLLET) 0).

(** Every enabled entry points to an operation table and is watched
    edge-triggered. *)
Definition edge_monitor (mn : libmnt_monitor) : Prop :=
  forall j e, mn_ents mn !! j = Some e -> me_enabled e = true ->
              is_Some (me_opers e) /\ wants_edge e = true.

(** A driver whose [op_get_fd] fails says why in errno. *)
Definition get_fd_sets_errno : Prop :=
  forall a k mn me,
    or_rc (op_get_fd (opers_at a) k mn me) < 0 ->
    k_errno (or_kernel (op_get_fd (opers_at a) k mn me)) <> 0%N.

(** Modelled from the spec: what the monitor expects of [op_get_fd].  A
    failure is explained in errno; the epoll instance of the monitor is left
    alone; the descriptor that is returned is the one kept in the entry. *)
Definition get_fd_keeps_epoll : Prop :=
  forall a k mn me,
    is_Some (interest_of k (mn_fd mn)) ->
    interest_of (or_kernel (op_get_fd (opers_at a) k mn me)) (mn_fd mn)
    = interest_of k (mn_fd mn).

Definition get_fd_stores_fd : Prop :=
  forall a k mn me,
    0 <= or_rc (op_get_fd (opers_at a) k mn me) ->
    or_fd (op_get_fd (opers_at a) k mn me) = or_rc (op_get_fd (opers_at a) k mn me).

Definition well_behaved : Prop :=
  get_fd_sets_errno /\ get_fd_keeps_epoll /\ get_fd_stores_fd.

(** What [mnt_monitor_close_fd] does to one entry [me]: the entry [me']
    that results is what the driver's close operation leaves behind, called
    on the entry [mid] that has the identity of [me] and, if the monitor had
    its epoll descriptor, cleared flags (otherwise [mid] is [me]). *)
Definition closed_entry (had_epoll : bool) (me me' : monitor_entry) : Prop :=
  exists kj mnj mid o,
    opers mid = Some o /\
    me' = driven (op_close_fd o kj mnj mid) mid /\
    same_identity me mid /\
    (if had_epoll then me_enabled mid = false /\ me_active mid = false
     else mid = me).

(** Does the entry at position [i] have this type and identifier?  (The
    test in the loop of [monitor_get_entry].) *)
Definition matches (mn : libmnt_monitor) (type id : Z) (i : nat) : bool :=
  match mn_ents mn !! i with
  | Some me => Z.eqb (me_type me) type && Z.eqb (me_id me) id
  | None => false
  end.

(** [n] calls of [mnt_unref_monitor] in a row; a call on a monitor that has
    been deallocated has no meaning. *)
Fixpoint release (n : nat) (k : kernel) (mn : libmnt_monitor)
    : option (kernel * option libmnt_monitor) :=
  match n with
  | O => Some (k, Some mn)
  | S n' =>
      match mnt_unref_monitor PTR k mn with
      | Some (k', Some mn') => release n' k' mn'
      | _ => None
      end
  end.

(** The largest and the smallest [int]. *)
Definition INT_MAX : Z := 2147483647.
Definition INT_MIN : Z := -2147483648.

(** A descriptor that is closed in [k] is closed in [k']. *)
Definition closed_stays (k k' : kernel) : Prop :=
  forall fd, k_fdt k !! fd = None -> k_fdt k' !! fd = None.

(** Modelled from the spec: [op_close_fd] and [op_free_data] release
    resources.  They open no descriptor, and they either leave the
    descriptor field of the entry as it is or have closed that descriptor. *)
Definition releases (k : kernel) (me : monitor_entry) (r : op_result) : Prop :=
  closed_stays k (or_kernel r) /\
  (0 <= me_fd me ->
   or_fd r = me_fd me \/ k_fdt (or_kernel r) !! me_fd me = None).

Definition drivers_release : Prop :=
  forall a k me,
    (forall mn, releases k me (op_close_fd (opers_at a) k mn me)) /\
    (forall free_data, op_free_data (opers_at a) = Some free_data ->
                       releases k me (free_data k me)).

(** The entries with an accepted event that has not been fetched. *)
Definition count_active (mn : libmnt_monitor) : nat :=
  length (List.filter me_active (mn_ents mn)).

(** All entries without their [active] flag. *)
Definition all_fetched (mn : libmnt_monitor) : libmnt_monitor :=
  set_last None (set_ents (List.map (set_active false) (mn_ents mn)) mn).

End Monitor.

(** ** Example drivers and states *)

Module Drivers.

(** Modelled from the spec: the table-backed drivers (polled system table,
    userspace table file) open their descriptor on first use, release it on
    close, accept every event and have no structured detail.  [ready] tells
    whether the file is ready as soon as it is opened. *)
Definition table_get_fd (ready : bool) (k : kernel) (mn : libmnt_monitor)
    (me : monitor_entry) : op_result :=
  if Z.leb 0 (me_fd me)
  then {| or_kernel := k; or_fd := me_fd me; or_data := me_data me; or_rc := me_fd me |}
  else let '(k', fd) := open_file ready k in
       {| or_kernel := k'; or_fd := fd; or_data := me_data me;
          or_rc := if Z.ltb fd 0 then neg_errno k' else fd |}.

Definition table_close_fd (k : kernel) (mn : libmnt_monitor)
    (me : monitor_entry) : op_result :=
  {| or_kernel := if Z.leb 0 (me_fd me) then fst (close k (me_fd me)) else k;
     or_fd := -1; or_data := me_data me; or_rc := 0 |}.

Definition accept_event (k : kernel) (mn : libmnt_monitor)
    (me : monitor_entry) : op_result :=
  {| or_kernel := k; or_fd := me_fd me; or_data := me_data me; or_rc := 0 |}.

(** Modelled from the spec: [op_process_event] "must fully drain or
    acknowledge the underlying notification".  The driver of a descriptor
    that is watched level-triggered reads it empty. *)
Definition read_event (k : kernel) (mn : libmnt_monitor)
    (me : monitor_entry) : op_result :=
  {| or_kernel := read_file k (me_fd me); or_fd := me_fd me;
     or_data := me_data me; or_rc := 0 |}.

Definition mountinfo_opers : monitor_opers :=
  {| op_get_fd := table_get_fd true;
     op_close_fd := table_close_fd;
     op_free_data := None;
     op_process_event := accept_event;
     op_next_fs := None |}.

Definition utab_opers : monitor_opers :=
  {| op_get_fd := table_get_fd false;
     op_close_fd := table_close_fd;
     op_free_data := None;
     op_process_event := read_event;
     op_next_fs := None |}.

(** Modelled from the spec: the attach/detach channel keeps in its private
    data the number of detail records of the accepted event; an event
    without records is outside the tracked scope and ignored; the detail
    operation yields one record per call and then "no more". *)
Definition channel_process_event (k : kernel) (mn : libmnt_monitor)
    (me : monitor_entry) : op_result :=
  {| or_kernel := read_file k (me_fd me); or_fd := me_fd me; or_data := me_data me;
     or_rc := if Z.ltb 0 (me_data me) then 0 else 1 |}.

Definition channel_next_fs (k : kernel) (mn : libmnt_monitor)
    (me : monitor_entry) (fs : libmnt_fs) : op_result * libmnt_fs :=
  if Z.ltb 0 (me_data me)
  then ({| or_kernel := k; or_fd := me_fd me; or_data := me_data me - 1; or_rc := 0 |},
        {| fs_uniq_id := me_data me |})
  else ({| or_kernel := k; or_fd := me_fd me; or_data := me_data me; or_rc := 1 |}, fs).

Definition channel_opers : monitor_opers :=
  {| op_get_fd := table_get_fd false;
     op_close_fd := table_close_fd;
     op_free_data := None;
     op_process_event := channel_process_event;
     op_next_fs := Some channel_next_fs |}.

(** The tables at their addresses: 0 the polled system table, 1 the
    userspace table file, 2 the attach/detach channel. *)
Definition table (addr : nat) : monitor_opers :=
  match addr with
  | 0%nat => mountinfo_opers
  | 1%nat => utab_opers
  | _ => channel_opers
  end.

(** A driver whose [op_get_fd] fails: it returns -1, with errno set to [e],
    or with errno as it was ([None]: no system call has failed, the driver
    has given up for a reason of its own). *)
Definition failing_get_fd (e : option N) (k : kernel) (mn : libmnt_monitor)
    (me : monitor_entry) : op_result :=
  {| or_kernel := match e with Some e => set_errno e k | None => k end;
     or_fd := me_fd me; or_data := me_data me; or_rc := -1 |}.

Definition failing_opers (e : option N) : monitor_opers :=
  {| op_get_fd := failing_get_fd e;
     op_close_fd := table_close_fd;
     op_free_data := None;
     op_process_event := accept_event;
     op_next_fs := None |}.

(** The tables above, and a failing driver at address 3. *)
Definition table_with_failing (e : option N) (addr : nat) : monitor_opers :=
  match addr with
  | 3%nat => failing_opers e
  | _ => table addr
  end.

(** A kernel with nothing open and nothing pending. *)
Definition boot : kernel :=
  {| k_errno := 0; k_fdt := ∅; k_ready := []; k_future := []; k_nomem := [] |}.

(** The standard streams are open: descriptors 0, 1, 2. *)
Definition stdio : kernel :=
  set_fdt (list_to_map [(0, FdFile false); (1, FdFile false); (2, FdFile false)]) boot.

(** An entry for the polled system table, as its enable function sets it
    up (the type numbers are those of [libmount.h]). *)
Definition mountinfo_entry : monitor_entry :=
  {| me_fd := -1; me_id := -1; me_path := Some "/proc/self/mountinfo"%string;
     me_type := 2; me_events := Z.lor EPOLLIN EPOLLET; me_opers := Some 0%nat;
     me_data := 0; me_enabled := false; me_active := false |}.

Definition utab_entry : monitor_entry :=
  {| me_fd := -1; me_id := -1; me_path := Some "/run/mount/utab"%string;
     me_type := 1; me_events := EPOLLIN; me_opers := Some 1%nat;
     me_data := 0; me_enabled := false; me_active := false |}.

Definition channel_entry (records : Z) : monitor_entry :=
  {| me_fd := -1; me_id := -1; me_path := None;
     me_type := 3; me_events := EPOLLIN; me_opers := Some 2%nat;
     me_data := records; me_enabled := false; me_active := false |}.

Definition with_fd (fd : Z) (me : monitor_entry) : monitor_entry :=
  driven {| or_kernel := boot; or_fd := fd; or_data := me_data me; or_rc := 0 |} me.

(** An entry of a device watched level-triggered whose driver fails. *)
Definition failing_entry : monitor_entry :=
  {| me_fd := -1; me_id := -1; me_path := Some "/dev/failing"%string;
     me_type := 4; me_events := EPOLLIN; me_opers := Some 3%nat;
     me_data := 0; me_enabled := false; me_active := false |}.

End Drivers.

(** ** Example states *)

Module Scenario.

Import Drivers.

(** A monitor with the descriptor field [fd] and the entries [ents]. *)
Definition watching (fd : Z) (ents : list monitor_entry) : libmnt_monitor :=
  set_fd fd (set_ents ents mnt_new_monitor).

Definition reported (i : nat) (mn : libmnt_monitor) : libmnt_monitor :=
  set_last (Some i) mn.

Definition fs0 : libmnt_fs := {| fs_uniq_id := 0 |}.

Definition on (me : monitor_entry) : monitor_entry := set_flags true false me.

Definition pending (me : monitor_entry) : monitor_entry := set_flags true true me.

(** The standard streams, an epoll instance at descriptor 3 and a table
    file at descriptor 4; [int] is the interest list of the epoll
    instance. *)
Definition running (int : list (Z * epoll_event)) : kernel :=
  set_fdt (<[4 := FdFile true]> (<[3 := FdEpoll (list_to_map int)]> (k_fdt stdio)))
          stdio.

Definition tag (events : Z) (i : nat) : epoll_event :=
  {| ev_events := events; ev_data := Some i |}.

(** The mount table entry is registered for descriptor 4. *)
Definition table_watched : kernel := running [(4, tag (Z.lor EPOLLIN EPOLLET) 0)].

(** The attach/detach channel is registered for descriptor 4. *)
Definition channel_watched : kernel := running [(4, tag EPOLLIN 0)].

(** A monitor whose only entry, the mount table, has an accepted event that
    has not been fetched yet. *)
Definition table_changed : libmnt_monitor :=
  watching 3 [with_fd 4 (pending mountinfo_entry)].

(** The same monitor after the event has been fetched. *)
Definition table_fetched : libmnt_monitor :=
  reported 0 (watching 3 [with_fd 4 (on mountinfo_entry)]).

(** A monitor whose only entry, the channel, has an accepted event with
    two detail records; before and after the event has been fetched. *)
Definition channel_changed : libmnt_monitor :=
  watching 3 [with_fd 4 (pending (channel_entry 2))].

Definition channel_fetched : libmnt_monitor :=
  reported 0 (watching 3 [with_fd 4 (on (channel_entry 2))]).

(** A monitor whose only entry, the mount table, is enabled and has nothing
    to report. *)
Definition table_idle : libmnt_monitor :=
  watching 3 [with_fd 4 (on mountinfo_entry)].

(** The standard streams and, at descriptor 4, a file with data to read;
    no epoll instance. *)
Definition file_ready : kernel :=
  set_fdt (<[4 := FdFile true]> (k_fdt stdio)) stdio.

(** A monitor without epoll descriptor and with two enabled entries: the
    mount table and a device whose driver fails. *)
Definition with_failing : libmnt_monitor :=
  watching (-1) [on mountinfo_entry; on failing_entry].

End Scenario.

(** ** Facts about the kernel model *)

Section KernelFacts.

Lemma interest_of_Some k epfd i :
  interest_of k epfd = Some i <-> k_fdt k !! epfd = Some (FdEpoll i).
Proof.
  unfold interest_of. destruct (k_fdt k !! epfd) as [[j|r]|]; split; congruence.
Qed.

Lemma pick_length i q fd ev r :
  pick i q = Some (fd, ev, r) -> length q = S (length r).
Proof.
  revert fd ev r. induction q as [|x q IH]; intros fd ev r; simpl; [discriminate|].
  destruct (i !! x) as [e|].
  - intros [= <- <- <-]. reflexivity.
  - destruct (pick i q) as [[[y e] q']|]; [|discriminate].
    intros [= <- <- <-]. simpl. f_equal. eauto.
Qed.

(** What [pick] finds is registered, and the rest is the queue without it. *)
Lemma pick_In i q fd ev r :
  pick i q = Some (fd, ev, r) ->
  i !! fd = Some ev /\ forall x, In x q <-> x = fd \/ In x r.
Proof.
  revert fd ev r. induction q as [|y q IH]; intros fd ev r; simpl; [discriminate|].
  destruct (i !! y) as [e|] eqn:He.
  - intros [= <- <- <-]. split; [exact He|]. intros x. intuition auto.
  - destruct (pick i q) as [[[z e] q']|] eqn:Hp; [|discriminate].
    intros [= <- <- <-]. destruct (IH _ _ _ eq_refl) as [Hz Hin].
    split; [exact Hz|]. intros x. simpl. rewrite Hin. intuition auto.
Qed.

Lemma pick_None i q :
  pick i q = None <-> forall x, In x q -> i !! x = None.
Proof.
  induction q as [|y q IH]; simpl.
  - split; [intros _ x []|reflexivity].
  - destruct (i !! y) as [e|] eqn:He.
    + split; [discriminate|]. intros H. rewrite (H y) in He by auto. discriminate.
    + destruct (pick i q) as [[[z e] q']|].
      * split; [discriminate|]. intros H. exfalso.
        assert (Some (z, e, q') = @None (Z * epoll_event * list Z)) as E
          by (apply IH; intros x Hx; apply H; auto).
        discriminate.
      * split; [|reflexivity]. intros _ x [<-|Hx]; [exact He|].
        apply (proj1 IH eq_refl). exact Hx.
Qed.

Lemma requeue_In fd ev r x :
  In x (requeue fd ev r) <-> In x r \/ (edge_triggered ev = false /\ x = fd).
Proof.
  unfold requeue. destruct (edge_triggered ev).
  - intuition congruence.
  - rewrite in_app_iff. simpl. intuition auto.
Qed.

Lemma requeue_length fd ev r :
  length (requeue fd ev r)
  = if edge_triggered ev then length r else S (length r).
Proof.
  unfold requeue. destruct (edge_triggered ev); [reflexivity|].
  rewrite length_app. simpl. lia.
Qed.

(** A failing system call leaves a positive errno behind. *)
Lemma sleep_result i timeout fut : forall k k' rc p,
  sleep i timeout k fut = Some (k', rc, p) ->
  k_fdt k' = k_fdt k /\
  (rc = 1 \/ rc = 0 /\ p = None \/ rc = -1 /\ p = None /\ k_errno k' = EINTR).
Proof.
  induction fut as [|h fut IH]; intros k k' rc p; simpl.
  - destruct (Z.ltb timeout 0); [discriminate|]. intros [= <- <- <-]. auto.
  - destruct h as [fd| |].
    + destruct (i !! fd) as [ev|].
      * intros [= <- <- <-]. auto.
      * intros H. apply IH in H. exact H.
    + intros [= <- <- <-]. simpl. auto 6.
    + destruct (Z.ltb timeout 0); [apply IH|]. intros [= <- <- <-]. auto.
Qed.

Lemma epoll_wait_result k epfd timeout k' rc p :
  epoll_wait k epfd timeout = Some (k', rc, p) ->
  k_fdt k' = k_fdt k /\
  (rc = 1 \/ rc = 0 /\ p = None \/
   rc = -1 /\ p = None /\ (k_errno k' = EBADF \/ k_errno k' = EINVAL \/ k_errno k' = EINTR)).
Proof.
  unfold epoll_wait. destruct (k_fdt k !! epfd) as [[i|r]|].
  - destruct (pick i (k_ready k)) as [[[fd ev] q]|].
    + intros [= <- <- <-]. auto.
    + destruct (Z.eqb timeout 0).
      * intros [= <- <- <-]. auto.
      * intros H. apply sleep_result in H. intuition auto 7.
  - intros [= <- <- <-]. simpl. auto 8.
  - intros [= <- <- <-]. simpl. auto 8.
Qed.

Lemma epoll_wait_errno k epfd timeout k' rc p :
  epoll_wait k epfd timeout = Some (k', rc, p) -> rc < 0 -> neg_errno k' < 0.
Proof.
  intros H Hrc. apply epoll_wait_result in H as [_ H]. unfold neg_errno.
  destruct H as [->|[[-> _]|(_ & _ & [->|[->| ->]])]]; try lia; reflexivity.
Qed.

(** Polling (a zero timeout) always returns. *)
Lemma epoll_wait_poll k epfd :
  exists k' rc p, epoll_wait k epfd 0 = Some (k', rc, p).
Proof.
  unfold epoll_wait. destruct (k_fdt k !! epfd) as [[i|r]|]; eauto.
  destruct (pick i (k_ready k)) as [[[fd ev] q]|]; simpl; eauto.
Qed.

(** A bounded wait always returns. *)
Lemma sleep_bounded i timeout fut : forall k,
  0 <= timeout -> exists res, sleep i timeout k fut = Some res.
Proof.
  intros k Ht. assert (Z.ltb timeout 0 = false) as E by lia. revert k.
  induction fut as [|h fut IH]; intros k; simpl; rewrite ?E; eauto.
  destruct h as [fd| |]; rewrite ?E; eauto.
  destruct (i !! fd); eauto.
Qed.

Lemma epoll_wait_bounded k epfd timeout :
  0 <= timeout -> exists res, epoll_wait k epfd timeout = Some res.
Proof.
  intros Ht. unfold epoll_wait. destruct (k_fdt k !! epfd) as [[i|r]|]; eauto.
  destruct (pick i (k_ready k)) as [[[fd ev] q]|]; eauto.
  destruct (Z.eqb timeout 0); eauto using sleep_bounded.
Qed.

Lemma quiet_poll k epfd : quiet k epfd -> epoll_wait k epfd 0 = Some (k, 0, None).
Proof.
  intros (i & Hi & Hp). apply interest_of_Some in Hi.
  unfold epoll_wait. rewrite Hi, Hp. reflexivity.
Qed.

(** A poll that reports something has found the oldest notification of a
    registered descriptor, and has requeued it. *)
Lemma epoll_wait_poll_ready k epfd k' rc p :
  epoll_wait k epfd 0 = Some (k', rc, p) -> 0 < rc ->
  exists int fd ev q,
    interest_of k epfd = Some int /\ pick int (k_ready k) = Some (fd, ev, q) /\
    k' = set_ready (requeue fd ev q) k /\ rc = 1 /\ p = ev_data ev.
Proof.
  unfold epoll_wait. destruct (k_fdt k !! epfd) as [[i|r]|] eqn:Hfd.
  - destruct (pick i (k_ready k)) as [[[fd ev] q]|] eqn:Hp.
    + intros [= <- <- <-] _. exists i, fd, ev, q.
      split; [apply interest_of_Some; exact Hfd|]. auto.
    + simpl. intros [= <- <- <-]. lia.
  - intros [= <- <- <-]. lia.
  - intros [= <- <- <-]. lia.
Qed.

Lemma epoll_wait_poll_idle k epfd k' rc p :
  epoll_wait k epfd 0 = Some (k', rc, p) -> rc <= 0 ->
  is_Some (interest_of k epfd) -> quiet k' epfd.
Proof.
  intros H Hrc [i Hi]. pose proof Hi as Hi'. apply interest_of_Some in Hi.
  unfold epoll_wait in H. rewrite Hi in H.
  destruct (pick i (k_ready k)) as [[[fd ev] q]|] eqn:Hp.
  - injection H as <- <- <-. lia.
  - simpl in H. injection H as <- <- <-. exists i. auto.
Qed.

(** When a notification is queued for a level-triggered registration, a
    poll reports something, and afterwards such a notification is queued
    still. *)
Lemma level_pending_poll k epfd :
  level_pending k epfd = true ->
  exists k' p, epoll_wait k epfd 0 = Some (k', 1, p) /\ level_pending k' epfd = true.
Proof.
  unfold level_pending. destruct (interest_of k epfd) as [int|] eqn:Hint; [|discriminate].
  intros Hex. apply existsb_exists in Hex as (x & Hx & Hlt).
  destruct (int !! x) as [evx|] eqn:Hevx; [|discriminate].
  destruct (pick int (k_ready k)) as [[[fd ev] q]|] eqn:Hp.
  2:{ rewrite pick_None in Hp. rewrite (Hp x Hx) in Hevx. discriminate. }
  pose proof Hint as Hfd. apply interest_of_Some in Hfd.
  exists (set_ready (requeue fd ev q) k), (ev_data ev). split.
  { unfold epoll_wait. rewrite Hfd, Hp. reflexivity. }
  change (interest_of (set_ready (requeue fd ev q) k) epfd) with (interest_of k epfd).
  rewrite Hint. simpl. apply existsb_exists.
  destruct (pick_In _ _ _ _ _ Hp) as [Hev Hin].
  exists x. rewrite Hevx. split; [|exact Hlt].
  apply requeue_In. apply Hin in Hx as [->|Hx]; [|auto].
  right. split; [|reflexivity]. rewrite Hev in Hevx. injection Hevx as ->.
  apply negb_true_iff in Hlt. exact Hlt.
Qed.

(** When no such notification is queued, a poll that reports something
    uses up a notification. *)
Lemma edge_poll k epfd k' rc p :
  level_pending k epfd = false ->
  epoll_wait k epfd 0 = Some (k', rc, p) -> 0 < rc ->
  (length (k_ready k') < length (k_ready k))%nat /\ level_pending k' epfd = false.
Proof.
  intros Hlp H Hrc.
  destruct (epoll_wait_poll_ready _ _ _ _ _ H Hrc)
    as (int & fd & ev & q & Hint & Hp & -> & _ & _).
  unfold level_pending in *.
  change (interest_of (set_ready (requeue fd ev q) k) epfd) with (interest_of k epfd).
  rewrite Hint in *. simpl.
  destruct (pick_In _ _ _ _ _ Hp) as [Hev Hin].
  assert (forall x, In x (k_ready k) ->
            match int !! x with Some e => negb (edge_triggered e) | None => false end
            = false) as Hall.
  { intros x Hx. destruct (match int !! x with Some e => _ | None => _ end) eqn:E;
      [|reflexivity].
    rewrite <- Hlp. symmetry. apply existsb_exists. eauto. }
  assert (edge_triggered ev = true) as Het.
  { specialize (Hall fd). rewrite Hev in Hall.
    apply negb_false_iff. apply Hall. apply Hin. auto. }
  split.
  - rewrite requeue_length, Het. apply pick_length in Hp. lia.
  - destruct (existsb _ (requeue fd ev q)) eqn:E; [|reflexivity].
    apply existsb_exists in E as (x & Hx & Hlt).
    apply requeue_In in Hx as [Hx|[Hx _]]; [|congruence].
    rewrite Hall in Hlt; [discriminate|]. apply Hin. auto.
Qed.

End KernelFacts.

Section ControlFacts.

Lemma epoll_ctl_result k epfd op fd ev k' rc :
  epoll_ctl k epfd op fd ev = (k', rc) ->
  rc = 0 \/ rc = -1 /\ (0 < k_errno k')%N.
Proof.
  unfold epoll_ctl, fail.
  destruct (k_fdt k !! epfd) as [[i|r]|], (k_fdt k !! fd) as [t|];
    try (intros [= <- <-]; right; split; reflexivity).
  destruct (Z.eqb epfd fd); [intros [= <- <-]; right; split; reflexivity|].
  destruct op, (i !! fd); try (intros [= <- <-]; auto; right; split; reflexivity).
  destruct (out_of_memory k); [intros [= <- <-]; right; split; reflexivity|].
  destruct t as [j|[|]]; intros [= <- <-]; auto.
Qed.

Lemma epoll_ctl_errno k epfd op fd ev k' rc :
  epoll_ctl k epfd op fd ev = (k', rc) -> rc < 0 -> neg_errno k' < 0.
Proof.
  intros H Hrc. apply epoll_ctl_result in H as [->|[_ H]]; [lia|].
  unfold neg_errno. lia.
Qed.

(** After an addition that succeeded, or failed because the descriptor was
    there already, the descriptor is in the interest list, and nothing else
    has changed in that list. *)
Lemma epoll_ctl_add_registered k epfd fd ev k' rc :
  epoll_ctl k epfd EPOLL_CTL_ADD fd ev = (k', rc) ->
  Z.ltb rc 0 && negb (N.eqb (k_errno k') EEXIST) = false ->
  exists i0 i, interest_of k epfd = Some i0 /\ interest_of k' epfd = Some i /\
               is_Some (i !! fd) /\ (i = i0 \/ i = <[fd := ev]> i0).
Proof.
  unfold epoll_ctl, fail.
  destruct (k_fdt k !! epfd) as [[i|r]|] eqn:He, (k_fdt k !! fd) as [t|] eqn:Hf;
    try (intros [= <- <-]; discriminate).
  assert (interest_of k epfd = Some i) as Hi0 by (apply interest_of_Some; exact He).
  destruct (Z.eqb epfd fd); [intros [= <- <-]; discriminate|].
  destruct (i !! fd) as [e|] eqn:Hi.
  - intros [= <- <-] _. exists i, i. eauto.
  - destruct (out_of_memory k); [intros [= <- <-]; discriminate|].
    assert (forall q, interest_of (set_ready q
              (set_fdt (<[epfd:=FdEpoll (<[fd:=ev]> i)]> (k_fdt k)) (allocated k))) epfd
            = Some (<[fd:=ev]> i)) as Hq.
    { intros q. apply interest_of_Some. simpl. apply lookup_insert_eq. }
    destruct t as [j|[|]]; intros [= <- <-] _; exists i, (<[fd:=ev]> i);
      (split; [exact Hi0|]);
      (split; [first [apply Hq | apply interest_of_Some; simpl; apply lookup_insert_eq]
              | rewrite lookup_insert_eq; eauto]).
Qed.

(** A removal that succeeds takes exactly the descriptor out of the
    interest list. *)
Lemma epoll_ctl_del_ok k epfd fd ev k' i :
  epoll_ctl k epfd EPOLL_CTL_DEL fd ev = (k', 0) ->
  interest_of k epfd = Some i ->
  interest_of k' epfd = Some (delete fd i) /\ is_Some (i !! fd).
Proof.
  intros H Hi. apply interest_of_Some in Hi. revert H.
  unfold epoll_ctl, fail. rewrite Hi.
  destruct (k_fdt k !! fd) as [t|]; [|discriminate].
  destruct (Z.eqb epfd fd); [discriminate|].
  destruct (i !! fd) as [e|]; [|discriminate].
  intros [= <-]. split; [|eauto].
  apply interest_of_Some. simpl. apply lookup_insert_eq.
Qed.

Lemma lowest_free_Some t fd :
  lowest_free t = Some fd -> 0 <= fd /\ t !! fd = None.
Proof.
  unfold lowest_free. intros H. apply find_some in H as [Hin H].
  apply bool_decide_eq_true in H. split; [|exact H].
  apply in_map_iff in Hin as (n & <- & _). lia.
Qed.

(** [epoll_create1] yields -1 and a positive errno, or a descriptor that was
    free, now an epoll instance with an empty interest list. *)
Lemma epoll_create1_result k k' fd :
  epoll_create1 k = (k', fd) ->
  (fd = -1 /\ (0 < k_errno k')%N /\ k_fdt k' = k_fdt k) \/
  (0 <= fd /\ k_fdt k !! fd = None /\ k_fdt k' = <[fd := FdEpoll ∅]> (k_fdt k) /\
   k_ready k' = k_ready k).
Proof.
  unfold epoll_create1, fail.
  destruct (out_of_memory k).
  { intros [= <- <-]. left. repeat split. }
  destruct (lowest_free (k_fdt k)) as [n|] eqn:Hn.
  - intros [= <- <-]. apply lowest_free_Some in Hn as [? ?]. right. auto.
  - intros [= <- <-]. left. repeat split.
Qed.

Lemma pick_empty q : pick ∅ q = None.
Proof.
  induction q as [|fd q IH]; simpl; [reflexivity|].
  rewrite lookup_empty, IH. reflexivity.
Qed.

Lemma close_closed k fd : k_fdt (fst (close k fd)) !! fd = None.
Proof.
  unfold close. destruct (k_fdt k !! fd) eqn:H; simpl; [|exact H].
  rewrite lookup_fmap, lookup_delete_eq. reflexivity.
Qed.

Variable epfd : Z.

(** The drain loop, when it ends, has changed nothing but the queue (and
    errno, if the last poll failed), and leaves nothing to report. *)
Lemma drain_loop_quiet fuel : forall k k',
  drain_loop fuel k epfd = Some k' ->
  k_fdt k' = k_fdt k /\ (is_Some (interest_of k epfd) -> quiet k' epfd).
Proof.
  induction fuel as [|fuel IH]; intros k k'; simpl; [discriminate|].
  destruct (epoll_wait k epfd 0) as [[[k1 rc] p]|] eqn:H; [|discriminate].
  pose proof (epoll_wait_result _ _ _ _ _ _ H) as [Hfdt _].
  destruct (Z.ltb 0 rc) eqn:Hrc.
  - intros Hd. apply IH in Hd as [Hf2 Hq]. split; [congruence|].
    intros Hs. apply Hq. unfold interest_of in *. rewrite Hfdt. exact Hs.
  - intros [= <-]. split; [exact Hfdt|].
    intros Hs. eapply epoll_wait_poll_idle; eauto. lia.
Qed.

(** The loop never ends while a notification is queued for a
    level-triggered registration: however many turns it is given. *)
Lemma drain_loop_spins fuel : forall k,
  level_pending k epfd = true -> drain_loop fuel k epfd = None.
Proof.
  induction fuel as [|fuel IH]; intros k Hlp; simpl; [reflexivity|].
  destruct (level_pending_poll _ _ Hlp) as (k1 & p & -> & Hlp1).
  simpl. apply IH. exact Hlp1.
Qed.

(** Otherwise it ends within one turn per queued notification, and one
    more. *)
Lemma drain_loop_ends fuel : forall k,
  level_pending k epfd = false ->
  (length (k_ready k) < fuel)%nat ->
  exists k', drain_loop fuel k epfd = Some k'.
Proof.
  induction fuel as [|fuel IH]; intros k Hlp Hlen; [lia|]. simpl.
  destruct (epoll_wait_poll k epfd) as (k1 & rc & p & H). rewrite H.
  destruct (Z.ltb 0 rc) eqn:Hrc; [|eauto].
  apply Z.ltb_lt in Hrc.
  destruct (edge_poll _ _ _ _ _ Hlp H Hrc) as [Hlt Hlp1].
  apply IH; [exact Hlp1|lia].
Qed.

Lemma drain_loop_more fuel : forall k k' fuel',
  drain_loop fuel k epfd = Some k' -> (fuel <= fuel')%nat ->
  drain_loop fuel' k epfd = Some k'.
Proof.
  induction fuel as [|fuel IH]; intros k k' fuel'; simpl; [discriminate|].
  intros H Hle. destruct fuel' as [|fuel']; [lia|]. simpl.
  destruct (epoll_wait k epfd 0) as [[[k1 rc] p]|]; [|discriminate].
  destruct (Z.ltb 0 rc); [|exact H]. apply IH; [exact H|lia].
Qed.

(** [drain] is the loop: it yields a kernel exactly when the loop ends. *)
Lemma drain_Some k :
  level_pending k epfd = false ->
  exists k', drain k epfd = Some k' /\ k_fdt k' = k_fdt k /\
             (is_Some (interest_of k epfd) -> quiet k' epfd).
Proof.
  intros Hlp. destruct (drain_loop_ends (S (length (k_ready k))) k Hlp) as [k' Hd]; [lia|].
  exists k'. split; [exact Hd|]. apply (drain_loop_quiet _ _ _ Hd).
Qed.

Lemma drain_None k :
  drain k epfd = None <-> level_pending k epfd = true.
Proof.
  split.
  - intros Hd. destruct (level_pending k epfd) eqn:Hlp; [reflexivity|].
    destruct (drain_Some k Hlp) as (k' & Hd' & _). congruence.
  - apply drain_loop_spins.
Qed.

Lemma drain_quiet k k' :
  drain k epfd = Some k' ->
  k_fdt k' = k_fdt k /\ (is_Some (interest_of k epfd) -> quiet k' epfd).
Proof. apply drain_loop_quiet. Qed.

(** X18: the drain loop of the enable path,
    [while (epoll_wait(mn->fd, events, 1, 0) > 0);].  While a notification
    is queued for a level-triggered registration of the epoll instance the
    loop never ends, however many turns it is given.  Otherwise it ends
    within one turn per queued notification and one more, with the
    descriptor table as it was and nothing left to report on the epoll
    instance. *)
Theorem drain_loop_level_triggered k :
  (level_pending k epfd = true ->
   drain k epfd = None /\ forall fuel, drain_loop fuel k epfd = None) /\
  (level_pending k epfd = false ->
   exists k',
     drain k epfd = Some k' /\
     (forall fuel, (length (k_ready k) < fuel)%nat -> drain_loop fuel k epfd = Some k') /\
     k_fdt k' = k_fdt k /\
     (is_Some (interest_of k epfd) -> quiet k' epfd)).
Proof.
  split.
  - intros Hlp. split; [|intros fuel]; apply drain_loop_spins; exact Hlp.
  - intros Hlp. destruct (drain_Some k Hlp) as (k' & Hd & Hfdt & Hq).
    exists k'. split; [exact Hd|]. split; [|auto].
    intros fuel Hfuel. eapply drain_loop_more; [exact Hd|lia].
Qed.

End ControlFacts.

(** ** Facts about the monitor operations *)

Lemma same_identity_refl me : same_identity me me.
Proof. repeat split. Qed.

Lemma same_identity_trans a b c :
  same_identity a b -> same_identity b c -> same_identity a c.
Proof. unfold same_identity. intuition congruence. Qed.

Lemma set_entry_twice i a b mn :
  set_entry i a (set_entry i b mn) = set_entry i a mn.
Proof.
  unfold set_entry, set_ents. simpl. f_equal. apply list_insert_insert_eq.
Qed.

Lemma set_entry_lookup i me mn old :
  mn_ents mn !! i = Some old -> mn_ents (set_entry i me mn) !! i = Some me.
Proof.
  intros H. simpl. apply list_lookup_insert_eq. eapply lookup_lt_Some; eauto.
Qed.

Lemma set_entry_lookup_ne i j me mn :
  i <> j -> mn_ents (set_entry i me mn) !! j = mn_ents mn !! j.
Proof. intros H. simpl. apply list_lookup_insert_ne. exact H. Qed.

Lemma set_entry_length i me mn :
  length (mn_ents (set_entry i me mn)) = length (mn_ents mn).
Proof. simpl. apply length_insert. Qed.

Lemma positions_lookup mn i :
  In i (positions mn) <-> is_Some (mn_ents mn !! i).
Proof.
  unfold positions. rewrite in_seq, lookup_lt_is_Some. lia.
Qed.

Section MonitorFacts.

Variable opers_at : nat -> monitor_opers.

(** [monitor_modify_epoll] writes to the entry it is called for and to
    nothing else of the monitor; the entry ends up with the requested
    [enabled] flag, inactive, and with its identity. *)
Lemma monitor_modify_epoll_entry k mn i enable k' mn' rc :
  monitor_modify_epoll opers_at k mn i enable = Some (k', mn', rc) ->
  exists me me', mn_ents mn !! i = Some me /\ mn' = set_entry i me' mn /\
                 me_enabled me' = enable /\ me_active me' = false /\
                 same_identity me me'.
Proof.
  unfold monitor_modify_epoll.
  destruct (mn_ents mn !! i) as [me|] eqn:Hme; [|discriminate].
  set (me1 := set_flags enable false me).
  assert (same_identity me me1) as Hid by (repeat split).
  change (mn_fd (set_entry i me1 mn)) with (mn_fd mn).
  intros H. exists me.
  destruct (Z.ltb (mn_fd mn) 0).
  { injection H as <- <- <-. exists me1. auto. }
  destruct enable.
  - destruct (opers opers_at me1) as [o|]; [|discriminate].
    set (r := op_get_fd _ _ _ _) in H.
    rewrite set_entry_twice in H.
    assert (same_identity me (driven r me1)) as Hid' by (repeat split).
    destruct (Z.ltb (or_rc r) 0).
    { injection H as <- <- <-. exists (driven r me1). auto. }
    destruct (epoll_ctl _ _ _ _ _) as [k2 rc2].
    destruct (_ && _).
    { injection H as <- <- <-. exists (driven r me1). auto. }
    destruct (negb _).
    + destruct (drain _ _); [|discriminate].
      injection H as <- <- <-. exists (driven r me1). auto.
    + injection H as <- <- <-. exists (driven r me1). auto.
  - destruct (negb _).
    + destruct (epoll_ctl _ _ _ _ _) as [k2 rc2].
      destruct (_ && _); injection H as <- <- <-; exists me1; auto.
    + injection H as <- <- <-. exists me1. auto.
Qed.

(** The disable direction always returns: it calls neither a driver nor
    the drain. *)
Lemma monitor_modify_epoll_disable_returns k mn i :
  is_Some (mn_ents mn !! i) ->
  exists res, monitor_modify_epoll opers_at k mn i false = Some res.
Proof.
  intros [me Hme]. unfold monitor_modify_epoll. rewrite Hme.
  destruct (Z.ltb _ 0); [eauto|].
  destruct (negb _); [|eauto].
  destruct (epoll_ctl _ _ _ _ _) as [k2 rc2].
  destruct (_ && _); eauto.
Qed.

(** *** Without an epoll descriptor *)


(** *** Structured detail *)

(** C1 (as amended): a new monitor has no last reported entry; as long as
    there is none, [mnt_monitor_event_next_fs] returns 1, the "no more
    data" result (not an error), and changes nothing; when the last reported
    entry's driver has no detail operation it returns -ENOTSUP and changes
    nothing.  The two results differ. *)
Theorem mnt_monitor_event_next_fs_no_detail k mn fs :
  mn_last mnt_new_monitor = None /\
  (mn_last mn = None ->
   mnt_monitor_event_next_fs opers_at PTR k mn (Some fs) = Some (k, mn, 1, Some fs)) /\
  (forall i me o, mn_last mn = Some i -> mn_ents mn !! i = Some me ->
     opers opers_at me = Some o -> op_next_fs o = None ->
     mnt_monitor_event_next_fs opers_at PTR k mn (Some fs)
     = Some (k, mn, - Z.of_N ENOTSUP, Some fs)) /\
  - Z.of_N ENOTSUP < 0 < 1.
Proof.
  split; [reflexivity|]. split; [|split].
  - intros H. simpl. rewrite H. reflexivity.
  - intros i me o Hl He Ho Hop. simpl. rewrite Hl, He, Ho, Hop. reflexivity.
  - unfold ENOTSUP. lia.
Qed.

(** *** Disabling an entry *)

(** C7: when an entry is disabled while the epoll descriptor exists and the
    removal of its descriptor fails, the failure is ignored (return value 0)
    if errno is ENOENT, and returned as the negative errno otherwise.  (The
    removal is attempted for every entry whose descriptor field is not 0.) *)
Theorem monitor_modify_epoll_removal_failure k mn i me k' rc :
  0 <= mn_fd mn ->
  mn_ents mn !! i = Some me ->
  me_fd me <> 0 ->
  epoll_ctl k (mn_fd mn) EPOLL_CTL_DEL (me_fd me)
            {| ev_events := 0; ev_data := None |} = (k', rc) ->
  rc < 0 ->
  monitor_modify_epoll opers_at k mn i false
  = Some (k', set_entry i (set_flags false false me) mn,
          if N.eqb (k_errno k') ENOENT then 0 else neg_errno k') /\
  neg_errno k' < 0.
Proof.
  intros Hfd Hme Hnz Hctl Hrc. split; [|eapply epoll_ctl_errno; eauto].
  unfold monitor_modify_epoll. rewrite Hme.
  change (mn_fd (set_entry i (set_flags false false me) mn)) with (mn_fd mn).
  change (me_fd (set_flags false false me)) with (me_fd me).
  assert (Z.ltb (mn_fd mn) 0 = false) as -> by lia.
  assert (Z.eqb (me_fd me) 0 = false) as -> by lia.
  simpl negb. cbv iota. rewrite Hctl.
  assert (Z.ltb rc 0 = true) as -> by lia. simpl.
  destruct (N.eqb (k_errno k') ENOENT); reflexivity.
Qed.

(** *** What the operations leave alone *)

Lemma same_frame_refl mn : same_frame mn mn.
Proof. repeat split. Qed.

Lemma same_frame_trans a b c : same_frame a b -> same_frame b c -> same_frame a c.
Proof. unfold same_frame. intuition congruence. Qed.

Lemma same_frame_set_entry i me mn : same_frame mn (set_entry i me mn).
Proof. repeat split. apply set_entry_length. Qed.

Lemma monitor_modify_epoll_frame k mn i enable k' mn' rc :
  monitor_modify_epoll opers_at k mn i enable = Some (k', mn', rc) ->
  same_frame mn mn'.
Proof.
  intros H. apply monitor_modify_epoll_entry in H as (me & me' & _ & -> & _).
  apply same_frame_set_entry.
Qed.

Lemma read_epoll_events_frame fuel : forall k mn timeout k' mn' rc act,
  read_epoll_events opers_at fuel k mn timeout = Some (k', mn', rc, act) ->
  same_frame mn mn'.
Proof.
  induction fuel as [|fuel IH]; intros k mn timeout k' mn' rc act; simpl;
    [discriminate|].
  destruct (epoll_wait k (mn_fd mn) timeout) as [[[k1 rc1] p]|]; [|discriminate].
  destruct (Z.ltb rc1 0); [intros [= <- <- <- <-]; apply same_frame_refl|].
  destruct (Z.eqb rc1 0); [intros [= <- <- <- <-]; apply same_frame_refl|].
  destruct p as [i|]; [|intros [= <- <- <- <-]; apply same_frame_refl].
  destruct (mn_ents mn !! i) as [me|]; [|discriminate].
  destruct (opers opers_at me) as [o|]; [|discriminate].
  set (r := op_process_event _ _ _ _).
  destruct (Z.ltb (or_rc r) 0); [intros [= <- <- <- <-]; apply same_frame_set_entry|].
  destruct (Z.eqb (or_rc r) 0).
  - intros [= <- <- <- <-].
    eapply same_frame_trans; apply same_frame_set_entry.
  - intros H. apply IH in H.
    eapply same_frame_trans; [apply same_frame_set_entry|exact H].
Qed.

(** The return values of [read_epoll_events]: 0 with the accepted entry,
    which is then active; 1 when the last [epoll_wait] has timed out; a
    negative error. *)
Lemma read_epoll_events_result fuel : forall k mn timeout k' mn' rc act,
  read_epoll_events opers_at fuel k mn timeout = Some (k', mn', rc, act) ->
  (rc = 0 /\ exists i me, act = Some i /\ mn_ents mn' !! i = Some me /\
                          me_active me = true) \/
  (rc = 1 /\ act = None /\
   exists kf, epoll_wait kf (mn_fd mn) timeout = Some (k', 0, None)) \/
  (rc < 0 /\ act = None).
Proof.
  induction fuel as [|fuel IH]; intros k mn timeout k' mn' rc act; simpl;
    [discriminate|].
  destruct (epoll_wait k (mn_fd mn) timeout) as [[[k1 rc1] p]|] eqn:Hw; [|discriminate].
  destruct (Z.ltb rc1 0) eqn:Hneg.
  { intros [= <- <- <- <-]. right. right. split; [|reflexivity].
    eapply epoll_wait_errno; eauto. lia. }
  destruct (Z.eqb rc1 0) eqn:Hzero.
  { intros [= <- <- <- <-]. right. left. split; [reflexivity|]. split; [reflexivity|].
    apply Z.eqb_eq in Hzero. subst rc1. exists k.
    destruct (epoll_wait_result _ _ _ _ _ _ Hw) as [_ [?|[[_ ->]|[? _]]]];
      [lia|exact Hw|lia]. }
  destruct p as [i|].
  2:{ intros [= <- <- <- <-]. right. right. split; [reflexivity|reflexivity]. }
  destruct (mn_ents mn !! i) as [me|] eqn:Hme; [|discriminate].
  destruct (opers opers_at me) as [o|]; [|discriminate].
  set (r := op_process_event _ _ _ _).
  destruct (Z.ltb (or_rc r) 0) eqn:Hr.
  { intros [= <- <- <- <-]. right. right. split; [lia|reflexivity]. }
  destruct (Z.eqb (or_rc r) 0).
  - intros [= <- <- <- <-]. left. split; [reflexivity|].
    exists i, (set_active true (driven r me)). split; [reflexivity|].
    split; [|reflexivity].
    eapply set_entry_lookup. eapply set_entry_lookup. exact Hme.
  - intros H. apply IH in H. exact H.
Qed.

(** When nothing is pending on the epoll descriptor, a poll finds nothing
    and changes nothing. *)
Lemma read_epoll_events_quiet fuel k mn :
  quiet k (mn_fd mn) ->
  read_epoll_events opers_at (S fuel) k mn 0 = Some (k, mn, 1, None).
Proof. intros H. simpl. rewrite (quiet_poll _ _ H). reflexivity. Qed.

(** *** Fetching the next change *)

Lemma get_active_Some mn i :
  get_active mn = Some i ->
  exists me, mn_ents mn !! i = Some me /\ me_active me = true.
Proof.
  unfold get_active. intros H. apply find_some in H as [_ H].
  destruct (mn_ents mn !! i) as [me|]; [eauto|discriminate].
Qed.

Lemma get_active_unique mn i me :
  mn_ents mn !! i = Some me -> me_active me = true ->
  (forall j e, j <> i -> mn_ents mn !! j = Some e -> me_active e = false) ->
  get_active mn = Some i.
Proof.
  intros Hme Hact Huniq.
  destruct (get_active mn) as [j|] eqn:Hg.
  - apply get_active_Some in Hg as (e & He & Ha).
    destruct (decide (j = i)) as [->|Hne]; [reflexivity|].
    rewrite (Huniq j e Hne He) in Ha. discriminate.
  - unfold get_active in Hg.
    eapply find_none with (x := i) in Hg.
    + rewrite Hme, Hact in Hg. discriminate.
    + apply positions_lookup. eauto.
Qed.

Lemma get_active_None mn :
  (forall j e, mn_ents mn !! j = Some e -> me_active e = false) ->
  get_active mn = None.
Proof.
  intros H. destruct (get_active mn) as [j|] eqn:Hg; [|reflexivity].
  apply get_active_Some in Hg as (e & He & Ha).
  rewrite (H j e He) in Ha. discriminate.
Qed.

(** C10 (as amended): once the guard on the arguments is passed (the
    monitor is not null and has its epoll descriptor),
    [mnt_monitor_next_change] clears the back-reference to the last reported
    entry first; so whenever such a call returns anything but 0, the
    back-reference is null afterwards and a following
    [mnt_monitor_event_next_fs] returns 1 ("no more data") and changes
    nothing. *)
Theorem mnt_monitor_next_change_clears_last
    fuel k mn filename type k' mn' c fs :
  0 <= mn_fd mn ->
  mnt_monitor_next_change opers_at fuel PTR k mn filename type = Some (k', mn', c) ->
  ch_rc c <> 0 ->
  mn_last mn' = None /\
  mnt_monitor_event_next_fs opers_at PTR k' mn' (Some fs) = Some (k', mn', 1, Some fs).
Proof.
  intros Hfd H Hrc.
  assert (mn_last mn' = None) as Hlast.
  { unfold mnt_monitor_next_change in H.
    assert (Z.ltb (mn_fd mn) 0 = false) as E by lia. rewrite E in H.
    destruct (get_active (set_last None mn)) as [i|].
    - destruct (mn_ents (set_last None mn) !! i); [|discriminate].
      injection H as <- <- <-. simpl in Hrc. congruence.
    - destruct (read_epoll_events _ _ _ _ _) as [[[[k1 mn1] rc1] act]|] eqn:Hr;
        [|discriminate].
      apply read_epoll_events_frame in Hr as (_ & Hl & _).
      destruct (Z.eqb rc1 0) eqn:E0; simpl in H.
      + destruct act as [i|]; [|discriminate].
        destruct (mn_ents mn1 !! i); [|discriminate].
        injection H as <- <- <-. simpl in Hrc. congruence.
      + injection H as <- <- <-. exact Hl. }
  split; [exact Hlast|]. simpl. rewrite Hlast. reflexivity.
Qed.

(** C5: in a state with exactly one active entry and nothing pending on the
    epoll descriptor, [mnt_monitor_next_change] returns 0, stores the path
    and the type of that entry through the arguments that are not null,
    clears the entry's [active] flag and records the entry as the last
    reported one; a second call right after it returns 1 ("no change"),
    stores nothing and leaves no last reported entry. *)
Theorem mnt_monitor_next_change_consumes
    fuel k mn i me filename type :
  0 <= mn_fd mn ->
  quiet k (mn_fd mn) ->
  mn_ents mn !! i = Some me ->
  me_active me = true ->
  (forall j e, j <> i -> mn_ents mn !! j = Some e -> me_active e = false) ->
  let mn1 := set_last (Some i) (set_entry i (set_active false me) mn) in
  let c1 := {| ch_rc := 0;
               ch_filename := match filename with
                              | Some _ => Some (me_path me)
                              | None => None
                              end;
               ch_type := match type with
                          | Some _ => Some (me_type me)
                          | None => None
                          end |} in
  mnt_monitor_next_change opers_at (S fuel) PTR k mn filename type
  = Some (k, mn1, c1) /\
  mnt_monitor_next_change opers_at (S fuel) PTR k mn1 (ch_filename c1) (ch_type c1)
  = Some (k, set_last None mn1,
          {| ch_rc := 1; ch_filename := ch_filename c1; ch_type := ch_type c1 |}).
Proof.
  intros Hfd Hq Hme Hact Huniq mn1 c1.
  assert (Z.ltb (mn_fd mn) 0 = false) as E by lia.
  split.
  - unfold mnt_monitor_next_change. rewrite E.
    rewrite (get_active_unique (set_last None mn) i me Hme Hact Huniq).
    simpl mn_ents. rewrite Hme. reflexivity.
  - unfold mnt_monitor_next_change.
    change (mn_fd mn1) with (mn_fd mn). rewrite E.
    rewrite get_active_None.
    + rewrite read_epoll_events_quiet by exact Hq. reflexivity.
    + intros j e. simpl.
      destruct (decide (j = i)) as [->|Hne].
      * rewrite list_lookup_insert_eq by (eapply lookup_lt_Some; eauto).
        intros [= <-]. reflexivity.
      * rewrite list_lookup_insert_ne by congruence. apply Huniq. exact Hne.
Qed.

(** *** Enabling an entry *)

(** Enabling an entry without operation table, on a monitor with its epoll
    descriptor, follows the null pointer. *)
Lemma monitor_modify_epoll_null k mn i me :
  0 <= mn_fd mn ->
  mn_ents mn !! i = Some me ->
  opers opers_at me = None ->
  monitor_modify_epoll opers_at k mn i true = None.
Proof.
  intros Hfd Hme Ho. unfold monitor_modify_epoll. rewrite Hme.
  change (mn_fd (set_entry i (set_flags true false me) mn)) with (mn_fd mn).
  assert (Z.ltb (mn_fd mn) 0 = false) as -> by lia.
  cbv zeta.
  change (opers opers_at (set_flags true false me)) with (opers opers_at me).
  rewrite Ho. reflexivity.
Qed.

(** The enable direction with an epoll descriptor, as one equation. *)
Lemma monitor_modify_epoll_enable_eq k mn i me o :
  0 <= mn_fd mn ->
  mn_ents mn !! i = Some me ->
  opers opers_at me = Some o ->
  let me1 := set_flags true false me in
  let r := op_get_fd o k (set_entry i me1 mn) me1 in
  let mn1 := set_entry i (driven r me1) mn in
  let ctl := epoll_ctl (or_kernel r) (mn_fd mn) EPOLL_CTL_ADD (or_rc r)
               {| ev_events := me_events me; ev_data := Some i |} in
  monitor_modify_epoll opers_at k mn i true
  = if Z.ltb (or_rc r) 0 then Some (or_kernel r, mn1, neg_errno (or_kernel r))
    else if Z.ltb (snd ctl) 0 && negb (N.eqb (k_errno (fst ctl)) EEXIST)
    then Some (fst ctl, mn1, neg_errno (fst ctl))
    else if wants_drain me
    then match drain (fst ctl) (mn_fd mn) with
         | Some k3 => Some (k3, mn1, 0)
         | None => None
         end
    else Some (fst ctl, mn1, 0).
Proof.
  intros Hfd Hme Ho me1 r mn1 ctl.
  unfold monitor_modify_epoll. rewrite Hme.
  change (mn_fd (set_entry i (set_flags true false me) mn)) with (mn_fd mn).
  assert (Z.ltb (mn_fd mn) 0 = false) as -> by lia.
  cbv zeta. fold me1. change (opers opers_at me1) with (opers opers_at me). rewrite Ho.
  fold r. rewrite set_entry_twice. fold mn1.
  change (mn_fd mn1) with (mn_fd mn).
  destruct (Z.ltb (or_rc r) 0); [reflexivity|].
  change (me_events me1) with (me_events me). fold ctl.
  destruct ctl as [k2 rc2]. simpl fst. simpl snd.
  destruct (_ && _); reflexivity.
Qed.

(** The same, case by case: the driver fails; the addition fails; the entry
    is registered (and then nothing is pending if the entry wants the
    drain). *)
Lemma monitor_modify_epoll_enable k mn i me k' mn' rc :
  0 <= mn_fd mn ->
  mn_ents mn !! i = Some me ->
  monitor_modify_epoll opers_at k mn i true = Some (k', mn', rc) ->
  exists o, opers opers_at me = Some o /\
  let me1 := set_flags true false me in
  let r := op_get_fd o k (set_entry i me1 mn) me1 in
  mn' = set_entry i (driven r me1) mn /\
  ((or_rc r < 0 /\ k' = or_kernel r /\ rc = neg_errno k') \/
   (0 <= or_rc r /\ rc < 0 /\ rc = neg_errno k') \/
   (0 <= or_rc r /\ rc = 0 /\
    (exists int0 int,
       interest_of (or_kernel r) (mn_fd mn) = Some int0 /\
       interest_of k' (mn_fd mn) = Some int /\ is_Some (int !! or_rc r) /\
       (int = int0 \/
        int = <[or_rc r := {| ev_events := me_events me; ev_data := Some i |}]> int0)) /\
    (wants_drain me = true -> quiet k' (mn_fd mn)))).
Proof.
  intros Hfd Hme H.
  destruct (opers opers_at me) as [o|] eqn:Ho.
  2:{ rewrite (monitor_modify_epoll_null _ _ _ _ Hfd Hme Ho) in H. discriminate. }
  exists o. split; [reflexivity|]. intros me1 r.
  rewrite (monitor_modify_epoll_enable_eq _ _ _ _ _ Hfd Hme Ho) in H.
  cbv zeta in H. fold me1 in H. fold r in H.
  destruct (Z.ltb (or_rc r) 0) eqn:Hr.
  { injection H as <- <- <-. split; [reflexivity|]. left. split; [lia|]. auto. }
  destruct (epoll_ctl _ _ _ _ _) as [k2 rc2] eqn:Hctl. simpl fst in H. simpl snd in H.
  destruct (_ && _) eqn:Hfail.
  { injection H as <- <- <-. split; [reflexivity|]. right. left.
    apply andb_prop in Hfail as [Hlt _].
    split; [lia|]. split; [|reflexivity].
    eapply epoll_ctl_errno; eauto. lia. }
  destruct (epoll_ctl_add_registered _ _ _ _ _ _ Hctl Hfail)
    as (int0 & int & Hint0 & Hint & Hin & Hgrow).
  destruct (wants_drain me).
  - destruct (drain k2 (mn_fd mn)) as [k3|] eqn:Hd; [|discriminate].
    destruct (drain_quiet _ _ _ Hd) as [Hfdt Hq].
    injection H as <- <- <-. split; [reflexivity|]. right. right.
    split; [lia|]. split; [reflexivity|]. split.
    + exists int0, int. split; [exact Hint0|]. split; [|auto].
      unfold interest_of in *. rewrite Hfdt. exact Hint.
    + intros _. apply Hq. rewrite Hint. eauto.
  - injection H as <- <- <-. split; [reflexivity|]. right. right.
    split; [lia|]. split; [reflexivity|]. split; [eauto 7|discriminate].
Qed.

(** *** Building the epoll descriptor *)

Lemma add_entries_frame todo : forall k mn k' mn' rc,
  add_entries opers_at k mn todo = Some (k', mn', rc) -> same_frame mn mn'.
Proof.
  induction todo as [|i todo IH]; intros k mn k' mn' rc; simpl.
  - intros [= <- <- <-]. apply same_frame_refl.
  - destruct (mn_ents mn !! i) as [me|]; [|discriminate].
    destruct (negb (me_enabled me)); [apply IH|].
    destruct (monitor_modify_epoll _ _ _ _ _) as [[[k1 mn1] rc1]|] eqn:Hm;
      [|discriminate].
    apply monitor_modify_epoll_frame in Hm.
    destruct (Z.eqb rc1 0).
    + intros H. apply IH in H. eapply same_frame_trans; eauto.
    + intros [= <- <- <-]. exact Hm.
Qed.

Lemma positions_valid mn :
  Forall (fun i => (i < length (mn_ents mn))%nat) (positions mn).
Proof. apply List.Forall_forall. intros i Hi. apply in_seq in Hi. lia. Qed.

(** Entries that are all disabled leave nothing to add. *)
Lemma add_entries_disabled todo k mn :
  (forall i, In i todo -> exists me, mn_ents mn !! i = Some me /\ me_enabled me = false) ->
  add_entries opers_at k mn todo = Some (k, mn, 0).
Proof.
  induction todo as [|i todo IH]; intros H; simpl; [reflexivity|].
  destruct (H i) as (me & -> & ->); [left; reflexivity|]. simpl.
  apply IH. intros j Hj. apply H. right. exact Hj.
Qed.

(** The loop keeps every [enabled] flag and the identity of every entry,
    and leaves the disabled entries (and those it is not asked to visit)
    entirely alone; the enabled entries it has visited are not active. *)
Lemma add_entries_entries todo : forall k mn k' mn' rc,
  add_entries opers_at k mn todo = Some (k', mn', rc) ->
  forall j e, mn_ents mn !! j = Some e ->
    exists e', mn_ents mn' !! j = Some e' /\ same_identity e e' /\
               me_enabled e' = me_enabled e /\
               (me_enabled e = false -> e' = e) /\
               (~ In j todo -> e' = e) /\
               (rc = 0 -> In j todo -> me_enabled e = true -> me_active e' = false).
Proof.
  induction todo as [|i todo IH]; intros k mn k' mn' rc; simpl.
  { intros [= <- <- <-] j e He. exists e. split; [exact He|].
    split; [apply same_identity_refl|]. tauto. }
  destruct (mn_ents mn !! i) as [me|] eqn:Hme; [|discriminate].
  destruct (me_enabled me) eqn:Hen; simpl.
  2:{ intros H j e He. destruct (IH _ _ _ _ _ H j e He)
        as (e' & He' & Hid & Hene & Hoff & Hout & Hact).
      exists e'. split; [exact He'|]. split; [exact Hid|]. split; [exact Hene|].
      split; [exact Hoff|]. split; [tauto|].
      intros Hrc [<-|Hj] Hon; [congruence|auto]. }
  destruct (monitor_modify_epoll _ _ _ _ _) as [[[k1 mn1] rc1]|] eqn:Hm; [|discriminate].
  destruct (monitor_modify_epoll_entry _ _ _ _ _ _ _ Hm)
    as (me0 & me' & Hme0 & -> & Hen' & Hact' & Hid').
  assert (me0 = me) as -> by congruence.
  destruct (Z.eqb rc1 0) eqn:Hrc1.
  - intros H j e He. destruct (decide (i = j)) as [<-|Hne].
    + assert (e = me) as -> by congruence.
      destruct (IH _ _ _ _ _ H i me' (set_entry_lookup _ _ _ _ Hme))
        as (e' & He' & Hid & Hene & Hoff & Hout & Hact).
      exists e'. split; [exact He'|].
      split; [eapply same_identity_trans; eauto|].
      split; [congruence|]. split; [congruence|]. split; [tauto|].
      intros Hrc _ _. destruct (in_dec Nat.eq_dec i todo) as [Hin|Hnin].
      * apply Hact; auto.
      * rewrite (Hout Hnin). exact Hact'.
    + destruct (IH _ _ _ _ _ H j e) as (e' & He' & Hid & Hene & Hoff & Hout & Hact).
      { rewrite set_entry_lookup_ne by exact Hne. exact He. }
      exists e'. split; [exact He'|]. split; [exact Hid|]. split; [exact Hene|].
      split; [exact Hoff|]. split; [tauto|].
      intros Hrc [Hj|Hj] Hon; [congruence|auto].
  - intros [= <- <- <-] j e He. destruct (decide (i = j)) as [<-|Hne].
    + assert (e = me) as -> by congruence.
      exists me'. split; [apply (set_entry_lookup _ _ _ _ Hme)|].
      split; [exact Hid'|]. split; [congruence|]. split; [congruence|].
      split; [tauto|]. intros ->. discriminate.
    + exists e. rewrite set_entry_lookup_ne by exact Hne.
      split; [exact He|]. split; [apply same_identity_refl|].
      split; [reflexivity|]. split; [reflexivity|]. split; [reflexivity|].
      intros ->. discriminate.
Qed.

(** When the loop stops early, it is at an enabled entry whose enable call
    has returned the value the loop returns. *)
Lemma add_entries_failure todo : forall k mn k' mn' rc,
  add_entries opers_at k mn todo = Some (k', mn', rc) -> rc <> 0 ->
  exists j e kj mnj,
    In j todo /\ mn_ents mn !! j = Some e /\ me_enabled e = true /\
    monitor_modify_epoll opers_at kj mnj j true = Some (k', mn', rc).
Proof.
  induction todo as [|i todo IH]; intros k mn k' mn' rc; simpl.
  { intros [= <- <- <-] Hrc. congruence. }
  destruct (mn_ents mn !! i) as [me|] eqn:Hme; [|discriminate].
  destruct (me_enabled me) eqn:Hen; simpl.
  2:{ intros H Hrc. destruct (IH _ _ _ _ _ H Hrc) as (j & e & kj & mnj & Hj & H').
      exists j, e, kj, mnj. auto. }
  destruct (monitor_modify_epoll _ _ _ _ _) as [[[k1 mn1] rc1]|] eqn:Hm; [|discriminate].
  destruct (Z.eqb rc1 0) eqn:Hrc1.
  - intros H Hrc.
    destruct (IH _ _ _ _ _ H Hrc) as (j & e & kj & mnj & Hj & He & Hon & H').
    destruct (monitor_modify_epoll_entry _ _ _ _ _ _ _ Hm)
      as (me0 & me' & Hme0 & -> & Hen' & _).
    destruct (decide (i = j)) as [<-|Hne].
    + exists i, me, kj, mnj. auto.
    + rewrite set_entry_lookup_ne in He by exact Hne. exists j, e, kj, mnj. auto.
  - intros [= <- <- <-] _. exists i, me, k, mn. auto.
Qed.

Lemma add_entries_quiet todo : forall k mn k' mn',
  get_fd_sets_errno opers_at ->
  0 <= mn_fd mn ->
  all_want_drain mn ->
  quiet k (mn_fd mn) ->
  add_entries opers_at k mn todo = Some (k', mn', 0) ->
  quiet k' (mn_fd mn').
Proof.
  induction todo as [|i todo IH]; intros k mn k' mn' Herr Hfd Hall Hq; simpl.
  - intros [= <- <-]. exact Hq.
  - destruct (mn_ents mn !! i) as [me|] eqn:Hme; [|discriminate].
    destruct (me_enabled me) eqn:Hen; simpl; [|apply IH; auto].
    destruct (monitor_modify_epoll _ _ _ _ _) as [[[k1 mn1] rc1]|] eqn:Hm;
      [|discriminate].
    destruct (Z.eqb rc1 0) eqn:Hrc; [|intros [= <- <- ->]; discriminate].
    apply Z.eqb_eq in Hrc. subst rc1.
    pose proof (monitor_modify_epoll_enable _ _ _ _ _ _ _ Hfd Hme Hm)
      as (o & Ho & Hmn & Hcases).
    cbv zeta in Hmn, Hcases.
    assert (exists a, o = opers_at a) as [a ->].
    { unfold opers in Ho. destruct (me_opers me) as [a|]; [|discriminate].
      exists a. congruence. }
    assert (quiet k1 (mn_fd mn)) as Hq1.
    { destruct Hcases as [(Hlt & -> & Hno)|[(_ & Hlt & _)|(_ & _ & _ & Hd)]].
      - exfalso. apply Herr in Hlt. unfold neg_errno in Hno. lia.
      - lia.
      - apply Hd. eapply Hall; eauto. }
    apply IH; auto.
    + subst mn1. exact Hfd.
    + subst mn1. intros j e. simpl.
      destruct (decide (i = j)) as [<-|Hne].
      * rewrite list_lookup_insert_eq by (eapply lookup_lt_Some; eauto).
        intros [= <-] _. change (wants_drain me = true). eapply Hall; eauto.
      * rewrite list_lookup_insert_ne by exact Hne. apply Hall.
    + subst mn1. exact Hq1.
Qed.

Lemma registered_ext k mn (D D' : nat -> Prop) :
  (forall j, D j <-> D' j) -> registered k mn D -> registered k mn D'.
Proof.
  intros HD (int & Hint & Hin & Hout). exists int. split; [exact Hint|]. split.
  - intros j e Hj. apply Hin. apply HD. exact Hj.
  - intros x Hx. destruct (Hout x Hx) as (j & e & Hj & H). exists j, e.
    split; [apply HD; exact Hj|exact H].
Qed.

(** One successful enable call extends the correspondence by the entry it
    is called for. *)
Lemma monitor_modify_epoll_enable_registered k mn i me (D : nat -> Prop) k1 mn1 :
  well_behaved opers_at ->
  0 <= mn_fd mn ->
  mn_ents mn !! i = Some me ->
  ~ D i ->
  registered k mn D ->
  monitor_modify_epoll opers_at k mn i true = Some (k1, mn1, 0) ->
  registered k1 mn1 (fun j => D j \/ j = i).
Proof.
  intros (Herr & Hkeep & Hstore) Hfd Hme Hfresh Hreg Hm.
  pose proof (monitor_modify_epoll_enable _ _ _ _ _ _ _ Hfd Hme Hm)
    as (o & Ho & Hmn & Hcases).
  cbv zeta in Hmn, Hcases.
  assert (exists a, o = opers_at a) as [a ->].
  { unfold opers in Ho. destruct (me_opers me) as [a|]; [|discriminate].
    exists a. congruence. }
  set (me1 := set_flags true false me) in *.
  set (r := op_get_fd (opers_at a) k (set_entry i me1 mn) me1) in *.
  destruct Hcases as [(Hlt & -> & Hno)|[(_ & Hlt & _)|(Hok & _ & Hint & _)]].
  { exfalso. apply Herr in Hlt. unfold neg_errno in Hno. fold r in Hlt. lia. }
  { lia. }
  destruct Hint as (int0 & int & Hint0 & Hint & Hin & Hgrow).
  destruct Hreg as (int' & Hint' & Hfwd & Hbwd).
  assert (int0 = int') as ->.
  { pose proof (Hkeep a k (set_entry i me1 mn) me1) as Hk.
    change (mn_fd (set_entry i me1 mn)) with (mn_fd mn) in Hk.
    fold r in Hk. rewrite Hk in Hint0 by (rewrite Hint'; eauto). congruence. }
  assert (me_fd (driven r me1) = or_rc r) as Hfdr.
  { simpl. apply Hstore. exact Hok. }
  subst mn1. exists int. split; [exact Hint|]. split.
  - intros j e [Hj| ->].
    + assert (i <> j) as Hne by (intros <-; exact (Hfresh Hj)).
      rewrite set_entry_lookup_ne by exact Hne. intros He Hene.
      destruct (Hfwd j e Hj He Hene) as [v Hv].
      destruct Hgrow as [-> | ->]; [eauto|].
      rewrite lookup_insert. case_decide; eauto.
    + rewrite (set_entry_lookup _ _ _ _ Hme). intros [= <-] _.
      rewrite Hfdr. exact Hin.
  - intros x Hx.
    assert (is_Some (int' !! x) \/ x = or_rc r) as [Hold| ->].
    { destruct Hgrow as [-> | ->]; [auto|].
      rewrite lookup_insert in Hx. case_decide; [right|left]; auto. }
    + destruct (Hbwd x Hold) as (j & e & Hj & He & Hene & Hfde).
      assert (i <> j) as Hne by (intros <-; exact (Hfresh Hj)).
      exists j, e. rewrite set_entry_lookup_ne by exact Hne. auto.
    + exists i, (driven r me1). rewrite (set_entry_lookup _ _ _ _ Hme). auto.
Qed.

Lemma add_entries_registered todo : forall k mn (D : nat -> Prop) k' mn',
  well_behaved opers_at ->
  0 <= mn_fd mn ->
  NoDup todo ->
  (forall j, D j -> ~ In j todo) ->
  registered k mn D ->
  add_entries opers_at k mn todo = Some (k', mn', 0) ->
  registered k' mn' (fun j => D j \/ In j todo).
Proof.
  induction todo as [|i todo IH];
    intros k mn D k' mn' Hwb Hfd Hnd Hfresh Hreg; simpl.
  - intros [= <- <-]. eapply registered_ext; [|exact Hreg]. intros j. tauto.
  - apply NoDup_cons in Hnd as [Hi Hnd].
    assert (~ In i todo) as Hi' by (rewrite <- list_elem_of_In; exact Hi).
    assert (forall j, D j \/ j = i -> ~ In j todo) as Hfresh'.
    { intros j [Hj| ->]; [|exact Hi']. intros Hin'. apply (Hfresh j Hj). right. exact Hin'. }
    assert (~ D i) as Hni by (intros Hd; apply (Hfresh i Hd); left; reflexivity).
    destruct (mn_ents mn !! i) as [me|] eqn:Hme; [|discriminate].
    destruct (me_enabled me) eqn:Hen; simpl.
    + destruct (monitor_modify_epoll _ _ _ _ _) as [[[k1 mn1] rc1]|] eqn:Hm;
        [|discriminate].
      destruct (Z.eqb rc1 0) eqn:Hrc; [|intros [= <- <- ->]; discriminate].
      apply Z.eqb_eq in Hrc. subst rc1. intros Hadd.
      pose proof (monitor_modify_epoll_frame _ _ _ _ _ _ _ Hm) as (Hfd1 & _).
      eapply registered_ext;
        [|eapply (IH k1 mn1 (fun j => D j \/ j = i)); [exact Hwb| |exact Hnd|exact Hfresh'| |exact Hadd]].
      * intros j. simpl. intuition auto.
      * lia.
      * eapply monitor_modify_epoll_enable_registered; eauto.
    + intros Hadd.
      eapply registered_ext;
        [|eapply (IH k mn (fun j => D j \/ j = i)); [exact Hwb|exact Hfd|exact Hnd|exact Hfresh'| |exact Hadd]].
      * intros j. simpl. intuition auto.
      * destruct Hreg as (int' & Hint' & Hfwd & Hbwd). exists int'.
        split; [exact Hint'|]. split.
        -- intros j e [Hj| ->]; [apply Hfwd; exact Hj|].
           rewrite Hme. intros [= <-]. congruence.
        -- intros x Hx. destruct (Hbwd x Hx) as (j & e & Hj & H). exists j, e. auto.
Qed.

(** The creation path of [mnt_monitor_get_fd], step by step. *)
Lemma mnt_monitor_get_fd_create k mn :
  mn_fd mn < 0 ->
  exists k1 fd, epoll_create1 k = (k1, fd) /\
    ((fd = -1 /\ neg_errno k1 < 0 /\
      mnt_monitor_get_fd opers_at PTR k mn = Some (k1, set_fd fd mn, neg_errno k1)) \/
     (0 <= fd /\ k_fdt k !! fd = None /\ interest_of k1 fd = Some ∅ /\
      mnt_monitor_get_fd opers_at PTR k mn
      = match add_entries opers_at k1 (set_fd fd mn) (positions mn) with
        | None => None
        | Some (k2, mn2, rc2) =>
            if Z.eqb rc2 0 then Some (k2, mn2, fd)
            else Some (fst (close k2 fd), set_fd (-1) mn2,
                       if N.eqb (k_errno k2) 0 then - Z.of_N EINVAL else neg_errno k2)
        end)).
Proof.
  intros Hfd. unfold mnt_monitor_get_fd.
  assert (Z.leb 0 (mn_fd mn) = false) as -> by lia.
  destruct (epoll_create1 k) as [k1 fd] eqn:Hc. exists k1, fd. split; [reflexivity|].
  change (mn_fd (set_fd fd mn)) with fd.
  change (positions (set_fd fd mn)) with (positions mn).
  apply epoll_create1_result in Hc as [(-> & Herr & _)|(Hpos & Hfree & Hfdt & _)].
  - left. split; [reflexivity|]. split; [unfold neg_errno; lia|]. reflexivity.
  - right. split; [exact Hpos|]. split; [exact Hfree|]. split.
    { apply interest_of_Some. rewrite Hfdt. apply lookup_insert_eq. }
    assert (Z.ltb fd 0 = false) as -> by lia.
    destruct (add_entries _ _ _ _) as [[[k2 mn2] rc2]|] eqn:Hadd; [|reflexivity].
    apply add_entries_frame in Hadd as (Hfd2 & _). simpl in Hfd2.
    rewrite Hfd2. reflexivity.
Qed.

(** What a call on the creation path returns: the new descriptor, which is
    the monitor's from then on, or a negative error, and then the monitor
    has no descriptor. *)
Lemma mnt_monitor_get_fd_result k mn k' mn' rc :
  mn_fd mn < 0 ->
  mnt_monitor_get_fd opers_at PTR k mn = Some (k', mn', rc) ->
  (0 <= rc /\ mn_fd mn' = rc) \/ (rc < 0 /\ mn_fd mn' = -1).
Proof.
  intros Hfd H.
  destruct (mnt_monitor_get_fd_create k mn Hfd) as (k1 & fd & Hc & Hcases).
  destruct Hcases as [(-> & Hneg & Heq)|(Hpos & _ & _ & Heq)]; rewrite Heq in H.
  - injection H as <- <- <-. right. auto.
  - destruct (add_entries _ _ _ _) as [[[k2 mn2] rc2]|] eqn:Hadd; [|discriminate].
    apply add_entries_frame in Hadd as (Hfd2 & _). simpl in Hfd2.
    destruct (Z.eqb rc2 0).
    + injection H as <- <- <-. left. auto.
    + injection H as <- <- <-. right. split; [|reflexivity].
      destruct (N.eqb (k_errno k2) 0) eqn:He; [reflexivity|].
      apply N.eqb_neq in He. unfold neg_errno. lia.
Qed.

(** X14: [mnt_monitor_get_fd] returns an existing epoll descriptor and
    changes nothing.  Otherwise, when it returns, it has left the [enabled]
    flag and the identity of every entry as they were and the disabled
    entries untouched, and either it returns the descriptor that
    [epoll_create1] has made, which is the monitor's from then on, with
    every enabled entry inactive and, for well-behaved drivers, with exactly
    the descriptors of the enabled entries in its interest list; or it
    returns a negative error and the monitor has no descriptor: the
    creation has failed, or the enable call of an enabled entry has
    returned an error, after which the new descriptor has been closed. *)
Theorem mnt_monitor_get_fd_spec k mn :
  (0 <= mn_fd mn -> mnt_monitor_get_fd opers_at PTR k mn = Some (k, mn, mn_fd mn)) /\
  (mn_fd mn < 0 ->
   forall k' mn' rc,
     mnt_monitor_get_fd opers_at PTR k mn = Some (k', mn', rc) ->
     mn_last mn' = mn_last mn /\ mn_refcount mn' = mn_refcount mn /\
     mn_kernel_veiled mn' = mn_kernel_veiled mn /\
     (forall j e, mn_ents mn !! j = Some e ->
        exists e', mn_ents mn' !! j = Some e' /\ same_identity e e' /\
                   me_enabled e' = me_enabled e /\
                   (me_enabled e = false -> e' = e)) /\
     ((0 <= rc /\ rc = snd (epoll_create1 k) /\ mn_fd mn' = rc /\
       k_fdt k !! rc = None /\
       (forall j e', mn_ents mn' !! j = Some e' -> me_enabled e' = true ->
                     me_active e' = false) /\
       (well_behaved opers_at -> registered k' mn' (fun _ => True))) \/
      (rc < 0 /\ mn_fd mn' = -1 /\
       (snd (epoll_create1 k) < 0 ->
        k' = fst (epoll_create1 k) /\ mn_ents mn' = mn_ents mn /\ rc = neg_errno k') /\
       (0 <= snd (epoll_create1 k) ->
        k_fdt k' !! snd (epoll_create1 k) = None /\
        exists j e kj mnj k2 mn2 rc2,
          mn_ents mn !! j = Some e /\ me_enabled e = true /\
          monitor_modify_epoll opers_at kj mnj j true = Some (k2, mn2, rc2) /\
          rc2 <> 0 /\
          k' = fst (close k2 (snd (epoll_create1 k))) /\ mn' = set_fd (-1) mn2 /\
          rc = if N.eqb (k_errno k2) 0 then - Z.of_N EINVAL else neg_errno k2)))).
Proof.
  split.
  { intros Hfd. unfold mnt_monitor_get_fd.
    assert (Z.leb 0 (mn_fd mn) = true) as -> by lia. reflexivity. }
  intros Hfd k' mn' rc H.
  destruct (mnt_monitor_get_fd_create k mn Hfd) as (k1 & fd & Hc & Hcases).
  rewrite Hc. simpl fst. simpl snd.
  destruct Hcases as [(-> & Hneg & Heq)|(Hpos & Hfree & Hint & Heq)]; rewrite Heq in H.
  { injection H as <- <- <-. split; [reflexivity|]. split; [reflexivity|].
    split; [reflexivity|]. split.
    { intros j e He. exists e. split; [exact He|]. split; [apply same_identity_refl|].
      auto. }
    right. split; [exact Hneg|]. split; [reflexivity|]. split; [auto|lia]. }
  destruct (add_entries _ _ _ _) as [[[k2 mn2] rc2]|] eqn:Hadd; [|discriminate].
  pose proof (add_entries_frame _ _ _ _ _ _ Hadd) as (Hfd2 & Hlast & Href & Hveil & Hlen).
  pose proof (add_entries_entries _ _ _ _ _ _ Hadd) as Hents.
  simpl in Hfd2, Hlast, Href, Hveil, Hents.
  assert (forall j e, mn_ents mn !! j = Some e ->
            exists e', mn_ents mn2 !! j = Some e' /\ same_identity e e' /\
                       me_enabled e' = me_enabled e /\
                       (me_enabled e = false -> e' = e)) as Hflags.
  { intros j e He. destruct (Hents j e He) as (e' & He' & Hid & Hen & Hoff & _).
    exists e'. auto. }
  destruct (Z.eqb rc2 0) eqn:Hrc.
  - apply Z.eqb_eq in Hrc. subst rc2. injection H as <- <- <-.
    split; [exact Hlast|]. split; [exact Href|]. split; [exact Hveil|].
    split; [exact Hflags|]. left.
    split; [exact Hpos|]. split; [reflexivity|]. split; [exact Hfd2|].
    split; [exact Hfree|]. split.
    + intros j e' He' Hon.
      destruct (lookup_lt_is_Some_2 (mn_ents mn) j) as [e He].
      { simpl in Hlen. rewrite <- Hlen. eapply lookup_lt_Some; eauto. }
      destruct (Hents j e He) as (e2 & He2 & _ & Hen & _ & _ & Hact).
      assert (e2 = e') as -> by congruence.
      apply Hact; [reflexivity| |congruence].
      apply in_seq. apply lookup_lt_Some in He. lia.
    + intros Hwb.
      assert (registered k2 mn2 (fun j => False \/ In j (positions mn))) as Hreg.
      { eapply add_entries_registered; [exact Hwb| | | | |exact Hadd].
        - exact Hpos.
        - apply NoDup_seq.
        - intros j [].
        - exists ∅. split; [exact Hint|]. split.
          + intros j e [].
          + intros x [v Hv]. rewrite lookup_empty in Hv. discriminate. }
      destruct Hreg as (int & Hi & Hfwd & Hbwd). exists int.
      split; [exact Hi|]. split.
      * intros j e _ He Hen. apply (Hfwd j e); [|exact He|exact Hen]. right.
        apply in_seq. apply lookup_lt_Some in He. simpl in Hlen. lia.
      * intros x Hx. destruct (Hbwd x Hx) as (j & e & _ & H). exists j, e. auto.
  - injection H as <- <- <-. apply Z.eqb_neq in Hrc.
    split; [exact Hlast|]. split; [exact Href|]. split; [exact Hveil|].
    split; [exact Hflags|]. right.
    split.
    { destruct (N.eqb (k_errno k2) 0) eqn:He; [reflexivity|].
      apply N.eqb_neq in He. unfold neg_errno. lia. }
    split; [reflexivity|]. split; [lia|]. intros _.
    split; [apply close_closed|].
    destruct (add_entries_failure _ _ _ _ _ _ Hadd Hrc)
      as (j & e & kj & mnj & _ & He & Hon & Hm).
    exists j, e, kj, mnj, k2, mn2, rc2. auto 10.
Qed.

(** *** When building the descriptor returns *)

Lemma level_pending_edge k epfd :
  all_edge_triggered k epfd -> level_pending k epfd = false.
Proof.
  intros H. unfold level_pending.
  destruct (interest_of k epfd) as [int|] eqn:Hint; [|reflexivity].
  destruct (existsb _ _) eqn:E; [|reflexivity].
  apply existsb_exists in E as (x & _ & Hx).
  destruct (int !! x) as [ev|] eqn:Hev; [|discriminate].
  rewrite (H int x ev Hint Hev) in Hx. discriminate.
Qed.

Lemma all_edge_triggered_ext k k' epfd :
  interest_of k' epfd = interest_of k epfd ->
  all_edge_triggered k epfd -> all_edge_triggered k' epfd.
Proof. intros Heq H int fd ev. rewrite Heq. apply H. Qed.

Lemma epoll_ctl_add_interest k epfd fd ev int :
  interest_of k epfd = Some int ->
  interest_of (fst (epoll_ctl k epfd EPOLL_CTL_ADD fd ev)) epfd = Some int \/
  interest_of (fst (epoll_ctl k epfd EPOLL_CTL_ADD fd ev)) epfd
  = Some (<[fd := ev]> int).
Proof.
  intros Hint. pose proof Hint as Hfd. apply interest_of_Some in Hfd.
  unfold epoll_ctl, fail. rewrite Hfd.
  destruct (k_fdt k !! fd) as [t|]; [|left; exact Hint].
  destruct (Z.eqb epfd fd); [left; exact Hint|].
  destruct (int !! fd); [left; exact Hint|].
  destruct (out_of_memory k); [left; exact Hint|].
  right. destruct t as [j|[|]]; simpl; apply interest_of_Some; simpl;
    apply lookup_insert_eq.
Qed.

(** Enabling an edge-triggered entry that has its operation table, on an
    epoll instance all of whose registrations are edge-triggered, returns,
    and the registrations are edge-triggered afterwards. *)
Lemma monitor_modify_epoll_enable_returns k mn i me :
  get_fd_keeps_epoll opers_at ->
  0 <= mn_fd mn ->
  mn_ents mn !! i = Some me ->
  is_Some (me_opers me) ->
  wants_edge me = true ->
  is_Some (interest_of k (mn_fd mn)) ->
  all_edge_triggered k (mn_fd mn) ->
  exists k' mn' rc,
    monitor_modify_epoll opers_at k mn i true = Some (k', mn', rc) /\
    is_Some (interest_of k' (mn_fd mn)) /\ all_edge_triggered k' (mn_fd mn).
Proof.
  intros Hkeep Hfd Hme [a Ha] Hedge [int Hint] Hall.
  assert (opers opers_at me = Some (opers_at a)) as Ho
    by (unfold opers; rewrite Ha; reflexivity).
  rewrite (monitor_modify_epoll_enable_eq _ _ _ _ _ Hfd Hme Ho). cbv zeta.
  set (me1 := set_flags true false me).
  set (r := op_get_fd (opers_at a) k (set_entry i me1 mn) me1).
  assert (interest_of (or_kernel r) (mn_fd mn) = Some int) as Hint1.
  { rewrite <- Hint. apply (Hkeep a k (set_entry i me1 mn) me1).
    simpl. rewrite Hint. eauto. }
  assert (all_edge_triggered (or_kernel r) (mn_fd mn)) as Hall1.
  { eapply all_edge_triggered_ext; [|exact Hall]. congruence. }
  destruct (Z.ltb (or_rc r) 0).
  { do 3 eexists. split; [reflexivity|]. split; [rewrite Hint1; eauto|exact Hall1]. }
  set (ev := {| ev_events := me_events me; ev_data := Some i |}).
  set (ctl := epoll_ctl (or_kernel r) (mn_fd mn) EPOLL_CTL_ADD (or_rc r) ev).
  assert (is_Some (interest_of (fst ctl) (mn_fd mn)) /\
          all_edge_triggered (fst ctl) (mn_fd mn)) as [Hs2 Hall2].
  { destruct (epoll_ctl_add_interest (or_kernel r) (mn_fd mn) (or_rc r) ev int Hint1)
      as [Hi|Hi]; fold ctl in Hi.
    - split; [rewrite Hi; eauto|].
      eapply all_edge_triggered_ext; [|exact Hall1]. congruence.
    - split; [rewrite Hi; eauto|].
      intros int' fd' ev'. rewrite Hi. intros [= <-].
      rewrite lookup_insert. case_decide.
      + intros [= <-]. exact Hedge.
      + apply Hall1. exact Hint1. }
  destruct (_ && _).
  { do 3 eexists. split; [reflexivity|]. auto. }
  destruct (wants_drain me).
  - destruct (drain_Some (mn_fd mn) (fst ctl) (level_pending_edge _ _ Hall2))
      as (k3 & -> & Hfdt & _).
    assert (interest_of k3 (mn_fd mn) = interest_of (fst ctl) (mn_fd mn)) as Heq
      by (unfold interest_of; rewrite Hfdt; reflexivity).
    do 3 eexists. split; [reflexivity|]. split; [rewrite Heq; exact Hs2|].
    eapply all_edge_triggered_ext; [exact Heq|exact Hall2].
  - do 3 eexists. split; [reflexivity|]. auto.
Qed.

Lemma add_entries_returns todo : forall k mn,
  get_fd_keeps_epoll opers_at ->
  0 <= mn_fd mn ->
  edge_monitor mn ->
  Forall (fun i => (i < length (mn_ents mn))%nat) todo ->
  is_Some (interest_of k (mn_fd mn)) ->
  all_edge_triggered k (mn_fd mn) ->
  exists res, add_entries opers_at k mn todo = Some res.
Proof.
  induction todo as [|i todo IH]; intros k mn Hkeep Hfd Hedge Hall Hs Hae; simpl;
    [eauto|].
  apply Forall_cons in Hall as [Hi Hall].
  destruct (lookup_lt_is_Some_2 _ _ Hi) as [me Hme]. rewrite Hme.
  destruct (me_enabled me) eqn:Hen; simpl; [|apply IH; assumption].
  destruct (Hedge i me Hme Hen) as [Hops Het].
  destruct (monitor_modify_epoll_enable_returns k mn i me Hkeep Hfd Hme Hops Het Hs Hae)
    as (k1 & mn1 & rc1 & Hm & Hs1 & Hae1).
  rewrite Hm. destruct (Z.eqb rc1 0); [|eauto].
  destruct (monitor_modify_epoll_entry _ _ _ _ _ _ _ Hm)
    as (me0 & me' & Hme0 & -> & Hen' & _ & Hid).
  assert (me0 = me) as -> by congruence.
  apply IH; try assumption.
  - intros j e. destruct (decide (i = j)) as [<-|Hne].
    + rewrite (set_entry_lookup _ _ _ _ Hme). intros [= <-] _.
      destruct Hid as (_ & _ & _ & Hev & Hop). unfold wants_edge.
      rewrite Hev, Hop. exact (conj Hops Het).
    + rewrite set_entry_lookup_ne by exact Hne. apply Hedge.
  - rewrite set_entry_length. exact Hall.
Qed.

(** X19: [mnt_monitor_get_fd] returns (its drains end and it follows no
    null pointer) when every enabled entry of the monitor has an operation
    table and is watched edge-triggered.  The drivers are assumed to leave
    the epoll instance of the monitor alone in [op_get_fd]. *)
Theorem mnt_monitor_get_fd_returns k mn :
  get_fd_keeps_epoll opers_at ->
  edge_monitor mn ->
  exists k' mn' rc, mnt_monitor_get_fd opers_at PTR k mn = Some (k', mn', rc).
Proof.
  intros Hkeep Hedge.
  destruct (Z_lt_le_dec (mn_fd mn) 0) as [Hfd|Hfd].
  2:{ unfold mnt_monitor_get_fd.
      assert (Z.leb 0 (mn_fd mn) = true) as -> by lia. eauto. }
  destruct (mnt_monitor_get_fd_create k mn Hfd) as (k1 & fd & Hc & Hcases).
  destruct Hcases as [(-> & _ & ->)|(Hpos & _ & Hint & ->)]; [eauto|].
  destruct (add_entries_returns (positions mn) k1 (set_fd fd mn) Hkeep)
    as [[[k2 mn2] rc2] ->].
  - exact Hpos.
  - exact Hedge.
  - apply (positions_valid (set_fd fd mn)).
  - simpl. rewrite Hint. eauto.
  - intros int x ev. simpl. rewrite Hint. intros [= <-].
    rewrite lookup_empty. discriminate.
  - destruct (Z.eqb rc2 0); eauto.
Qed.

(** *** Waiting *)

Lemma mnt_monitor_wait_quiet fuel k mn :
  0 <= mn_fd mn -> quiet k (mn_fd mn) ->
  mnt_monitor_wait opers_at (S fuel) PTR k mn 0 = Some (k, mn, 0).
Proof.
  intros Hfd Hq. unfold mnt_monitor_wait.
  assert (Z.ltb (mn_fd mn) 0 = false) as -> by lia.
  rewrite read_epoll_events_quiet by exact Hq. reflexivity.
Qed.

(** X16: a wait with a zero timeout on a monitor without epoll descriptor,
    all of whose enabled entries want the drain, never finds a change: when
    the descriptor has been built, each addition has been followed by the
    drain, and the poll that follows times out; so the call returns 0, or
    the error of [mnt_monitor_get_fd], never 1.  The drivers are assumed to
    set errno when their [op_get_fd] fails. *)
Theorem mnt_monitor_wait_first_poll fuel k mn k' mn' r :
  get_fd_sets_errno opers_at ->
  mn_fd mn < 0 ->
  all_want_drain mn ->
  mnt_monitor_wait opers_at fuel PTR k mn 0 = Some (k', mn', r) ->
  r <= 0.
Proof.
  intros Herr Hfd Hall. unfold mnt_monitor_wait.
  assert (Z.ltb (mn_fd mn) 0 = true) as -> by lia.
  destruct (mnt_monitor_get_fd_create k mn Hfd) as (k1 & fd & Hc & Hcases).
  destruct Hcases as [(-> & Hneg & ->)|(Hpos & _ & Hint & ->)].
  { assert (Z.ltb (neg_errno k1) 0 = true) as -> by lia.
    intros [= <- <- <-]. lia. }
  destruct (add_entries _ _ _ _) as [[[k2 mn2] rc2]|] eqn:Hadd; [|discriminate].
  destruct (Z.eqb rc2 0) eqn:Hrc2.
  - apply Z.eqb_eq in Hrc2. subst rc2.
    assert (Z.ltb fd 0 = false) as -> by lia.
    assert (quiet k2 (mn_fd mn2)) as Hq.
    { eapply add_entries_quiet; [exact Herr| | | |exact Hadd].
      - exact Hpos.
      - exact Hall.
      - exists ∅. split; [exact Hint|apply pick_empty]. }
    destruct fuel as [|fuel]; [discriminate|].
    rewrite read_epoll_events_quiet by exact Hq.
    intros [= <- <- <-]. simpl. lia.
  - set (rc := if N.eqb (k_errno k2) 0 then _ else _).
    assert (rc < 0) as Hneg.
    { subst rc. destruct (N.eqb (k_errno k2) 0) eqn:He; [reflexivity|].
      apply N.eqb_neq in He. unfold neg_errno. lia. }
    assert (Z.ltb rc 0 = true) as -> by lia.
    intros [= <- <- <-]. lia.
Qed.

(** X15: an entry that wants EPOLLIN or EPOLLET has just been enabled on
    a monitor with its epoll descriptor: its driver has delivered a
    descriptor and the call has returned 0.  Then nothing is pending, and a
    wait with a zero timeout returns 0 (timed out) and changes nothing. *)
Theorem mnt_monitor_wait_after_enable fuel k mn i me o k1 mn1 :
  0 <= mn_fd mn ->
  mn_ents mn !! i = Some me ->
  opers opers_at me = Some o ->
  wants_drain me = true ->
  0 <= or_rc (op_get_fd o k (set_entry i (set_flags true false me) mn)
                (set_flags true false me)) ->
  monitor_modify_epoll opers_at k mn i true = Some (k1, mn1, 0) ->
  quiet k1 (mn_fd mn1) /\
  mnt_monitor_wait opers_at (S fuel) PTR k1 mn1 0 = Some (k1, mn1, 0).
Proof.
  intros Hfd Hme Ho Hwant Hok Hm.
  pose proof (monitor_modify_epoll_frame _ _ _ _ _ _ _ Hm) as (Hfd1 & _).
  pose proof (monitor_modify_epoll_enable _ _ _ _ _ _ _ Hfd Hme Hm)
    as (o' & Ho' & _ & Hcases).
  assert (o' = o) as -> by congruence.
  cbv zeta in Hcases.
  assert (quiet k1 (mn_fd mn)) as Hq.
  { destruct Hcases as [(Hlt & _)|[(_ & Hlt & _)|(_ & _ & _ & Hd)]]; [lia|lia|].
    apply Hd. exact Hwant. }
  rewrite <- Hfd1 in Hq, Hfd. split; [exact Hq|].
  apply mnt_monitor_wait_quiet; assumption.
Qed.

(** *** The wait, turn by turn *)

Lemma read_epoll_events_more fuel : forall k mn timeout res fuel',
  read_epoll_events opers_at fuel k mn timeout = Some res ->
  (fuel <= fuel')%nat ->
  read_epoll_events opers_at fuel' k mn timeout = Some res.
Proof.
  induction fuel as [|fuel IH]; intros k mn timeout res fuel'; simpl; [discriminate|].
  intros H Hle. destruct fuel' as [|fuel']; [lia|]. simpl.
  destruct (epoll_wait k (mn_fd mn) timeout) as [[[k1 rc1] p]|]; [|discriminate].
  destruct (Z.ltb rc1 0); [exact H|].
  destruct (Z.eqb rc1 0); [exact H|].
  destruct p as [i|]; [|exact H].
  destruct (mn_ents mn !! i) as [me|]; [|discriminate].
  destruct (opers opers_at me) as [o|]; [|discriminate].
  destruct (Z.ltb _ 0); [exact H|].
  destruct (Z.eqb _ 0); [exact H|].
  apply IH; [exact H|lia].
Qed.

(** The results of a wait, whatever the timeout. *)
Lemma mnt_monitor_wait_result fuel k mn timeout k' mn' r :
  mnt_monitor_wait opers_at fuel PTR k mn timeout = Some (k', mn', r) ->
  (r = 1 /\ 0 <= mn_fd mn' /\
   exists i me, mn_ents mn' !! i = Some me /\ me_active me = true) \/
  (r = 0 /\ 0 <= mn_fd mn' /\
   exists kf, epoll_wait kf (mn_fd mn') timeout = Some (k', 0, None)) \/
  (r < 0).
Proof.
  assert (forall k0 mn0 k' mn' rc act,
            0 <= mn_fd mn0 ->
            read_epoll_events opers_at fuel k0 mn0 timeout = Some (k', mn', rc, act) ->
            let r := if Z.eqb rc 0 then 1 else if Z.eqb rc 1 then 0 else rc in
            (r = 1 /\ 0 <= mn_fd mn' /\
             exists i me, mn_ents mn' !! i = Some me /\ me_active me = true) \/
            (r = 0 /\ 0 <= mn_fd mn' /\
             exists kf, epoll_wait kf (mn_fd mn') timeout = Some (k', 0, None)) \/
            r < 0) as Hread.
  { intros k0 mn0 k0' mn0' rc act Hfd H r0.
    pose proof (read_epoll_events_frame _ _ _ _ _ _ _ _ H) as (Hfd' & _).
    apply read_epoll_events_result in H
      as [(-> & i & me & _ & Hme & Hact)|[(-> & _ & Hto)|(Hneg & _)]]; subst r0; simpl.
    - left. split; [reflexivity|]. split; [lia|eauto].
    - right. left. split; [reflexivity|]. split; [lia|]. rewrite Hfd'. exact Hto.
    - right. right. destruct (Z.eqb_spec rc 0); [lia|].
      destruct (Z.eqb_spec rc 1); lia. }
  unfold mnt_monitor_wait.
  destruct (Z.ltb (mn_fd mn) 0) eqn:Hfd.
  - apply Z.ltb_lt in Hfd.
    destruct (mnt_monitor_get_fd opers_at PTR k mn) as [[[k1 mn1] rc1]|] eqn:Hg;
      [|discriminate].
    destruct (mnt_monitor_get_fd_result _ _ _ _ _ Hfd Hg) as [[Hpos Hfd1]|[Hneg _]].
    + assert (Z.ltb rc1 0 = false) as -> by lia.
      destruct (read_epoll_events _ _ _ _ _) as [[[[k3 mn3] rc3] act]|] eqn:Hr;
        [|discriminate].
      intros [= <- <- <-]. eapply Hread; [|exact Hr]. lia.
    + assert (Z.ltb rc1 0 = true) as -> by lia. intros [= <- <- <-]. auto.
  - destruct (read_epoll_events _ _ _ _ _) as [[[[k3 mn3] rc3] act]|] eqn:Hr;
      [|discriminate].
    intros [= <- <- <-]. eapply Hread; [|exact Hr]. lia.
Qed.

(** C4: [mnt_monitor_wait] on a null monitor returns -EINVAL.  On a monitor
    with its epoll descriptor, the first [epoll_wait] decides: when it
    returns 0 (the wait has expired with nothing to report) the call
    returns 0, not an error; when it fails the call returns the negative
    errno; when it reports a registration without entry, -EINVAL; when it
    reports an entry, the driver of the entry decides: accepted (0), the
    call returns 1 and the entry is active; an error, the call returns it;
    ignored, the call waits again.  On a monitor without epoll descriptor
    the call is [mnt_monitor_get_fd], whose error it returns, followed by
    the same wait on the monitor with the new descriptor.  So whatever the
    timeout, a call that returns gives 1 (an entry is active), 0 (the last
    [epoll_wait] has timed out) or a negative error. *)
Theorem mnt_monitor_wait_spec k mn timeout :
  (forall fuel,
     mnt_monitor_wait opers_at fuel NULL k mn timeout = Some (k, mn, - Z.of_N EINVAL)) /\
  (0 <= mn_fd mn ->
   forall fuel k1 rc p,
     epoll_wait k (mn_fd mn) timeout = Some (k1, rc, p) ->
     (rc = 0 ->
      mnt_monitor_wait opers_at (S fuel) PTR k mn timeout = Some (k1, mn, 0)) /\
     (rc < 0 ->
      mnt_monitor_wait opers_at (S fuel) PTR k mn timeout = Some (k1, mn, neg_errno k1) /\
      neg_errno k1 < 0) /\
     (0 < rc -> p = None ->
      mnt_monitor_wait opers_at (S fuel) PTR k mn timeout
      = Some (k1, mn, - Z.of_N EINVAL)) /\
     (0 < rc ->
      forall i me o,
        p = Some i -> mn_ents mn !! i = Some me -> opers opers_at me = Some o ->
        let r := op_process_event o k1 mn me in
        (or_rc r = 0 ->
         mnt_monitor_wait opers_at (S fuel) PTR k mn timeout
         = Some (or_kernel r, set_entry i (set_active true (driven r me)) mn, 1)) /\
        (or_rc r < 0 ->
         mnt_monitor_wait opers_at (S fuel) PTR k mn timeout
         = Some (or_kernel r, set_entry i (driven r me) mn, or_rc r)) /\
        (0 < or_rc r ->
         mnt_monitor_wait opers_at (S fuel) PTR k mn timeout
         = mnt_monitor_wait opers_at fuel PTR (or_kernel r)
             (set_entry i (driven r me) mn) timeout))) /\
  (mn_fd mn < 0 ->
   forall fuel,
     mnt_monitor_wait opers_at fuel PTR k mn timeout
     = match mnt_monitor_get_fd opers_at PTR k mn with
       | Some (k1, mn1, rc) =>
           if Z.ltb rc 0 then Some (k1, mn1, rc)
           else mnt_monitor_wait opers_at fuel PTR k1 mn1 timeout
       | None => None
       end) /\
  (forall fuel k' mn' r,
     mnt_monitor_wait opers_at fuel PTR k mn timeout = Some (k', mn', r) ->
     (r = 1 /\ 0 <= mn_fd mn' /\
      exists i me, mn_ents mn' !! i = Some me /\ me_active me = true) \/
     (r = 0 /\ 0 <= mn_fd mn' /\
      exists kf, epoll_wait kf (mn_fd mn') timeout = Some (k', 0, None)) \/
     (r < 0)).
Proof.
  split; [reflexivity|]. split; [|split].
  - intros Hfd fuel k1 rc p Hw.
    assert (Z.ltb (mn_fd mn) 0 = false) as E by lia.
    split; [|split; [|split]].
    + intros ->. unfold mnt_monitor_wait. rewrite E. simpl. rewrite Hw. reflexivity.
    + intros Hrc. split; [|eapply epoll_wait_errno; eauto].
      pose proof (epoll_wait_errno _ _ _ _ _ _ Hw Hrc) as Hneg.
      unfold mnt_monitor_wait. rewrite E. simpl. rewrite Hw.
      assert (Z.ltb rc 0 = true) as -> by lia.
      destruct (Z.eqb_spec (neg_errno k1) 0); [lia|].
      destruct (Z.eqb_spec (neg_errno k1) 1); [lia|]. reflexivity.
    + intros Hrc ->. unfold mnt_monitor_wait. rewrite E. simpl. rewrite Hw.
      assert (Z.ltb rc 0 = false) as -> by lia.
      assert (Z.eqb rc 0 = false) as -> by lia. reflexivity.
    + intros Hrc i me o -> Hme Ho r.
      assert (mnt_monitor_wait opers_at (S fuel) PTR k mn timeout
              = if Z.ltb (or_rc r) 0
                then Some (or_kernel r, set_entry i (driven r me) mn, or_rc r)
                else if Z.eqb (or_rc r) 0
                then Some (or_kernel r,
                           set_entry i (set_active true (driven r me)) mn, 1)
                else mnt_monitor_wait opers_at fuel PTR (or_kernel r)
                       (set_entry i (driven r me) mn) timeout) as Heq.
      { unfold mnt_monitor_wait. rewrite E.
        change (mn_fd (set_entry i (driven r me) mn)) with (mn_fd mn). rewrite E.
        simpl. rewrite Hw.
        assert (Z.ltb rc 0 = false) as -> by lia.
        assert (Z.eqb rc 0 = false) as -> by lia.
        simpl in Hme. rewrite Hme, Ho. fold r.
        destruct (Z.ltb (or_rc r) 0) eqn:Hr.
        { destruct (Z.eqb_spec (or_rc r) 0); [lia|].
          destruct (Z.eqb_spec (or_rc r) 1); [lia|]. reflexivity. }
        destruct (Z.eqb (or_rc r) 0); [|reflexivity].
        simpl. f_equal. f_equal. f_equal.
        apply (set_entry_twice i _ _ mn). }
      split; [|split].
      * intros Hz. rewrite Heq, Hz. reflexivity.
      * intros Hneg. rewrite Heq. assert (Z.ltb (or_rc r) 0 = true) as -> by lia.
        reflexivity.
      * intros Hpos. rewrite Heq.
        assert (Z.ltb (or_rc r) 0 = false) as -> by lia.
        assert (Z.eqb (or_rc r) 0 = false) as -> by lia. reflexivity.
  - intros Hfd fuel. unfold mnt_monitor_wait at 1.
    assert (Z.ltb (mn_fd mn) 0 = true) as -> by lia.
    destruct (mnt_monitor_get_fd opers_at PTR k mn) as [[[k1 mn1] rc1]|] eqn:Hg;
      [|reflexivity].
    destruct (Z.ltb rc1 0) eqn:Hrc; [reflexivity|].
    destruct (mnt_monitor_get_fd_result _ _ _ _ _ Hfd Hg) as [[Hpos Hfd1]|[Hneg _]]; [|lia].
    unfold mnt_monitor_wait.
    assert (Z.ltb (mn_fd mn1) 0 = false) as -> by lia. reflexivity.
  - intros fuel k' mn' r. apply mnt_monitor_wait_result.
Qed.

(** *** Closing the epoll descriptor *)

Lemma has_opers_set_entry mn i e e' :
  has_opers mn -> mn_ents mn !! i = Some e -> me_opers e' = me_opers e ->
  has_opers (set_entry i e' mn).
Proof.
  intros H He Ho j x. destruct (decide (i = j)) as [<-|Hne].
  - rewrite (set_entry_lookup _ _ _ _ He). intros [= <-]. rewrite Ho. eapply H; eauto.
  - rewrite set_entry_lookup_ne by exact Hne. apply H.
Qed.

Lemma close_entries_spec todo : forall k mn,
  has_opers mn ->
  NoDup todo ->
  Forall (fun i => (i < length (mn_ents mn))%nat) todo ->
  exists k' mn',
    close_entries opers_at k mn todo = Some (k', mn') /\
    same_frame mn mn' /\
    (forall j, ~ In j todo -> mn_ents mn' !! j = mn_ents mn !! j) /\
    (forall j me, In j todo -> mn_ents mn !! j = Some me ->
       exists me', mn_ents mn' !! j = Some me' /\
                   closed_entry opers_at (Z.leb 0 (mn_fd mn)) me me').
Proof.
  induction todo as [|i todo IH]; intros k mn Hops Hnd Hall; simpl.
  { exists k, mn. split; [reflexivity|]. split; [apply same_frame_refl|].
    split; [auto|]. intros j me []. }
  apply NoDup_cons in Hnd as [Hi Hnd]. rewrite list_elem_of_In in Hi.
  apply Forall_cons in Hall as [Hlt Hall].
  destruct (lookup_lt_is_Some_2 _ _ Hlt) as [me Hme].
  assert (exists k1 mid,
            (if Z.leb 0 (mn_fd mn) then monitor_modify_epoll opers_at k mn i false
             else Some (k, mn, 0)) = Some (k1, set_entry i mid mn, 0) \/
            (exists rc, (if Z.leb 0 (mn_fd mn)
                         then monitor_modify_epoll opers_at k mn i false
                         else Some (k, mn, 0)) = Some (k1, set_entry i mid mn, rc)))
    as (k1 & mid & Hstep).
  { destruct (Z.leb 0 (mn_fd mn)).
    - destruct (monitor_modify_epoll_disable_returns k mn i) as [[[k1 mn1] rc] Hm]; [eauto|].
      pose proof (monitor_modify_epoll_entry _ _ _ _ _ _ _ Hm) as (? & mid & _ & -> & _).
      exists k1, mid. right. eauto.
    - exists k, me. left. f_equal. f_equal. f_equal.
      unfold set_entry. rewrite list_insert_id by exact Hme. destruct mn; reflexivity. }
  assert (exists rc, (if Z.leb 0 (mn_fd mn)
                      then monitor_modify_epoll opers_at k mn i false
                      else Some (k, mn, 0)) = Some (k1, set_entry i mid mn, rc))
    as [rc Hm] by (destruct Hstep as [H|H]; eauto).
  clear Hstep. rewrite Hm.
  assert (same_identity me mid /\
          (if Z.leb 0 (mn_fd mn) then me_enabled mid = false /\ me_active mid = false
           else mid = me)) as [Hid Hflags].
  { destruct (Z.leb 0 (mn_fd mn)).
    - apply monitor_modify_epoll_entry in Hm
        as (me0 & mid' & Hme0 & Heq & Hen & Hact & Hid).
      assert (mid' = mid) as ->.
      { apply (f_equal (fun m => mn_ents m !! i)) in Heq.
        rewrite !(set_entry_lookup _ _ _ _ Hme) in Heq. congruence. }
      assert (me0 = me) as -> by congruence. auto.
    - injection Hm as _ Heq _.
      apply (f_equal (fun m => mn_ents m !! i)) in Heq.
      rewrite (set_entry_lookup _ _ _ _ Hme), Hme in Heq.
      injection Heq as <-. split; [apply same_identity_refl|reflexivity]. }
  rewrite (set_entry_lookup _ _ _ _ Hme).
  assert (me_opers mid = me_opers me) as Hsame by (destruct Hid as (_ & _ & _ & _ & H); exact H).
  destruct (opers opers_at mid) as [o|] eqn:Ho.
  2:{ exfalso. unfold opers in Ho. rewrite Hsame in Ho.
      destruct (Hops i me Hme) as [a Ha]. rewrite Ha in Ho. discriminate. }
  set (r := op_close_fd _ _ _ _). rewrite set_entry_twice.
  destruct (IH (or_kernel r) (set_entry i (driven r mid) mn))
    as (k' & mn' & Hc & Hfr & Hout & Hin).
  { eapply has_opers_set_entry; [exact Hops|exact Hme|exact Hsame]. }
  { exact Hnd. }
  { rewrite set_entry_length. exact Hall. }
  exists k', mn'. split; [exact Hc|]. split.
  { eapply same_frame_trans; [apply same_frame_set_entry|exact Hfr]. }
  split.
  - intros j Hj. rewrite Hout by tauto. apply set_entry_lookup_ne. tauto.
  - intros j e [<-|Hj] He.
    + rewrite Hout by exact Hi. rewrite (set_entry_lookup _ _ _ _ Hme).
      assert (e = me) as -> by congruence.
      eexists. split; [reflexivity|]. exists k1, (set_entry i mid mn), mid, o. auto.
    + assert (i <> j) as Hne by (intros ->; tauto).
      apply (Hin j e Hj). rewrite set_entry_lookup_ne by exact Hne. exact He.
Qed.

(** X17: [mnt_monitor_close_fd] on a monitor all of whose entries have an
    operation table returns 0 and leaves the descriptor field at -1; every
    entry has been through its driver's close operation and keeps its
    identity.  If the monitor had its epoll descriptor, that descriptor is
    closed, every entry has its [enabled] and [active] flags cleared, and
    the next [mnt_monitor_get_fd] only creates a new epoll instance: it adds
    no entry.  If the monitor had no epoll descriptor, the flags of the
    entries are left as they were. *)
Theorem mnt_monitor_close_fd_spec k mn :
  has_opers mn ->
  exists k' mn',
    mnt_monitor_close_fd opers_at PTR k mn = Some (k', mn', 0) /\
    mn_fd mn' = -1 /\
    mn_last mn' = mn_last mn /\
    length (mn_ents mn') = length (mn_ents mn) /\
    (forall j me, mn_ents mn !! j = Some me ->
       exists me', mn_ents mn' !! j = Some me' /\
                   closed_entry opers_at (Z.leb 0 (mn_fd mn)) me me' /\
                   same_identity me me' /\
                   (0 <= mn_fd mn -> me_enabled me' = false /\ me_active me' = false) /\
                   (mn_fd mn < 0 -> me_enabled me' = me_enabled me /\
                                    me_active me' = me_active me)) /\
    (0 <= mn_fd mn ->
     k_fdt k' !! mn_fd mn = None /\
     mnt_monitor_get_fd opers_at PTR k' mn'
     = (let '(k2, fd) := epoll_create1 k' in
        Some (k2, set_fd fd mn', if Z.ltb fd 0 then neg_errno k2 else fd))).
Proof.
  intros Hops.
  destruct (close_entries_spec (positions mn) k mn) as (k1 & mn1 & Hc & Hfr & _ & Hin).
  { exact Hops. }
  { apply NoDup_seq. }
  { apply positions_valid. }
  destruct Hfr as (Hfd & Hlast & _ & _ & Hlen).
  unfold mnt_monitor_close_fd. rewrite Hc. do 2 eexists.
  split; [reflexivity|]. split; [reflexivity|]. split; [exact Hlast|].
  split; [exact Hlen|].
  assert (forall j me, mn_ents mn !! j = Some me ->
            exists me', mn_ents mn1 !! j = Some me' /\
                        closed_entry opers_at (Z.leb 0 (mn_fd mn)) me me' /\
                        same_identity me me' /\
                        (0 <= mn_fd mn -> me_enabled me' = false /\ me_active me' = false) /\
                        (mn_fd mn < 0 -> me_enabled me' = me_enabled me /\
                                         me_active me' = me_active me)) as Hents.
  { intros j me Hme.
    destruct (Hin j me) as (me' & Hme' & Hcl); [|exact Hme|].
    { apply positions_lookup. eauto. }
    exists me'. split; [exact Hme'|]. split; [exact Hcl|].
    destruct Hcl as (kj & mnj & mid & o & Ho & -> & Hid & Hflags).
    split; [|split].
    - eapply same_identity_trans; [exact Hid|]. repeat split.
    - intros Hpos. assert (Z.leb 0 (mn_fd mn) = true) as E by lia.
      rewrite E in Hflags. exact Hflags.
    - intros Hneg. assert (Z.leb 0 (mn_fd mn) = false) as E by lia.
      rewrite E in Hflags. subst mid. split; reflexivity. }
  split; [exact Hents|].
  intros Hpos. rewrite Hfd. assert (Z.leb 0 (mn_fd mn) = true) as -> by lia.
  split; [apply close_closed|].
  unfold mnt_monitor_get_fd. simpl Z.leb. cbv iota.
  destruct (epoll_create1 _) as [k2 fd].
  change (mn_fd (set_fd fd (set_fd (-1) mn1))) with fd.
  destruct (Z.ltb fd 0); [reflexivity|].
  rewrite add_entries_disabled; [reflexivity|].
  intros j Hj. apply in_seq in Hj. simpl in Hj.
  destruct (lookup_lt_is_Some_2 (mn_ents mn) j) as [me Hme]; [lia|].
  destruct (Hents j me Hme) as (me' & Hme' & _ & _ & Hoff & _).
  exists me'. split; [exact Hme'|]. apply Hoff. exact Hpos.
Qed.

(** *** Removal from the epoll instance *)

Lemma epoll_ctl_del_enoent k epfd fd ev k' rc int :
  epoll_ctl k epfd EPOLL_CTL_DEL fd ev = (k', rc) ->
  rc < 0 -> k_errno k' = ENOENT ->
  interest_of k epfd = Some int ->
  int !! fd = None /\ k_fdt k' = k_fdt k.
Proof.
  intros H Hrc Herr Hint. apply interest_of_Some in Hint. revert H.
  unfold epoll_ctl, fail. rewrite Hint.
  destruct (k_fdt k !! fd) as [t|]; [|intros [= <- <-]; discriminate].
  destruct (Z.eqb epfd fd); [intros [= <- <-]; discriminate|].
  destruct (int !! fd) as [e|]; intros [= <- <-]; [lia|auto].
Qed.

(** A disable call that returns 0 for an entry whose descriptor field is
    not 0 leaves the interest list without that descriptor, and with
    everything else it had. *)
Lemma monitor_modify_epoll_disable_removes k mn i me k' mn' int :
  0 <= mn_fd mn ->
  mn_ents mn !! i = Some me ->
  me_fd me <> 0 ->
  interest_of k (mn_fd mn) = Some int ->
  monitor_modify_epoll opers_at k mn i false = Some (k', mn', 0) ->
  interest_of k' (mn_fd mn) = Some (delete (me_fd me) int).
Proof.
  intros Hfd Hme Hnz Hint. unfold monitor_modify_epoll. rewrite Hme.
  change (mn_fd (set_entry i (set_flags false false me) mn)) with (mn_fd mn).
  change (me_fd (set_flags false false me)) with (me_fd me).
  assert (Z.ltb (mn_fd mn) 0 = false) as -> by lia.
  assert (Z.eqb (me_fd me) 0 = false) as -> by lia.
  simpl negb. cbv iota.
  destruct (epoll_ctl _ _ _ _ _) as [k2 rc] eqn:Hctl.
  destruct (Z.ltb rc 0) eqn:Hrc; simpl.
  - destruct (N.eqb (k_errno k2) ENOENT) eqn:He; simpl.
    + intros [= <- <-]. apply N.eqb_eq in He.
      destruct (epoll_ctl_del_enoent _ _ _ _ _ _ _ Hctl ltac:(lia) He Hint) as [Hno Hfdt].
      rewrite delete_id by exact Hno.
      unfold interest_of in *. rewrite Hfdt. exact Hint.
    + intros [= <- <- Hz]. exfalso.
      pose proof (epoll_ctl_errno _ _ _ _ _ _ _ Hctl ltac:(lia)). lia.
  - intros [= <- <-].
    destruct (epoll_ctl_result _ _ _ _ _ _ _ Hctl) as [->|[-> _]]; [|discriminate].
    apply (epoll_ctl_del_ok _ _ _ _ _ _ Hctl Hint).
Qed.

(** For an entry whose descriptor field is 0 the disable direction does not
    call the kernel at all. *)
Lemma monitor_modify_epoll_disable_zero k mn i me :
  0 <= mn_fd mn ->
  mn_ents mn !! i = Some me ->
  me_fd me = 0 ->
  monitor_modify_epoll opers_at k mn i false
  = Some (k, set_entry i (set_flags false false me) mn, 0).
Proof.
  intros Hfd Hme Hz. unfold monitor_modify_epoll. rewrite Hme.
  change (mn_fd (set_entry i (set_flags false false me) mn)) with (mn_fd mn).
  change (me_fd (set_flags false false me)) with (me_fd me).
  assert (Z.ltb (mn_fd mn) 0 = false) as -> by lia.
  rewrite Hz. reflexivity.
Qed.

(** *** The epoll instance and the enabled entries

    Apart from entries with descriptor 0, successful enable and disable
    calls keep the interest list of the epoll instance equal to the
    descriptors of the enabled entries. *)

Lemma monitor_modify_epoll_disable_monitor k mn i me k' mn' rc :
  mn_ents mn !! i = Some me ->
  monitor_modify_epoll opers_at k mn i false = Some (k', mn', rc) ->
  mn' = set_entry i (set_flags false false me) mn.
Proof.
  intros Hme. unfold monitor_modify_epoll. rewrite Hme.
  destruct (Z.ltb _ 0); [intros [= <- <- <-]; reflexivity|].
  destruct (negb _); [|intros [= <- <- <-]; reflexivity].
  destruct (epoll_ctl _ _ _ _ _) as [k2 rc2].
  destruct (_ && _); intros [= <- <- <-]; reflexivity.
Qed.

Lemma monitor_modify_epoll_disable_keeps_registered k mn i me k' mn' :
  0 <= mn_fd mn ->
  mn_ents mn !! i = Some me ->
  me_fd me <> 0 ->
  (forall j e, j <> i -> mn_ents mn !! j = Some e -> me_enabled e = true ->
               me_fd e <> me_fd me) ->
  registered k mn (fun _ => True) ->
  monitor_modify_epoll opers_at k mn i false = Some (k', mn', 0) ->
  registered k' mn' (fun _ => True).
Proof.
  intros Hfd Hme Hnz Hown (int & Hint & Hfwd & Hbwd) Hm.
  pose proof (monitor_modify_epoll_disable_removes _ _ _ _ _ _ _ Hfd Hme Hnz Hint Hm)
    as Hint'.
  apply (monitor_modify_epoll_disable_monitor _ _ _ _ _ _ _ Hme) in Hm. subst mn'.
  exists (delete (me_fd me) int). split; [exact Hint'|]. split.
  - intros j e _. destruct (decide (i = j)) as [<-|Hne].
    + rewrite (set_entry_lookup _ _ _ _ Hme). intros [= <-]. discriminate.
    + rewrite set_entry_lookup_ne by exact Hne. intros He Hen.
      rewrite lookup_delete_ne by (apply not_eq_sym; eapply Hown; eauto).
      eapply Hfwd; eauto.
  - intros x Hx. rewrite lookup_delete in Hx. case_decide as Hxe.
    { destruct Hx as [? Hx]. discriminate. }
    destruct (Hbwd x Hx) as (j & e & _ & He & Hen & Hfde).
    assert (i <> j) as Hne by (intros <-; congruence).
    exists j, e. rewrite set_entry_lookup_ne by exact Hne. auto.
Qed.

Lemma monitor_modify_epoll_enable_keeps_registered k mn i me k' mn' :
  well_behaved opers_at ->
  0 <= mn_fd mn ->
  mn_ents mn !! i = Some me ->
  me_enabled me = false ->
  registered k mn (fun _ => True) ->
  monitor_modify_epoll opers_at k mn i true = Some (k', mn', 0) ->
  registered k' mn' (fun _ => True).
Proof.
  intros Hwb Hfd Hme Hoff (int & Hint & Hfwd & Hbwd) Hm.
  eapply registered_ext;
    [|eapply (monitor_modify_epoll_enable_registered k mn i me (fun j => j <> i));
      [exact Hwb|exact Hfd|exact Hme|congruence| |exact Hm]].
  - intros j. destruct (decide (j = i)); tauto.
  - exists int. split; [exact Hint|]. split.
    + intros j e _. apply Hfwd. exact I.
    + intros x Hx. destruct (Hbwd x Hx) as (j & e & _ & He & Hen & Hfde).
      exists j, e. split; [|auto]. intros ->. congruence.
Qed.

End MonitorFacts.

(** ** The example drivers are well behaved *)

Section TableFacts.

Import Drivers.

Lemma table_get_fd_cases a :
  op_get_fd (table a) = table_get_fd true \/ op_get_fd (table a) = table_get_fd false.
Proof. destruct a as [|[|a]]; simpl; auto. Qed.

Lemma table_get_fd_result ready k mn me :
  let r := table_get_fd ready k mn me in
  (0 <= or_rc r /\ or_fd r = or_rc r /\
   forall epfd, is_Some (interest_of k epfd) ->
                interest_of (or_kernel r) epfd = interest_of k epfd) \/
  (or_rc r < 0 /\ k_errno (or_kernel r) <> 0%N /\ k_fdt (or_kernel r) = k_fdt k).
Proof.
  unfold table_get_fd. destruct (Z.leb 0 (me_fd me)) eqn:Hfd; simpl.
  - left. split; [lia|]. split; [reflexivity|]. reflexivity.
  - unfold open_file, fail.
    destruct (lowest_free (k_fdt k)) as [fd|] eqn:Hfree; simpl.
    + apply lowest_free_Some in Hfree as [Hpos Hnone].
      assert (Z.ltb fd 0 = false) as -> by lia.
      left. split; [exact Hpos|]. split; [reflexivity|].
      intros epfd [int Hint]. unfold interest_of in *. simpl.
      rewrite lookup_insert_ne; [reflexivity|].
      intros <-. rewrite Hnone in Hint. discriminate.
    + right. split; [reflexivity|]. split; [discriminate|reflexivity].
Qed.

Local Ltac table_get_fd_case a k mn me H :=
  destruct (table_get_fd_cases a) as [-> | ->];
  [pose proof (table_get_fd_result true k mn me) as H
  |pose proof (table_get_fd_result false k mn me) as H];
  cbv zeta in H.

Lemma table_well_behaved : well_behaved table.
Proof.
  split; [|split].
  - intros a k mn me. table_get_fd_case a k mn me H;
      (destruct H as [(? & _)|(_ & ? & _)]; [lia|auto]).
  - intros a k mn me Hs. table_get_fd_case a k mn me H;
      (destruct H as [(_ & _ & H)|(_ & _ & H)];
       [auto | unfold interest_of; rewrite H; reflexivity]).
  - intros a k mn me. table_get_fd_case a k mn me H;
      (destruct H as [(_ & ? & _)|(? & _)]; [auto|lia]).
Qed.

End TableFacts.




(** ** More about the operations: entries and their lookup *)

Section EntryFacts.

Lemma find_seq_first (f : nat -> bool) n : forall s i,
  List.find f (seq s n) = Some i ->
  (s <= i < s + n)%nat /\ f i = true /\
  forall j, (s <= j < i)%nat -> f j = false.
Proof.
  induction n as [|n IH]; intros s i; simpl; [discriminate|].
  destruct (f s) eqn:Hs.
  - intros [= <-]. split; [lia|]. split; [exact Hs|]. intros j Hj. lia.
  - intros H. apply IH in H as (Hr & Hi & Hb). split; [lia|]. split; [exact Hi|].
    intros j Hj. destruct (decide (j = s)) as [->|Hne]; [exact Hs|]. apply Hb. lia.
Qed.

Lemma find_seq_none (f : nat -> bool) n s :
  List.find f (seq s n) = None <->
  forall j, (s <= j < s + n)%nat -> f j = false.
Proof.
  split.
  - intros H j Hj. eapply find_none in H; [exact H|]. apply in_seq. lia.
  - intros H. destruct (List.find f (seq s n)) as [i|] eqn:Hf; [|reflexivity].
    apply find_seq_first in Hf as (Hr & Hi & _). rewrite (H i Hr) in Hi. discriminate.
Qed.

Lemma find_seq_intro (f : nat -> bool) n s i :
  (s <= i < s + n)%nat -> f i = true ->
  (forall j, (s <= j < i)%nat -> f j = false) ->
  List.find f (seq s n) = Some i.
Proof.
  intros Hr Hi Hb. destruct (List.find f (seq s n)) as [i'|] eqn:Hf.
  - apply find_seq_first in Hf as (Hr' & Hi' & Hb'). f_equal.
    destruct (lt_eq_lt_dec i' i) as [[Hlt|Heq]|Hgt]; [|exact Heq|].
    + rewrite (Hb i') in Hi' by lia. discriminate.
    + rewrite (Hb' i) in Hi by lia. discriminate.
  - rewrite find_seq_none in Hf. rewrite (Hf i Hr) in Hi. discriminate.
Qed.

Lemma monitor_get_entry_find mn type id :
  monitor_get_entry mn type id
  = List.find (matches mn type id) (seq 0 (length (mn_ents mn))).
Proof. reflexivity. Qed.

Lemma matches_true mn type id i :
  matches mn type id i = true <->
  exists me, mn_ents mn !! i = Some me /\ me_type me = type /\ me_id me = id.
Proof.
  unfold matches. destruct (mn_ents mn !! i) as [me|].
  - rewrite andb_true_iff, !Z.eqb_eq. split.
    + intros [? ?]. eauto.
    + intros (me' & [= <-] & ? & ?). auto.
  - split; [discriminate|]. intros (me & ? & _). discriminate.
Qed.

(** X1: [monitor_get_entry] returns the first entry in list order that has
    the given type and identifier, and the null pointer exactly when no
    entry has them. *)
Theorem monitor_get_entry_first mn type id :
  match monitor_get_entry mn type id with
  | Some i =>
      exists me, mn_ents mn !! i = Some me /\ me_type me = type /\ me_id me = id /\
        forall j e, (j < i)%nat -> mn_ents mn !! j = Some e ->
                    ~ (me_type e = type /\ me_id e = id)
  | None =>
      forall j e, mn_ents mn !! j = Some e -> ~ (me_type e = type /\ me_id e = id)
  end.
Proof.
  rewrite monitor_get_entry_find.
  destruct (List.find _ _) as [i|] eqn:Hf.
  - apply find_seq_first in Hf as (_ & Hi & Hb).
    apply (proj1 (matches_true mn type id i)) in Hi as (me & Hme & Ht & Hid).
    exists me. repeat (split; [assumption|]).
    intros j e Hj He [Ht' Hid'].
    assert (matches mn type id j = true) as Hm
      by (apply matches_true; eauto).
    rewrite (Hb j) in Hm by lia. discriminate.
  - rewrite find_seq_none in Hf. intros j e He [Ht Hid].
    assert (matches mn type id j = true) as Hm
      by (apply matches_true; eauto).
    rewrite (Hf j) in Hm; [discriminate|].
    apply lookup_lt_Some in He. lia.
Qed.

(** X2: a new entry goes to the tail of the list and no other field of the
    monitor changes (descriptor, last reported entry, reference count,
    veil), so every lookup that found an entry before finds the same entry
    afterwards; a lookup that found none finds the new entry if
    it asks for the type and identifier of a blank entry (0 and -1), and
    none otherwise.  When the allocation fails the monitor is unchanged. *)
Theorem monitor_new_entry_lookup mn type id :
  monitor_new_entry false mn = (mn, None) /\
  snd (monitor_new_entry true mn) = Some (length (mn_ents mn)) /\
  mn_ents (fst (monitor_new_entry true mn)) = mn_ents mn ++ [blank_entry] /\
  mn_fd (fst (monitor_new_entry true mn)) = mn_fd mn /\
  mn_last (fst (monitor_new_entry true mn)) = mn_last mn /\
  mn_refcount (fst (monitor_new_entry true mn)) = mn_refcount mn /\
  mn_kernel_veiled (fst (monitor_new_entry true mn)) = mn_kernel_veiled mn /\
  monitor_get_entry (fst (monitor_new_entry true mn)) type id
  = match monitor_get_entry mn type id with
    | Some j => Some j
    | None => if Z.eqb type 0 && Z.eqb id (-1)
              then Some (length (mn_ents mn)) else None
    end.
Proof.
  repeat (split; [reflexivity|]).
  rewrite !monitor_get_entry_find. simpl.
  set (n := length (mn_ents mn)).
  rewrite length_app. simpl. replace (n + 1)%nat with (S n) by lia.
  assert (forall j, (j < n)%nat ->
            matches (set_ents (mn_ents mn ++ [blank_entry]) mn) type id j
            = matches mn type id j) as Hold.
  { intros j Hj. unfold matches. simpl mn_ents.
    rewrite lookup_app_l by exact Hj. reflexivity. }
  assert (matches (set_ents (mn_ents mn ++ [blank_entry]) mn) type id n
          = Z.eqb type 0 && Z.eqb id (-1)) as Hnew.
  { unfold matches. simpl mn_ents. rewrite lookup_app_r by (fold n; lia). fold n.
    rewrite Nat.sub_diag. change ([blank_entry] !! 0%nat) with (Some blank_entry).
    cbv beta iota. change (me_type blank_entry) with 0. change (me_id blank_entry) with (-1).
    rewrite (Z.eqb_sym 0), (Z.eqb_sym (-1)). reflexivity. }
  destruct (List.find (matches mn type id) (seq 0 n)) as [i|] eqn:Hf.
  - apply find_seq_first in Hf as (Hr & Hi & Hb).
    apply find_seq_intro; [lia| |].
    + rewrite Hold by lia. exact Hi.
    + intros j Hj. rewrite Hold by lia. apply Hb. exact Hj.
  - rewrite find_seq_none in Hf.
    destruct (Z.eqb type 0 && Z.eqb id (-1)) eqn:Hb.
    + apply find_seq_intro; [lia| |].
      * exact Hnew.
      * intros j Hj. rewrite Hold by lia. apply Hf. lia.
    + apply find_seq_none. intros j Hj.
      destruct (decide (j = n)) as [->|Hne]; [exact Hnew|].
      rewrite Hold by lia. apply Hf. lia.
Qed.

End EntryFacts.

(** ** More about the operations: the life of a monitor *)

Section LifeFacts.

Variable opers_at : nat -> monitor_opers.

Lemma set_refcount_twice a b mn : set_refcount a (set_refcount b mn) = set_refcount a mn.
Proof. reflexivity. Qed.

Lemma set_refcount_id mn : set_refcount (mn_refcount mn) mn = mn.
Proof. destruct mn; reflexivity. Qed.

Lemma release_survives n : forall k mn,
  Z.of_nat n < mn_refcount mn ->
  release opers_at n k mn
  = Some (k, Some (set_refcount (mn_refcount mn - Z.of_nat n) mn)).
Proof.
  induction n as [|n IH]; intros k mn Hn.
  - simpl. rewrite Z.sub_0_r, set_refcount_id. reflexivity.
  - cbn [release]. unfold mnt_unref_monitor.
    change (mn_refcount (set_refcount (mn_refcount mn - 1) mn)) with (mn_refcount mn - 1).
    assert (Z.leb (mn_refcount mn - 1) 0 = false) as -> by lia.
    rewrite IH by (simpl; lia). simpl mn_refcount. rewrite set_refcount_twice.
    replace (mn_refcount mn - 1 - Z.of_nat n) with (mn_refcount mn - Z.of_nat (S n))
      by lia.
    reflexivity.
Qed.

Lemma mnt_ref_monitor_iter n mn :
  Nat.iter n (mnt_ref_monitor PTR) mn = set_refcount (mn_refcount mn + Z.of_nat n) mn.
Proof.
  induction n as [|n IH].
  - simpl. rewrite Z.add_0_r, set_refcount_id. reflexivity.
  - rewrite Nat.iter_succ, IH. unfold mnt_ref_monitor. simpl mn_refcount.
    rewrite set_refcount_twice. f_equal. lia.
Qed.

(** X3: references and releases balance.  A monitor that is referenced [n]
    more times and then released [n] times is the monitor it was, and the
    kernel has not been called; more generally a monitor survives every
    number of releases below its reference count, with nothing changed but
    the count. *)
Theorem mnt_ref_unref_balance n k mn :
  1 <= mn_refcount mn ->
  mn_refcount mn + Z.of_nat n <= INT_MAX ->
  release opers_at n k (Nat.iter n (mnt_ref_monitor PTR) mn) = Some (k, Some mn) /\
  forall m, Z.of_nat m < mn_refcount mn ->
            release opers_at m k mn
            = Some (k, Some (set_refcount (mn_refcount mn - Z.of_nat m) mn)).
Proof.
  intros Hone _. split; [|intros m; apply release_survives].
  rewrite mnt_ref_monitor_iter, release_survives by (simpl; lia).
  simpl mn_refcount. rewrite set_refcount_twice.
  replace (mn_refcount mn + Z.of_nat n - Z.of_nat n) with (mn_refcount mn) by lia.
  rewrite set_refcount_id. reflexivity.
Qed.

Lemma closed_stays_refl k : closed_stays k k.
Proof. intros fd H. exact H. Qed.

Lemma closed_stays_trans a b c : closed_stays a b -> closed_stays b c -> closed_stays a c.
Proof. intros H1 H2 fd H. apply H2, H1, H. Qed.

Lemma close_closed_stays k fd : closed_stays k (fst (close k fd)).
Proof.
  intros x Hx. unfold close. destruct (k_fdt k !! fd); simpl; [|exact Hx].
  rewrite lookup_fmap, lookup_delete. case_decide; [reflexivity|].
  rewrite Hx. reflexivity.
Qed.

Lemma epoll_ctl_closed_stays k epfd op fd ev :
  closed_stays k (fst (epoll_ctl k epfd op fd ev)).
Proof.
  intros x Hx. unfold epoll_ctl, fail.
  destruct (k_fdt k !! epfd) as [[i|r]|] eqn:He, (k_fdt k !! fd) as [t|];
    try exact Hx.
  assert (epfd <> x) as Hne by congruence.
  destruct (Z.eqb epfd fd); [exact Hx|].
  destruct op, (i !! fd); try exact Hx.
  - destruct (out_of_memory k); [exact Hx|].
    destruct t as [j|[|]]; simpl; rewrite lookup_insert_ne by exact Hne; exact Hx.
  - simpl. rewrite lookup_insert_ne by exact Hne. exact Hx.
Qed.

Lemma monitor_modify_epoll_disable_closed_stays k mn i k' mn' rc :
  monitor_modify_epoll opers_at k mn i false = Some (k', mn', rc) ->
  closed_stays k k'.
Proof.
  unfold monitor_modify_epoll.
  destruct (mn_ents mn !! i) as [me|]; [|discriminate].
  destruct (Z.ltb _ 0); [intros [= <- _ _]; apply closed_stays_refl|].
  destruct (negb _); [|intros [= <- _ _]; apply closed_stays_refl].
  pose proof (epoll_ctl_closed_stays k
                (mn_fd (set_entry i (set_flags false false me) mn)) EPOLL_CTL_DEL
                (me_fd (set_flags false false me))
                {| ev_events := 0; ev_data := None |}) as Hc.
  destruct (epoll_ctl _ _ _ _ _) as [k2 rc2].
  destruct (_ && _); intros [= <- _ _]; exact Hc.
Qed.

Lemma free_monitor_entry_release k me :
  drivers_release opers_at ->
  is_Some (me_opers me) ->
  exists k', free_monitor_entry opers_at k (Some me) = Some k' /\
             closed_stays k k' /\
             (0 <= me_fd me -> k_fdt k' !! me_fd me = None).
Proof.
  intros Hrel [a Ha]. unfold free_monitor_entry, opers. rewrite Ha.
  destruct (Hrel a k me) as [_ Hfree].
  destruct (op_free_data (opers_at a)) as [free_data|].
  - destruct (Hfree free_data eq_refl) as [Hst Hfd].
    set (r := free_data k me) in *. simpl me_fd.
    eexists. split; [reflexivity|].
    destruct (Z.leb 0 (or_fd r)) eqn:Hpos.
    + split.
      * eapply closed_stays_trans; [exact Hst|apply close_closed_stays].
      * intros Hme. destruct (Hfd Hme) as [<-|Hclosed]; [apply close_closed|].
        apply close_closed_stays. exact Hclosed.
    + split; [exact Hst|]. intros Hme.
      destruct (Hfd Hme) as [Heq|Hclosed]; [lia|exact Hclosed].
  - eexists. split; [reflexivity|].
    destruct (Z.leb 0 (me_fd me)) eqn:Hpos.
    + split; [apply close_closed_stays|]. intros _. apply close_closed.
    + split; [apply closed_stays_refl|]. lia.
Qed.

Lemma free_entries_release l : forall k,
  drivers_release opers_at ->
  (forall me, In me l -> is_Some (me_opers me)) ->
  exists k', free_entries opers_at k l = Some k' /\
             closed_stays k k' /\
             forall me, In me l -> 0 <= me_fd me -> k_fdt k' !! me_fd me = None.
Proof.
  induction l as [|me l IH]; intros k Hrel Hops; cbn [free_entries].
  - exists k. split; [reflexivity|]. split; [apply closed_stays_refl|]. intros me [].
  - destruct (free_monitor_entry_release k me Hrel) as (k1 & -> & Hst & Hfd).
    { apply Hops. left. reflexivity. }
    destruct (IH k1 Hrel) as (k' & -> & Hst' & Hin).
    { intros e He. apply Hops. right. exact He. }
    exists k'. split; [reflexivity|].
    split; [eapply closed_stays_trans; eauto|].
    intros e [<-|He] Hpos; [apply Hst', Hfd, Hpos|apply Hin; assumption].
Qed.

Lemma close_entries_release todo : forall k mn,
  drivers_release opers_at ->
  has_opers mn ->
  NoDup todo ->
  Forall (fun i => (i < length (mn_ents mn))%nat) todo ->
  exists k' mn',
    close_entries opers_at k mn todo = Some (k', mn') /\
    closed_stays k k' /\
    mn_fd mn' = mn_fd mn /\
    length (mn_ents mn') = length (mn_ents mn) /\
    has_opers mn' /\
    (forall j, ~ In j todo -> mn_ents mn' !! j = mn_ents mn !! j) /\
    (forall j me, In j todo -> mn_ents mn !! j = Some me -> 0 <= me_fd me ->
       exists me', mn_ents mn' !! j = Some me' /\
                   (me_fd me' = me_fd me \/ k_fdt k' !! me_fd me = None)).
Proof.
  induction todo as [|i todo IH]; intros k mn Hrel Hops Hnd Hall; simpl.
  { exists k, mn. split; [reflexivity|]. split; [apply closed_stays_refl|].
    split; [reflexivity|]. split; [reflexivity|]. split; [exact Hops|].
    split; [auto|]. intros j me []. }
  apply NoDup_cons in Hnd as [Hi Hnd]. rewrite list_elem_of_In in Hi.
  apply Forall_cons in Hall as [Hlt Hall].
  destruct (lookup_lt_is_Some_2 _ _ Hlt) as [me Hme].
  assert (exists k1 mid rc,
            (if Z.leb 0 (mn_fd mn) then monitor_modify_epoll opers_at k mn i false
             else Some (k, mn, 0)) = Some (k1, set_entry i mid mn, rc) /\
            closed_stays k k1 /\ me_fd mid = me_fd me /\ me_opers mid = me_opers me)
    as (k1 & mid & rc & -> & Hst1 & Hmid & Hsame).
  { destruct (Z.leb 0 (mn_fd mn)).
    - destruct (monitor_modify_epoll_disable_returns opers_at k mn i)
        as [[[k1 mn1] rc] Hm]; [eauto|].
      pose proof (monitor_modify_epoll_disable_closed_stays _ _ _ _ _ _ Hm) as Hst.
      pose proof (monitor_modify_epoll_disable_monitor _ _ _ _ _ _ _ _ Hme Hm) as ->.
      exists k1, (set_flags false false me), rc. auto.
    - exists k, me, 0. split; [|split; [apply closed_stays_refl|split; reflexivity]].
      do 3 f_equal. unfold set_entry. rewrite list_insert_id by exact Hme.
      destruct mn; reflexivity. }
  rewrite (set_entry_lookup _ _ _ _ Hme).
  destruct (Hops i me Hme) as [a Ha].
  assert (opers opers_at mid = Some (opers_at a)) as ->
    by (unfold opers; rewrite Hsame, Ha; reflexivity).
  set (r := op_close_fd _ _ _ _). rewrite set_entry_twice.
  destruct (Hrel a k1 mid) as [Hclose _].
  destruct (Hclose (set_entry i mid mn)) as [Hst2 Hfd2].
  fold r in Hst2, Hfd2.
  destruct (IH (or_kernel r) (set_entry i (driven r mid) mn) Hrel)
    as (k' & mn' & Hc & Hst3 & Hfd & Hlen & Hops' & Hout & Hin).
  { eapply has_opers_set_entry; [exact Hops|exact Hme|exact Hsame]. }
  { exact Hnd. }
  { rewrite set_entry_length. exact Hall. }
  exists k', mn'. split; [exact Hc|].
  split; [eapply closed_stays_trans; [exact Hst1|];
          eapply closed_stays_trans; [exact Hst2|exact Hst3]|].
  split; [exact Hfd|]. split; [rewrite Hlen; apply set_entry_length|].
  split; [exact Hops'|]. split.
  - intros j Hj. rewrite Hout by tauto. apply set_entry_lookup_ne. tauto.
  - intros j e [<-|Hj] He Hpos.
    + rewrite Hout by exact Hi. rewrite (set_entry_lookup _ _ _ _ Hme).
      assert (e = me) as -> by congruence.
      eexists. split; [reflexivity|]. simpl me_fd.
      destruct Hfd2 as [Heq|Hclosed]; [lia|left; congruence|right].
      apply Hst3. rewrite <- Hmid. exact Hclosed.
    + assert (i <> j) as Hne by (intros ->; tauto).
      apply (Hin j e Hj); [|exact Hpos].
      rewrite set_entry_lookup_ne by exact Hne. exact He.
Qed.

(** X4: the release that brings the reference count to zero deallocates the
    monitor and leaves no descriptor behind: the epoll descriptor of the
    monitor and the descriptor of every entry are closed afterwards.  Every
    entry is assumed to have its operation table (the call follows the
    pointer of each), the count to be above the smallest [int], and the
    drivers to release only (their close and free operations open nothing,
    and leave the descriptor field alone unless they have closed the
    descriptor). *)
Theorem mnt_unref_monitor_last k mn :
  drivers_release opers_at ->
  has_opers mn ->
  INT_MIN < mn_refcount mn <= 1 ->
  exists k',
    mnt_unref_monitor opers_at PTR k mn = Some (k', None) /\
    (0 <= mn_fd mn -> k_fdt k' !! mn_fd mn = None) /\
    (forall j me, mn_ents mn !! j = Some me -> 0 <= me_fd me ->
                  k_fdt k' !! me_fd me = None).
Proof.
  intros Hrel Hops [_ Hcount]. unfold mnt_unref_monitor.
  set (mn0 := set_refcount (mn_refcount mn - 1) mn).
  change (mn_refcount mn0) with (mn_refcount mn - 1).
  assert (Z.leb (mn_refcount mn - 1) 0 = true) as -> by lia.
  destruct (close_entries_release (positions mn0) k mn0 Hrel)
    as (k1 & mn1 & Hc & Hst & Hfd & Hlen & Hops1 & _ & Hin).
  { exact Hops. }
  { apply NoDup_seq. }
  { apply positions_valid. }
  unfold mnt_monitor_close_fd. rewrite Hc. rewrite Hfd.
  change (mn_fd mn0) with (mn_fd mn). change (mn_ents (set_fd (-1) mn1)) with (mn_ents mn1).
  set (k2 := if Z.leb 0 (mn_fd mn) then fst (close k1 (mn_fd mn)) else k1).
  assert (closed_stays k1 k2) as Hst2.
  { subst k2. destruct (Z.leb 0 (mn_fd mn));
      [apply close_closed_stays|apply closed_stays_refl]. }
  destruct (free_entries_release (mn_ents mn1) k2 Hrel) as (k3 & -> & Hst3 & Hfree).
  { intros me Hme. apply list_elem_of_In in Hme.
    apply list_elem_of_lookup_1 in Hme as [j Hj]. eapply Hops1; eauto. }
  exists k3. split; [reflexivity|]. split.
  - intros Hpos. apply Hst3. subst k2.
    assert (Z.leb 0 (mn_fd mn) = true) as -> by lia. apply close_closed.
  - intros j me Hme Hpos.
    destruct (Hin j me) as (me' & Hme' & [Heq|Hclosed]); [| |exact Hpos| |].
    + apply positions_lookup. change (mn_ents mn0) with (mn_ents mn). eauto.
    + exact Hme.
    + rewrite <- Heq. apply Hfree; [|lia].
      apply list_elem_of_In. eapply list_elem_of_lookup_2. exact Hme'.
    + apply Hst3, Hst2, Hclosed.
Qed.

End LifeFacts.

(** ** More about the operations: events *)

Section EventFacts.

Variable opers_at : nat -> monitor_opers.

(** [read_epoll_events] entry by entry: drivers may have worked on the
    descriptor and private data, the identity and the [enabled] flag are
    what they were, and the [active] flag is set for the entry that is
    returned and untouched for the others. *)
Lemma read_epoll_events_flags fuel : forall k mn timeout k' mn' rc act,
  read_epoll_events opers_at fuel k mn timeout = Some (k', mn', rc, act) ->
  forall j e, mn_ents mn !! j = Some e ->
    exists e', mn_ents mn' !! j = Some e' /\ same_identity e e' /\
               me_enabled e' = me_enabled e /\
               me_active e' = if decide (act = Some j) then true else me_active e.
Proof.
  assert (forall mn j (e : monitor_entry), mn_ents mn !! j = Some e ->
            exists e', mn_ents mn !! j = Some e' /\ same_identity e e' /\
                       me_enabled e' = me_enabled e /\
                       me_active e' = if decide (@None nat = Some j) then true
                                      else me_active e) as Hsame.
  { intros mn j e He. exists e. split; [exact He|]. split; [apply same_identity_refl|].
    split; [reflexivity|]. case_decide; [discriminate|reflexivity]. }
  induction fuel as [|fuel IH]; intros k mn timeout k' mn' rc act; simpl;
    [discriminate|].
  destruct (epoll_wait k (mn_fd mn) timeout) as [[[k1 rc1] p]|]; [|discriminate].
  destruct (Z.ltb rc1 0); [intros [= <- <- <- <-]; apply Hsame|].
  destruct (Z.eqb rc1 0); [intros [= <- <- <- <-]; apply Hsame|].
  destruct p as [i|]; [|intros [= <- <- <- <-]; apply Hsame].
  destruct (mn_ents mn !! i) as [me|] eqn:Hme; [|discriminate].
  destruct (opers opers_at me) as [o|]; [|discriminate].
  set (r := op_process_event _ _ _ _).
  assert (forall j e, mn_ents mn !! j = Some e ->
            exists e2, mn_ents (set_entry i (driven r me) mn) !! j = Some e2 /\
                       same_identity e e2 /\ me_enabled e2 = me_enabled e /\
                       me_active e2 = me_active e) as Hstep.
  { intros j e He. destruct (decide (i = j)) as [<-|Hne].
    - rewrite (set_entry_lookup _ _ _ _ Hme). assert (e = me) as -> by congruence.
      eexists. split; [reflexivity|]. repeat split.
    - rewrite set_entry_lookup_ne by exact Hne. exists e.
      split; [exact He|]. repeat split. }
  destruct (Z.ltb (or_rc r) 0).
  { intros [= <- <- <- <-] j e He.
    destruct (Hstep j e He) as (e2 & He2 & Hid & Hen & Hact).
    exists e2. split; [exact He2|]. split; [exact Hid|]. split; [exact Hen|].
    case_decide; [discriminate|exact Hact]. }
  destruct (Z.eqb (or_rc r) 0).
  - intros [= <- <- <- <-] j e He.
    destruct (Hstep j e He) as (e2 & He2 & Hid & Hen & Hact).
    destruct (decide (i = j)) as [<-|Hne].
    + rewrite (set_entry_lookup _ _ _ _ He2).
      rewrite (set_entry_lookup _ _ _ _ Hme) in He2. injection He2 as <-.
      eexists. split; [reflexivity|]. split; [exact Hid|]. split; [exact Hen|].
      case_decide; [reflexivity|congruence].
    + rewrite set_entry_lookup_ne by exact Hne. exists e2.
      split; [exact He2|]. split; [exact Hid|]. split; [exact Hen|].
      case_decide; [congruence|exact Hact].
  - intros H j e He.
    destruct (Hstep j e He) as (e2 & He2 & Hid & Hen & Hact).
    destruct (IH _ _ _ _ _ _ _ H j e2 He2) as (e' & He' & Hid' & Hen' & Hact').
    exists e'. split; [exact He'|].
    split; [eapply same_identity_trans; eauto|]. split; [congruence|].
    rewrite Hact'. case_decide; [reflexivity|exact Hact].
Qed.


Lemma get_active_find mn :
  get_active mn
  = List.find (fun i => match mn_ents mn !! i with
                        | Some me => me_active me
                        | None => false
                        end) (seq 0 (length (mn_ents mn))).
Proof. reflexivity. Qed.

Lemma get_active_first mn i me :
  mn_ents mn !! i = Some me -> me_active me = true ->
  (forall j e, (j < i)%nat -> mn_ents mn !! j = Some e -> me_active e = false) ->
  get_active mn = Some i.
Proof.
  intros Hme Hact Hfirst. rewrite get_active_find.
  apply find_seq_intro.
  - apply lookup_lt_Some in Hme. lia.
  - rewrite Hme. exact Hact.
  - intros j Hj. destruct (mn_ents mn !! j) as [e|] eqn:He; [|reflexivity].
    eapply Hfirst; [|exact He]. lia.
Qed.

Lemma get_active_is_first mn i :
  get_active mn = Some i ->
  exists me, mn_ents mn !! i = Some me /\ me_active me = true /\
    forall j e, (j < i)%nat -> mn_ents mn !! j = Some e -> me_active e = false.
Proof.
  rewrite get_active_find. intros H. apply find_seq_first in H as (_ & Hi & Hb).
  destruct (mn_ents mn !! i) as [me|] eqn:Hme; [|discriminate].
  exists me. split; [reflexivity|]. split; [exact Hi|].
  intros j e Hj He. specialize (Hb j ltac:(lia)). rewrite He in Hb. exact Hb.
Qed.

Lemma get_active_none mn :
  get_active mn = None ->
  forall j e, mn_ents mn !! j = Some e -> me_active e = false.
Proof.
  rewrite get_active_find, find_seq_none. intros H j e He.
  specialize (H j). rewrite He in H. apply H. apply lookup_lt_Some in He. lia.
Qed.

(** With an active entry at hand, [mnt_monitor_next_change] reports the
    first one and does not call the kernel. *)
Lemma mnt_monitor_next_change_active fuel k mn i me filename type :
  0 <= mn_fd mn ->
  get_active mn = Some i ->
  mn_ents mn !! i = Some me ->
  mnt_monitor_next_change opers_at fuel PTR k mn filename type
  = Some (k, set_last (Some i) (set_entry i (set_active false me) mn),
          {| ch_rc := 0;
             ch_filename := match filename with
                            | Some _ => Some (me_path me)
                            | None => None
                            end;
             ch_type := match type with
                        | Some _ => Some (me_type me)
                        | None => None
                        end |}).
Proof.
  intros Hfd Hact Hme. unfold mnt_monitor_next_change.
  assert (Z.ltb (mn_fd mn) 0 = false) as -> by lia.
  change (get_active (set_last None mn)) with (get_active mn). rewrite Hact.
  simpl mn_ents. rewrite Hme. reflexivity.
Qed.

(** X6: when several entries are active, [mnt_monitor_next_change] reports
    them in list order: the call returns 0 for the first active entry,
    stores its path and type through the arguments that are not null, clears
    its [active] flag, makes it the last reported entry, and touches neither
    the kernel nor any other entry. *)
Theorem mnt_monitor_next_change_first_active fuel k mn i me filename type :
  0 <= mn_fd mn ->
  mn_ents mn !! i = Some me ->
  me_active me = true ->
  (forall j e, (j < i)%nat -> mn_ents mn !! j = Some e -> me_active e = false) ->
  mnt_monitor_next_change opers_at fuel PTR k mn filename type
  = Some (k, set_last (Some i) (set_entry i (set_active false me) mn),
          {| ch_rc := 0;
             ch_filename := match filename with
                            | Some _ => Some (me_path me)
                            | None => None
                            end;
             ch_type := match type with
                        | Some _ => Some (me_type me)
                        | None => None
                        end |}).
Proof.
  intros Hfd Hme Hact Hfirst.
  apply mnt_monitor_next_change_active; [exact Hfd| |exact Hme].
  eapply get_active_first; eauto.
Qed.

Lemma mnt_monitor_wait_changed fuel k mn timeout k' mn' :
  mnt_monitor_wait opers_at fuel PTR k mn timeout = Some (k', mn', 1) ->
  0 <= mn_fd mn' /\
  exists j e, mn_ents mn' !! j = Some e /\ me_active e = true.
Proof.
  intros H.
  destruct (mnt_monitor_wait_result _ _ _ _ _ _ _ _ H)
    as [(_ & Hfd & Hact)|[(Hr & _)|Hr]]; [auto|lia|lia].
Qed.

(** X7: a wait that returns 1 does not use up the change: whatever the
    timeout was, the [mnt_monitor_next_change] that follows returns 0 for
    an active entry (the first in list order), without calling the kernel. *)
Theorem mnt_monitor_wait_then_next_change
    fuel k mn timeout k1 mn1 fuel' filename type :
  mnt_monitor_wait opers_at fuel PTR k mn timeout = Some (k1, mn1, 1) ->
  exists i me,
    mn_ents mn1 !! i = Some me /\ me_active me = true /\
    mnt_monitor_next_change opers_at fuel' PTR k1 mn1 filename type
    = Some (k1, set_last (Some i) (set_entry i (set_active false me) mn1),
            {| ch_rc := 0;
               ch_filename := match filename with
                              | Some _ => Some (me_path me)
                              | None => None
                              end;
               ch_type := match type with
                          | Some _ => Some (me_type me)
                          | None => None
                          end |}).
Proof.
  intros Hw. apply mnt_monitor_wait_changed in Hw as (Hfd & j & e & He & Hact).
  destruct (get_active mn1) as [i|] eqn:Hg.
  - destruct (get_active_is_first _ _ Hg) as (me & Hme & Hact' & _).
    exists i, me. split; [exact Hme|]. split; [exact Hact'|].
    apply mnt_monitor_next_change_active; assumption.
  - rewrite (get_active_none _ Hg j e He) in Hact. discriminate.
Qed.

Lemma set_active_false_id me : me_active me = false -> set_active false me = me.
Proof. destruct me. simpl. intros ->. reflexivity. Qed.

Lemma count_active_fetch l : forall i me,
  l !! i = Some me -> me_active me = true ->
  S (length (List.filter me_active (<[i := set_active false me]> l)))
  = length (List.filter me_active l).
Proof.
  induction l as [|x l IH]; intros i me; [discriminate|].
  destruct i as [|i]; simpl.
  - intros [= ->] ->. reflexivity.
  - intros Hl Ha. destruct (me_active x); simpl; rewrite <- (IH i me Hl Ha); reflexivity.
Qed.

Lemma map_fetch l : forall i me,
  l !! i = Some me ->
  List.map (set_active false) (<[i := set_active false me]> l)
  = List.map (set_active false) l.
Proof.
  induction l as [|x l IH]; intros i me; [discriminate|].
  destruct i as [|i]; simpl.
  - intros [= ->]. reflexivity.
  - intros Hl. f_equal. apply IH. exact Hl.
Qed.

Lemma map_fetched l :
  (forall j e, l !! j = Some e -> me_active e = false) ->
  List.map (set_active false) l = l.
Proof.
  induction l as [|x l IH]; intros H; simpl; [reflexivity|].
  rewrite (set_active_false_id x) by (apply (H 0%nat); reflexivity).
  f_equal. apply IH. intros j e He. apply (H (S j)). exact He.
Qed.

Lemma all_fetched_fetch mn i me l :
  mn_ents mn !! i = Some me ->
  all_fetched (set_last l (set_entry i (set_active false me) mn)) = all_fetched mn.
Proof.
  intros Hme. unfold all_fetched. simpl mn_ents. rewrite map_fetch by exact Hme.
  reflexivity.
Qed.

Lemma all_fetched_none mn :
  (forall j e, mn_ents mn !! j = Some e -> me_active e = false) ->
  all_fetched mn = set_last None mn.
Proof.
  intros H. unfold all_fetched. rewrite map_fetched by exact H.
  destruct mn; reflexivity.
Qed.

Lemma cleanup_loop_quiet fuel n : forall k mn,
  0 <= mn_fd mn -> quiet k (mn_fd mn) ->
  (count_active mn < n)%nat ->
  cleanup_loop opers_at (S fuel) n k mn = Some (k, all_fetched mn, 1).
Proof.
  induction n as [|n IH]; intros k mn Hfd Hq Hn; [lia|]. cbn [cleanup_loop].
  destruct (get_active mn) as [i|] eqn:Hg.
  - destruct (get_active_is_first _ _ Hg) as (me & Hme & Hact & _).
    rewrite (mnt_monitor_next_change_active (S fuel) k mn i me None None Hfd Hg Hme).
    cbn [ch_rc Z.eqb]. rewrite IH.
    + rewrite all_fetched_fetch by exact Hme. reflexivity.
    + exact Hfd.
    + exact Hq.
    + unfold count_active in *. simpl mn_ents.
      pose proof (count_active_fetch _ _ _ Hme Hact). lia.
  - unfold mnt_monitor_next_change.
    assert (Z.ltb (mn_fd mn) 0 = false) as -> by lia.
    change (get_active (set_last None mn)) with (get_active mn). rewrite Hg.
    rewrite read_epoll_events_quiet by exact Hq. simpl.
    rewrite all_fetched_none by (apply get_active_none; exact Hg). reflexivity.
Qed.

(** X8: when nothing is pending in the kernel, [mnt_monitor_event_cleanup]
    returns 0 after discarding every accepted event: no entry is active and
    no entry is the last reported one afterwards, and nothing else has
    changed, the kernel included.  The loop takes one turn per active entry
    and one more. *)
Theorem mnt_monitor_event_cleanup_quiet fuel k mn :
  0 <= mn_fd mn ->
  quiet k (mn_fd mn) ->
  (count_active mn < fuel)%nat ->
  mnt_monitor_event_cleanup opers_at fuel PTR k mn = Some (k, all_fetched mn, 0).
Proof.
  intros Hfd Hq Hn. unfold mnt_monitor_event_cleanup.
  assert (Z.ltb (mn_fd mn) 0 = false) as -> by lia.
  destruct fuel as [|fuel]; [lia|].
  rewrite cleanup_loop_quiet by assumption. reflexivity.
Qed.

Lemma mnt_monitor_next_change_no_change fuel k mn filename type k' mn' c :
  0 <= mn_fd mn ->
  mnt_monitor_next_change opers_at fuel PTR k mn filename type = Some (k', mn', c) ->
  mn_fd mn' = mn_fd mn /\
  (ch_rc c <> 0 ->
   (ch_rc c = 1 \/ ch_rc c < 0) /\ mn_last mn' = None /\
   (ch_rc c = 1 ->
    (forall j e, mn_ents mn' !! j = Some e -> me_active e = false) /\
    exists kf, epoll_wait kf (mn_fd mn) 0 = Some (k', 0, None))).
Proof.
  intros Hfd. unfold mnt_monitor_next_change.
  assert (Z.ltb (mn_fd mn) 0 = false) as -> by lia.
  change (get_active (set_last None mn)) with (get_active mn).
  destruct (get_active mn) as [i|] eqn:Hg.
  - simpl mn_ents. destruct (mn_ents mn !! i); [|discriminate].
    intros [= <- <- <-]. split; [reflexivity|]. simpl. congruence.
  - destruct (read_epoll_events _ _ _ _ _) as [[[[k1 mn1] rc1] act]|] eqn:Hr;
      [|discriminate].
    pose proof (read_epoll_events_frame _ _ _ _ _ _ _ _ _ Hr) as (Hfd1 & Hl1 & _).
    pose proof (read_epoll_events_flags _ _ _ _ _ _ _ _ Hr) as Hflags.
    pose proof (read_epoll_events_result _ _ _ _ _ _ _ _ _ Hr) as Hres.
    destruct (Z.eqb rc1 0) eqn:E0; simpl.
    + destruct act as [i|]; [|discriminate].
      destruct (mn_ents mn1 !! i); [|discriminate].
      intros [= <- <- <-]. split; [exact Hfd1|]. simpl. congruence.
    + intros [= <- <- <-]. split; [exact Hfd1|]. simpl. intros _.
      apply Z.eqb_neq in E0.
      destruct Hres as [(? & _)|[(-> & -> & Hto)|(Hneg & ->)]]; [congruence| |].
      * split; [auto|]. split; [exact Hl1|]. intros _. split; [|exact Hto].
        intros j e' He'.
        destruct (lookup_lt_is_Some_2 (mn_ents mn) j) as [e He].
        { destruct (read_epoll_events_frame _ _ _ _ _ _ _ _ _ Hr) as (_ & _ & _ & _ & Hlen).
          simpl in Hlen. rewrite <- Hlen. eapply lookup_lt_Some; eauto. }
        destruct (Hflags j e He) as (e2 & He2 & _ & _ & Hact).
        assert (e2 = e') as -> by congruence. rewrite Hact.
        case_decide; [discriminate|]. eapply get_active_none; eauto.
      * split; [auto|]. split; [exact Hl1|]. lia.
Qed.

Lemma cleanup_loop_result fuel n : forall k mn k' mn' rc,
  0 <= mn_fd mn ->
  cleanup_loop opers_at fuel n k mn = Some (k', mn', rc) ->
  (rc = 1 \/ rc < 0) /\ mn_last mn' = None /\
  (rc = 1 ->
   (forall j e, mn_ents mn' !! j = Some e -> me_active e = false) /\
   exists kf, epoll_wait kf (mn_fd mn) 0 = Some (k', 0, None)).
Proof.
  induction n as [|n IH]; intros k mn k' mn' rc Hfd; cbn [cleanup_loop];
    [discriminate|].
  destruct (mnt_monitor_next_change _ _ _ _ _ _ _) as [[[k1 mn1] c]|] eqn:Hc;
    [|discriminate].
  destruct (mnt_monitor_next_change_no_change _ _ _ _ _ _ _ _ Hfd Hc) as [Hfd1 Hno].
  destruct (Z.eqb (ch_rc c) 0) eqn:E0.
  - intros H. rewrite <- Hfd1. apply IH in H; [exact H|lia].
  - intros [= <- <- <-]. apply Z.eqb_neq in E0. destruct (Hno E0) as (? & ? & ?). auto.
Qed.

(** X9: [mnt_monitor_event_cleanup] never returns a positive value.  On a
    monitor without epoll descriptor it returns -EINVAL and changes nothing.
    Otherwise, when it returns, no entry is the last reported one; and when
    it returns 0, no entry is active and the last poll of the epoll
    descriptor has found nothing. *)
Theorem mnt_monitor_event_cleanup_result fuel k mn k' mn' rc :
  mnt_monitor_event_cleanup opers_at fuel PTR k mn = Some (k', mn', rc) ->
  rc <= 0 /\
  (mn_fd mn < 0 -> rc = - Z.of_N EINVAL /\ k' = k /\ mn' = mn) /\
  (0 <= mn_fd mn ->
   mn_last mn' = None /\
   (rc = 0 ->
    (forall j e, mn_ents mn' !! j = Some e -> me_active e = false) /\
    exists kf, epoll_wait kf (mn_fd mn) 0 = Some (k', 0, None))).
Proof.
  unfold mnt_monitor_event_cleanup. destruct (Z.ltb (mn_fd mn) 0) eqn:Hfd.
  - intros [= <- <- <-]. split; [unfold EINVAL; lia|]. split; [auto|lia].
  - apply Z.ltb_ge in Hfd.
    destruct (cleanup_loop _ _ _ _ _) as [[[k1 mn1] rc1]|] eqn:Hc; [|discriminate].
    intros [= <- <- <-].
    destruct (cleanup_loop_result _ _ _ _ _ _ _ Hfd Hc) as (Hrc & Hlast & Hone).
    destruct Hrc as [->|Hneg].
    + simpl. split; [lia|]. split; [lia|]. intros _. split; [exact Hlast|].
      intros _. apply Hone. reflexivity.
    + assert (Z.ltb rc1 0 = true) as -> by lia.
      split; [lia|]. split; [lia|]. intros _. split; [exact Hlast|]. lia.
Qed.

End EventFacts.

(** ** More about the operations: enabling and disabling *)

Section RegistrationFacts.

Variable opers_at : nat -> monitor_opers.

(** X10: whenever [monitor_modify_epoll] returns, an error included, it
    has written the requested [enabled] flag and cleared [active] in its
    entry; the identity of the entry, every other entry and every other
    field of the monitor are as they were.  The disable direction always
    returns; it changes nothing else in the entry and opens no descriptor.
    The enable direction does not return when the monitor has its epoll
    descriptor and the entry has no operation table. *)
Theorem monitor_modify_epoll_flags k mn i me enable :
  mn_ents mn !! i = Some me ->
  (forall k' mn' rc,
     monitor_modify_epoll opers_at k mn i enable = Some (k', mn', rc) ->
     exists me', mn' = set_entry i me' mn /\
                 me_enabled me' = enable /\ me_active me' = false /\
                 same_identity me me') /\
  (exists k' rc,
     monitor_modify_epoll opers_at k mn i false
     = Some (k', set_entry i (set_flags false false me) mn, rc) /\
     closed_stays k k') /\
  (0 <= mn_fd mn -> opers opers_at me = None ->
   monitor_modify_epoll opers_at k mn i true = None).
Proof.
  intros Hme. split; [|split].
  - intros k' mn' rc Hm.
    destruct (monitor_modify_epoll_entry _ _ _ _ _ _ _ _ Hm)
      as (me0 & me' & Hme0 & -> & Hen & Hact & Hid).
    assert (me0 = me) as -> by congruence.
    exists me'. auto.
  - destruct (monitor_modify_epoll_disable_returns opers_at k mn i)
      as [[[k' mn'] rc] Hm]; [eauto|].
    pose proof (monitor_modify_epoll_disable_monitor _ _ _ _ _ _ _ _ Hme Hm) as ->.
    exists k', rc. split; [exact Hm|].
    eapply monitor_modify_epoll_disable_closed_stays. exact Hm.
  - intros Hfd Ho. eapply monitor_modify_epoll_null; eauto.
Qed.

(** X11: enabling an entry whose descriptor is in the interest list
    already (the addition fails with EEXIST) leaves the registration as it
    was: neither its event mask nor its tag is updated.  The call returns 0,
    unless the entry wants the drain and a notification is queued for a
    level-triggered registration: then the drain never ends and the call
    does not return. *)
Theorem monitor_modify_epoll_enable_again k mn i me o int :
  0 <= mn_fd mn ->
  mn_ents mn !! i = Some me ->
  opers opers_at me = Some o ->
  let me1 := set_flags true false me in
  let r := op_get_fd o k (set_entry i me1 mn) me1 in
  0 <= or_rc r ->
  or_rc r <> mn_fd mn ->
  is_Some (k_fdt (or_kernel r) !! or_rc r) ->
  interest_of (or_kernel r) (mn_fd mn) = Some int ->
  is_Some (int !! or_rc r) ->
  (wants_drain me && level_pending (or_kernel r) (mn_fd mn) = false ->
   exists k',
     monitor_modify_epoll opers_at k mn i true
     = Some (k', set_entry i (driven r me1) mn, 0) /\
     interest_of k' (mn_fd mn) = Some int) /\
  (wants_drain me && level_pending (or_kernel r) (mn_fd mn) = true ->
   monitor_modify_epoll opers_at k mn i true = None).
Proof.
  intros Hfd Hme Ho me1 r Hrc Hne [t Ht] Hint [ev Hev].
  pose proof Hint as Hint'. apply interest_of_Some in Hint'.
  rewrite (monitor_modify_epoll_enable_eq _ _ _ _ _ _ Hfd Hme Ho).
  cbv zeta. fold me1. fold r.
  assert (Z.ltb (or_rc r) 0 = false) as -> by lia.
  assert (epoll_ctl (or_kernel r) (mn_fd mn) EPOLL_CTL_ADD (or_rc r)
            {| ev_events := me_events me; ev_data := Some i |}
          = (set_errno EEXIST (or_kernel r), -1)) as ->.
  { unfold epoll_ctl, fail. rewrite Hint', Ht.
    assert (Z.eqb (mn_fd mn) (or_rc r) = false) as -> by lia.
    rewrite Hev. reflexivity. }
  simpl fst. simpl snd. simpl andb. cbv iota.
  assert (interest_of (set_errno EEXIST (or_kernel r)) (mn_fd mn) = Some int) as Hi2
    by exact Hint.
  change (level_pending (or_kernel r) (mn_fd mn))
    with (level_pending (set_errno EEXIST (or_kernel r)) (mn_fd mn)).
  destruct (wants_drain me).
  - simpl andb. split.
    + intros Hlp.
      destruct (drain_Some (mn_fd mn) _ Hlp) as (k3 & -> & Hfdt & _).
      exists k3. split; [reflexivity|]. unfold interest_of in *. rewrite Hfdt. exact Hi2.
    + intros Hlp. apply (drain_None (mn_fd mn)) in Hlp. rewrite Hlp. reflexivity.
  - simpl andb. split; [|discriminate].
    intros _. eexists. split; [reflexivity|exact Hi2].
Qed.

(** X12: disabling an entry whose descriptor field names no open
    descriptor (and is not 0), such as the -1 of an entry whose descriptor
    has been released, while the monitor has its epoll descriptor, is an
    error: the call returns -EBADF.  The flags of the entry are cleared all
    the same. *)
Theorem monitor_modify_epoll_disable_unopened k mn i me :
  0 <= mn_fd mn ->
  mn_ents mn !! i = Some me ->
  me_fd me <> 0 ->
  k_fdt k !! me_fd me = None ->
  monitor_modify_epoll opers_at k mn i false
  = Some (set_errno EBADF k, set_entry i (set_flags false false me) mn, - Z.of_N EBADF).
Proof.
  intros Hfd Hme Hnz Hclosed. unfold monitor_modify_epoll. rewrite Hme.
  change (mn_fd (set_entry i (set_flags false false me) mn)) with (mn_fd mn).
  change (me_fd (set_flags false false me)) with (me_fd me).
  assert (Z.ltb (mn_fd mn) 0 = false) as -> by lia.
  assert (Z.eqb (me_fd me) 0 = false) as -> by lia.
  simpl negb. cbv iota.
  assert (epoll_ctl k (mn_fd mn) EPOLL_CTL_DEL (me_fd me)
            {| ev_events := 0; ev_data := None |} = (set_errno EBADF k, -1)) as ->.
  { unfold epoll_ctl, fail. rewrite Hclosed.
    destruct (k_fdt k !! mn_fd mn) as [[?|?]|]; reflexivity. }
  reflexivity.
Qed.

(** X13: disabling and enabling an entry again is a safe cycle.  If both
    calls return 0, the entry has a descriptor other than 0 that no other
    enabled entry uses, and the drivers are well behaved, then the interest
    list of the epoll instance again holds exactly the descriptors of the
    enabled entries; the entry is enabled, not active and has its identity;
    the other entries are untouched; and nothing is pending if the entry
    wants the drain. *)
Theorem monitor_modify_epoll_cycle k mn i me k1 mn1 k2 mn2 :
  well_behaved opers_at ->
  0 <= mn_fd mn ->
  mn_ents mn !! i = Some me ->
  me_fd me <> 0 ->
  (forall j e, j <> i -> mn_ents mn !! j = Some e -> me_enabled e = true ->
               me_fd e <> me_fd me) ->
  registered k mn (fun _ => True) ->
  monitor_modify_epoll opers_at k mn i false = Some (k1, mn1, 0) ->
  monitor_modify_epoll opers_at k1 mn1 i true = Some (k2, mn2, 0) ->
  registered k2 mn2 (fun _ => True) /\
  (exists me2, mn_ents mn2 !! i = Some me2 /\ same_identity me me2 /\
               me_enabled me2 = true /\ me_active me2 = false) /\
  (forall j, j <> i -> mn_ents mn2 !! j = mn_ents mn !! j) /\
  (wants_drain me = true -> quiet k2 (mn_fd mn)).
Proof.
  intros Hwb Hfd Hme Hnz Hown Hreg Hoff Hon.
  pose proof (monitor_modify_epoll_disable_keeps_registered
                _ _ _ _ _ _ _ Hfd Hme Hnz Hown Hreg Hoff) as Hreg1.
  pose proof (monitor_modify_epoll_disable_monitor _ _ _ _ _ _ _ _ Hme Hoff) as Hmn1.
  assert (mn_ents mn1 !! i = Some (set_flags false false me)) as Hme1
    by (subst mn1; apply (set_entry_lookup _ _ _ _ Hme)).
  assert (mn_fd mn1 = mn_fd mn) as Hfd1 by (subst mn1; reflexivity).
  split; [|split; [|split]].
  - eapply monitor_modify_epoll_enable_keeps_registered;
      [exact Hwb| |exact Hme1|reflexivity|exact Hreg1|exact Hon]. lia.
  - destruct (monitor_modify_epoll_entry _ _ _ _ _ _ _ _ Hon)
      as (me0 & me2 & Hme0 & -> & Hen & Hact & Hid).
    assert (me0 = set_flags false false me) as -> by congruence.
    exists me2. split; [apply (set_entry_lookup _ _ _ _ Hme1)|].
    split; [|auto]. eapply same_identity_trans; [|exact Hid]. repeat split.
  - intros j Hj.
    destruct (monitor_modify_epoll_entry _ _ _ _ _ _ _ _ Hon)
      as (me0 & me2 & _ & -> & _).
    rewrite set_entry_lookup_ne by congruence. subst mn1.
    apply set_entry_lookup_ne. congruence.
  - intros Hwant.
    assert (0 <= mn_fd mn1) as Hfd1' by lia.
    pose proof (monitor_modify_epoll_enable _ _ _ _ _ _ _ _ Hfd1' Hme1 Hon)
      as (o & Ho & _ & Hcases).
    cbv zeta in Hcases. destruct Hwb as (Herr & _).
    assert (exists a, o = opers_at a) as [a ->].
    { unfold opers in Ho. simpl in Ho. destruct (me_opers me) as [a|]; [|discriminate].
      exists a. congruence. }
    rewrite Hfd1 in Hcases.
    destruct Hcases as [(Hlt & -> & Hno)|[(_ & Hlt & _)|(_ & _ & _ & Hd)]].
    + exfalso. apply Herr in Hlt. unfold neg_errno in Hno. lia.
    + lia.
    + apply Hd. exact Hwant.
Qed.

End RegistrationFacts.



(** ** Runs of the operations on concrete states *)

Section Runs.

Import Drivers Scenario.

(** Before any change has been reported, the detail operation returns 1,
    which is neither an error nor a code of its own: it is the "no more
    data" result the attach/detach channel gives at the end of its records. *)
Lemma mnt_monitor_event_next_fs_before_any_change :
  mnt_monitor_event_next_fs table PTR boot mnt_new_monitor (Some fs0)
  = Some (boot, mnt_new_monitor, 1, Some fs0) /\
  ~ (1 < 0) /\
  mnt_monitor_event_next_fs table PTR boot
    (reported 0 (watching 3 [channel_entry 0])) (Some fs0)
  = Some (boot, reported 0 (watching 3 [channel_entry 0]), 1, Some fs0).
Proof. split; [reflexivity|]. split; [lia|reflexivity]. Qed.

Lemma mnt_monitor_event_next_fs_no_detail_witness :
  mnt_monitor_event_next_fs table PTR boot mnt_new_monitor (Some fs0)
  = Some (boot, mnt_new_monitor, 1, Some fs0) /\
  mnt_monitor_event_next_fs table PTR boot
    (reported 0 (watching 3 [mountinfo_entry])) (Some fs0)
  = Some (boot, reported 0 (watching 3 [mountinfo_entry]), - Z.of_N ENOTSUP, Some fs0).
Proof.
  split.
  - apply (proj1 (proj2 (mnt_monitor_event_next_fs_no_detail
                           table boot mnt_new_monitor fs0))).
    reflexivity.
  - apply (proj1 (proj2 (proj2 (mnt_monitor_event_next_fs_no_detail
             table boot (reported 0 (watching 3 [mountinfo_entry])) fs0)))
             0%nat mountinfo_entry mountinfo_opers); reflexivity.
Defined.



(** Disabling an entry whose descriptor was never opened, while the epoll
    descriptor exists: the removal fails with EBADF, which is returned. *)
Lemma monitor_modify_epoll_removal_failure_witness :
  monitor_modify_epoll table (running []) (watching 3 [on mountinfo_entry]) 0 false
  = Some (set_errno EBADF (running []), watching 3 [mountinfo_entry], - Z.of_N EBADF) /\
  - Z.of_N EBADF < 0.
Proof.
  apply (monitor_modify_epoll_removal_failure table (running [])
           (watching 3 [on mountinfo_entry]) 0 (on mountinfo_entry)
           (set_errno EBADF (running [])) (-1)).
  - simpl. lia.
  - reflexivity.
  - simpl. lia.
  - reflexivity.
  - lia.
Defined.

(** C2 (a defect of the code): the monitor gets its epoll descriptor (3)
    while the standard streams are open; the program closes its standard
    input; the userspace table entry is enabled, and its driver's new
    descriptor is 0; the entry is disabled again.  The disable call returns
    0 and clears [enabled], but it has skipped the removal, because it tests
    the descriptor field for being non-zero: descriptor 0 is still in the
    interest list of the epoll instance. *)
Theorem monitor_modify_epoll_disable_keeps_fd0 :
  match mnt_monitor_get_fd table PTR stdio (watching (-1) [utab_entry]) with
  | Some (k1, mn1, rc1) =>
      match monitor_modify_epoll table (fst (close k1 0)) mn1 0 true with
      | Some (k2, mn2, rc2) =>
          match monitor_modify_epoll table k2 mn2 0 false with
          | Some (k3, mn3, rc3) =>
              rc1 = 3 /\ rc2 = 0 /\ rc3 = 0 /\
              mn2 = watching 3 [with_fd 0 (on utab_entry)] /\
              interest_of k2 3 = Some {[ 0 := tag EPOLLIN 0 ]} /\
              mn3 = watching 3 [with_fd 0 utab_entry] /\
              k3 = k2 /\
              interest_of k3 (mn_fd mn3) = Some {[ 0 := tag EPOLLIN 0 ]}
          | None => False
          end
      | None => False
      end
  | None => False
  end.
Proof. vm_compute. repeat split. Qed.

(** The same calls with the standard input left open: the driver's
    descriptor is 4, and the disable call removes it. *)
Lemma monitor_modify_epoll_disable_removes_fd4 :
  match mnt_monitor_get_fd table PTR stdio (watching (-1) [utab_entry]) with
  | Some (k1, mn1, rc1) =>
      match monitor_modify_epoll table k1 mn1 0 true with
      | Some (k2, mn2, rc2) =>
          match monitor_modify_epoll table k2 mn2 0 false with
          | Some (k3, mn3, rc3) =>
              rc1 = 3 /\ rc2 = 0 /\ rc3 = 0 /\
              interest_of k2 3 = Some {[ 4 := tag EPOLLIN 0 ]} /\
              interest_of k3 (mn_fd mn3) = Some ∅
          | None => False
          end
      | None => False
      end
  | None => False
  end.
Proof. vm_compute. repeat split. Qed.

Lemma mnt_monitor_next_change_consumes_witness :
  mnt_monitor_next_change table 1 PTR table_watched table_changed (Some None) (Some 0)
  = Some (table_watched, table_fetched,
          {| ch_rc := 0;
             ch_filename := Some (Some "/proc/self/mountinfo"%string);
             ch_type := Some 2 |}) /\
  mnt_monitor_next_change table 1 PTR table_watched table_fetched
    (Some (Some "/proc/self/mountinfo"%string)) (Some 2)
  = Some (table_watched, set_last None table_fetched,
          {| ch_rc := 1;
             ch_filename := Some (Some "/proc/self/mountinfo"%string);
             ch_type := Some 2 |}).
Proof.
  apply (mnt_monitor_next_change_consumes table 0 table_watched table_changed 0
           (with_fd 4 (pending mountinfo_entry)) (Some None) (Some 0)).
  - simpl. lia.
  - exists {[ 4 := tag (Z.lor EPOLLIN EPOLLET) 0 ]}. split; reflexivity.
  - reflexivity.
  - reflexivity.
  - intros [|j] e Hj H; [congruence|discriminate].
Defined.

(** A change is reported by the attach/detach channel, with two detail
    records; the program closes the monitor's descriptor and calls
    [mnt_monitor_next_change] again: the call returns -EINVAL at its guard
    and the back-reference stays, so that [mnt_monitor_event_next_fs] still
    yields a record of the event reported before. *)
Lemma mnt_monitor_next_change_guard_keeps_last :
  match mnt_monitor_next_change table 1 PTR channel_watched channel_changed None None with
  | Some (k1, mn1, c1) =>
      match mnt_monitor_close_fd table PTR k1 mn1 with
      | Some (k2, mn2, rc2) =>
          match mnt_monitor_next_change table 1 PTR k2 mn2 None None with
          | Some (k3, mn3, c3) =>
              ch_rc c1 = 0 /\ rc2 = 0 /\ mn_fd mn2 = -1 /\
              ch_rc c3 = - Z.of_N EINVAL /\ ch_rc c3 <> 0 /\
              mn_last mn3 = Some 0%nat /\
              match mnt_monitor_event_next_fs table PTR k3 mn3 (Some fs0) with
              | Some (_, _, rc4, fs4) => rc4 = 0 /\ fs4 = Some {| fs_uniq_id := 2 |}
              | None => False
              end
          | None => False
          end
      | None => False
      end
  | None => False
  end.
Proof. vm_compute. repeat split. discriminate. Qed.

Lemma mnt_monitor_next_change_clears_last_witness :
  mnt_monitor_next_change table 1 PTR channel_watched channel_fetched None None
  = Some (channel_watched, set_last None channel_fetched,
          {| ch_rc := 1; ch_filename := None; ch_type := None |}) /\
  mn_last (set_last None channel_fetched) = None /\
  mnt_monitor_event_next_fs table PTR channel_watched (set_last None channel_fetched)
    (Some fs0)
  = Some (channel_watched, set_last None channel_fetched, 1, Some fs0).
Proof.
  assert (mnt_monitor_next_change table 1 PTR channel_watched channel_fetched None None
          = Some (channel_watched, set_last None channel_fetched,
                  {| ch_rc := 1; ch_filename := None; ch_type := None |})) as Hc
    by reflexivity.
  split; [exact Hc|].
  apply (mnt_monitor_next_change_clears_last table 1 channel_watched channel_fetched
           None None channel_watched (set_last None channel_fetched)
           {| ch_rc := 1; ch_filename := None; ch_type := None |} fs0).
  - simpl. lia.
  - exact Hc.
  - simpl. lia.
Defined.


(** A bounded wait that expires, an unbounded wait during which the mount
    table becomes ready, a wait interrupted by a signal, and a first wait,
    which builds the descriptor. *)
Lemma mnt_monitor_wait_spec_witness :
  mnt_monitor_wait table 1 PTR (set_future [Elapse] table_watched) table_idle 1000
  = Some (table_watched, table_idle, 0) /\
  mnt_monitor_wait table 1 PTR (set_future [Ready 4] table_watched) table_idle (-1)
  = Some (table_watched, table_changed, 1) /\
  mnt_monitor_wait table 1 PTR (set_future [Signal] table_watched) table_idle (-1)
  = Some (set_errno EINTR table_watched, table_idle, - Z.of_N EINTR) /\
  mnt_monitor_wait table 1 PTR (set_future [Elapse] stdio)
    (watching (-1) [on mountinfo_entry]) 1000
  = Some (table_watched, table_idle, 0).
Proof.
  split; [|split; [|split]].
  - apply (proj1 (proj1 (proj2 (mnt_monitor_wait_spec table
             (set_future [Elapse] table_watched) table_idle 1000))
             ltac:(simpl; lia) 0%nat table_watched 0 None eq_refl)).
    reflexivity.
  - apply (proj1 (proj2 (proj2 (proj2 (proj1 (proj2 (mnt_monitor_wait_spec table
             (set_future [Ready 4] table_watched) table_idle (-1)))
             ltac:(simpl; lia) 0%nat table_watched 1 (Some 0%nat) eq_refl)))
             ltac:(lia) 0%nat (with_fd 4 (on mountinfo_entry)) mountinfo_opers
             eq_refl eq_refl eq_refl)).
    reflexivity.
  - apply (proj1 (proj2 (proj1 (proj2 (mnt_monitor_wait_spec table
             (set_future [Signal] table_watched) table_idle (-1)))
             ltac:(simpl; lia) 0%nat (set_errno EINTR table_watched) (-1) None eq_refl))).
    lia.
  - rewrite (proj1 (proj2 (proj2 (mnt_monitor_wait_spec table
               (set_future [Elapse] stdio) (watching (-1) [on mountinfo_entry]) 1000)))
               ltac:(simpl; lia) 1%nat).
    reflexivity.
Defined.

(** C6 (a defect of the code): the entry of the userspace table wants
    EPOLLIN only, so its registration is level-triggered, and its descriptor
    (4) has data to read.  On a monitor with its epoll descriptor the
    enable call adds the descriptor and starts the drain, which reports the
    same readiness at every turn: the loop does not end, whatever number of
    turns it is given, and the call does not return.  On a monitor without
    epoll descriptor the enable call returns 0, and the wait with a zero
    timeout that follows builds the descriptor, drains, and does not return
    either.  With the mount table entry in the same states, which is
    edge-triggered, the calls return and the wait finds nothing. *)
Theorem monitor_modify_epoll_drain_spins :
  wants_drain utab_entry = true /\
  edge_triggered (tag (me_events utab_entry) 0) = false /\
  monitor_modify_epoll table (running []) (watching 3 [with_fd 4 utab_entry]) 0 true
  = None /\
  (forall fuel,
     drain_loop fuel
       (fst (epoll_ctl (running []) 3 EPOLL_CTL_ADD 4 (tag (me_events utab_entry) 0))) 3
     = None) /\
  monitor_modify_epoll table file_ready (watching (-1) [with_fd 4 utab_entry]) 0 true
  = Some (file_ready, watching (-1) [with_fd 4 (on utab_entry)], 0) /\
  (forall fuel,
     mnt_monitor_wait table fuel PTR file_ready
       (watching (-1) [with_fd 4 (on utab_entry)]) 0 = None) /\
  monitor_modify_epoll table (running []) (watching 3 [with_fd 4 mountinfo_entry]) 0 true
  = Some (table_watched, table_idle, 0) /\
  mnt_monitor_wait table 1 PTR table_watched table_idle 0
  = Some (table_watched, table_idle, 0) /\
  mnt_monitor_wait table 1 PTR file_ready
    (watching (-1) [with_fd 4 (on mountinfo_entry)]) 0
  = Some (table_watched, table_idle, 0).
Proof.
  split; [reflexivity|]. split; [reflexivity|]. split; [reflexivity|].
  split; [intros fuel; apply drain_loop_spins; reflexivity|].
  split; [reflexivity|]. split; [intros fuel; reflexivity|].
  split; [reflexivity|]. split; reflexivity.
Qed.

(** C9 (a defect of the code): a monitor that never had an epoll descriptor
    has an enabled entry.  [mnt_monitor_close_fd] returns 0, but its loop
    has disabled nothing: the entry is still enabled, and the next
    [mnt_monitor_get_fd] adds its descriptor to the new epoll instance.  The
    same call on a monitor with its epoll descriptor does clear the flags
    of the entry. *)
Theorem mnt_monitor_close_fd_keeps_enabled :
  match mnt_monitor_close_fd table PTR stdio (watching (-1) [on mountinfo_entry]) with
  | Some (k1, mn1, rc1) =>
      rc1 = 0 /\ mn_fd mn1 = -1 /\
      mn_ents mn1 = [on mountinfo_entry] /\
      me_enabled (on mountinfo_entry) = true /\
      match mnt_monitor_get_fd table PTR k1 mn1 with
      | Some (k2, mn2, rc2) =>
          rc2 = 3 /\
          interest_of k2 3 = Some {[ 4 := tag (Z.lor EPOLLIN EPOLLET) 0 ]}
      | None => False
      end
  | None => False
  end /\
  match mnt_monitor_close_fd table PTR table_watched table_changed with
  | Some (k1, mn1, rc1) =>
      rc1 = 0 /\ mn_fd mn1 = -1 /\
      mn_ents mn1 = [mountinfo_entry] /\
      me_enabled mountinfo_entry = false /\
      match mnt_monitor_get_fd table PTR k1 mn1 with
      | Some (k2, mn2, rc2) => rc2 = 3 /\ interest_of k2 3 = Some ∅
      | None => False
      end
  | None => False
  end.
Proof. vm_compute. repeat split. Qed.

End Runs.

(** ** More runs on concrete states *)

Section MoreRuns.

Import Drivers Scenario.

(** The example drivers release resources: their close operation closes
    the descriptor of the entry, and they have no private data to free. *)
Lemma table_drivers_release : drivers_release table.
Proof.
  intros a k me. split.
  - intros mn.
    assert (op_close_fd (table a) = table_close_fd) as ->
      by (destruct a as [|[|a]]; reflexivity).
    unfold releases, table_close_fd. simpl. split.
    + destruct (Z.leb 0 (me_fd me)); [apply close_closed_stays|apply closed_stays_refl].
    + intros Hfd. right. assert (Z.leb 0 (me_fd me) = true) as -> by lia.
      apply close_closed.
  - intros free_data Hfree. destruct a as [|[|a]]; discriminate.
Qed.

Lemma table_changed_has_opers : has_opers table_changed.
Proof.
  intros [|j] e; simpl; [|discriminate]. intros [= <-]. eexists. reflexivity.
Qed.

(** Two references are taken on a new monitor and given back. *)
Lemma mnt_ref_unref_balance_witness :
  release table 2 boot (Nat.iter 2 (mnt_ref_monitor PTR) mnt_new_monitor)
  = Some (boot, Some mnt_new_monitor).
Proof.
  apply (proj1 (mnt_ref_unref_balance table 2 boot mnt_new_monitor
                  ltac:(simpl; lia) ltac:(unfold INT_MAX; simpl; lia))).
Defined.

(** The last reference to a monitor that watches the mount table is
    dropped: the epoll descriptor (3) and the descriptor of the entry (4)
    are closed. *)
Lemma mnt_unref_monitor_last_witness :
  exists k',
    mnt_unref_monitor table PTR table_watched table_changed = Some (k', None) /\
    k_fdt k' !! 3 = None /\ k_fdt k' !! 4 = None.
Proof.
  destruct (mnt_unref_monitor_last table table_watched table_changed
              table_drivers_release table_changed_has_opers
              ltac:(unfold INT_MIN; simpl; lia)) as (k' & Hu & Hfd & Hents).
  exists k'. split; [exact Hu|]. split.
  - apply Hfd. simpl. lia.
  - apply (Hents 0%nat (with_fd 4 (pending mountinfo_entry))); [reflexivity|simpl; lia].
Defined.


Lemma mnt_monitor_next_change_first_active_witness :
  mnt_monitor_next_change table 1 PTR table_watched table_changed (Some None) None
  = Some (table_watched, table_fetched,
          {| ch_rc := 0;
             ch_filename := Some (Some "/proc/self/mountinfo"%string);
             ch_type := None |}).
Proof.
  apply (mnt_monitor_next_change_first_active table 1 table_watched table_changed 0
           (with_fd 4 (pending mountinfo_entry)) (Some None) None).
  - simpl. lia.
  - reflexivity.
  - reflexivity.
  - intros j e Hj. inversion Hj.
Defined.

Lemma mnt_monitor_wait_then_next_change_witness :
  exists i me,
    mn_ents table_changed !! i = Some me /\ me_active me = true /\
    mnt_monitor_next_change table 1 PTR table_watched table_changed None (Some 0)
    = Some (table_watched, set_last (Some i) (set_entry i (set_active false me) table_changed),
            {| ch_rc := 0; ch_filename := None; ch_type := Some (me_type me) |}).
Proof.
  apply (mnt_monitor_wait_then_next_change table 1 (set_ready [4] table_watched)
           table_idle 0 table_watched table_changed 1 None (Some 0)).
  reflexivity.
Defined.

(** An accepted event of the mount table is discarded. *)
Lemma mnt_monitor_event_cleanup_quiet_witness :
  mnt_monitor_event_cleanup table 2 PTR table_watched table_changed
  = Some (table_watched, all_fetched table_changed, 0).
Proof.
  apply (mnt_monitor_event_cleanup_quiet table 2 table_watched table_changed).
  - simpl. lia.
  - exists {[ 4 := tag (Z.lor EPOLLIN EPOLLET) 0 ]}. split; reflexivity.
  - unfold count_active. simpl. lia.
Defined.

(** The mount table is ready and its entry has an accepted event already:
    the cleanup takes the notification and clears the entry. *)
Lemma mnt_monitor_event_cleanup_result_witness :
  0 <= 0 /\
  mn_last (all_fetched table_changed) = None /\
  (forall j e, mn_ents (all_fetched table_changed) !! j = Some e -> me_active e = false) /\
  exists kf, epoll_wait kf 3 0 = Some (table_watched, 0, None).
Proof.
  destruct (mnt_monitor_event_cleanup_result table 3 (set_ready [4] table_watched)
              table_changed table_watched (all_fetched table_changed) 0 eq_refl)
    as (Hrc & _ & Hok).
  destruct Hok as (Hlast & Hrest); [simpl; lia|].
  destruct (Hrest eq_refl) as (Hact & Hkf).
  split; [exact Hrc|]. split; [exact Hlast|]. split; [exact Hact|exact Hkf].
Defined.

(** The mount table entry is enabled on a monitor with its epoll
    descriptor, and disabled again. *)
Lemma monitor_modify_epoll_flags_witness :
  (exists me',
     table_idle = set_entry 0 me' (watching 3 [with_fd 4 mountinfo_entry]) /\
     me_enabled me' = true /\ me_active me' = false /\
     same_identity (with_fd 4 mountinfo_entry) me') /\
  (exists k' rc,
     monitor_modify_epoll table table_watched table_changed 0 false
     = Some (k', set_entry 0 (set_flags false false (with_fd 4 (pending mountinfo_entry)))
                   table_changed, rc) /\
     closed_stays table_watched k').
Proof.
  split.
  - apply (proj1 (monitor_modify_epoll_flags table (running [])
                    (watching 3 [with_fd 4 mountinfo_entry]) 0
                    (with_fd 4 mountinfo_entry) true eq_refl)
             table_watched table_idle 0).
    reflexivity.
  - apply (proj1 (proj2 (monitor_modify_epoll_flags table table_watched table_changed 0
                           (with_fd 4 (pending mountinfo_entry)) false eq_refl))).
Defined.

(** The mount table entry is enabled a second time: its registration, made
    for the same descriptor, is kept.  The entry of the userspace table is
    enabled a second time while its descriptor has data to read: the call
    does not return. *)
Lemma monitor_modify_epoll_enable_again_witness :
  (exists k',
     monitor_modify_epoll table table_watched table_idle 0 true
     = Some (k', table_idle, 0) /\
     interest_of k' 3 = Some {[ 4 := tag (Z.lor EPOLLIN EPOLLET) 0 ]}) /\
  monitor_modify_epoll table (set_ready [4] channel_watched)
    (watching 3 [with_fd 4 (on utab_entry)]) 0 true = None.
Proof.
  split.
  - apply (proj1 (monitor_modify_epoll_enable_again table table_watched table_idle 0
                    (with_fd 4 (on mountinfo_entry)) mountinfo_opers
                    {[ 4 := tag (Z.lor EPOLLIN EPOLLET) 0 ]}
                    ltac:(simpl; lia) eq_refl eq_refl ltac:(simpl; lia)
                    ltac:(simpl; lia) ltac:(exists (FdFile true); reflexivity)
                    eq_refl
                    ltac:(exists (tag (Z.lor EPOLLIN EPOLLET) 0); reflexivity))).
    reflexivity.
  - apply (proj2 (monitor_modify_epoll_enable_again table (set_ready [4] channel_watched)
                    (watching 3 [with_fd 4 (on utab_entry)]) 0
                    (with_fd 4 (on utab_entry)) utab_opers
                    {[ 4 := tag EPOLLIN 0 ]}
                    ltac:(simpl; lia) eq_refl eq_refl ltac:(simpl; lia)
                    ltac:(simpl; lia) ltac:(exists (FdFile true); reflexivity)
                    eq_refl
                    ltac:(exists (tag EPOLLIN 0); reflexivity))).
    reflexivity.
Defined.

Lemma monitor_modify_epoll_disable_unopened_witness :
  monitor_modify_epoll table (running []) (watching 3 [on mountinfo_entry]) 0 false
  = Some (set_errno EBADF (running []),
          set_entry 0 (set_flags false false (on mountinfo_entry))
            (watching 3 [on mountinfo_entry]),
          - Z.of_N EBADF).
Proof.
  apply (monitor_modify_epoll_disable_unopened table (running [])
           (watching 3 [on mountinfo_entry]) 0 (on mountinfo_entry)).
  - simpl. lia.
  - reflexivity.
  - simpl. lia.
  - reflexivity.
Defined.

(** The mount table entry is disabled and enabled again. *)
Lemma monitor_modify_epoll_cycle_witness :
  registered table_watched table_idle (fun _ => True) /\
  (exists me2, mn_ents table_idle !! 0%nat = Some me2 /\
               same_identity (with_fd 4 (on mountinfo_entry)) me2 /\
               me_enabled me2 = true /\ me_active me2 = false) /\
  (forall j, j <> 0%nat -> mn_ents table_idle !! j = mn_ents table_idle !! j) /\
  (wants_drain (with_fd 4 (on mountinfo_entry)) = true -> quiet table_watched 3).
Proof.
  apply (monitor_modify_epoll_cycle table table_watched table_idle 0
           (with_fd 4 (on mountinfo_entry))
           (running []) (watching 3 [with_fd 4 mountinfo_entry])
           table_watched table_idle).
  - apply table_well_behaved.
  - simpl. lia.
  - reflexivity.
  - simpl. lia.
  - intros [|j] e Hj; [congruence|discriminate].
  - exists {[ 4 := tag (Z.lor EPOLLIN EPOLLET) 0 ]}. split; [reflexivity|]. split.
    + intros [|j] e _; [|discriminate]. intros [= <-] _.
      exists (tag (Z.lor EPOLLIN EPOLLET) 0). reflexivity.
    + intros x [ev Hx]. exists 0%nat, (with_fd 4 (on mountinfo_entry)).
      split; [exact I|]. split; [reflexivity|]. split; [reflexivity|].
      destruct (decide (x = 4)) as [->|Hne]; [reflexivity|].
      rewrite lookup_singleton_ne in Hx by congruence. discriminate.
  - reflexivity.
  - reflexivity.
Defined.

(** A first [mnt_monitor_get_fd] that succeeds (the mount table entry is
    enabled, the userspace table entry is not), and one that fails (the
    driver of the second enabled entry fails with EPERM). *)
Lemma mnt_monitor_get_fd_spec_witness :
  (exists k' mn',
     mnt_monitor_get_fd table PTR stdio (watching (-1) [on mountinfo_entry; utab_entry])
     = Some (k', mn', 3) /\
     mn_fd mn' = 3 /\
     mn_ents mn' !! 1%nat = Some utab_entry /\
     registered k' mn' (fun _ => True)) /\
  (exists k' mn',
     mnt_monitor_get_fd (table_with_failing (Some EPERM)) PTR stdio with_failing
     = Some (k', mn', - Z.of_N EPERM) /\
     mn_fd mn' = -1 /\ k_fdt k' !! 3 = None).
Proof.
  split.
  - destruct (mnt_monitor_get_fd table PTR stdio
                (watching (-1) [on mountinfo_entry; utab_entry]))
      as [[[k' mn'] rc]|] eqn:Hg; [|exfalso; revert Hg; vm_compute; discriminate].
    assert (rc = 3) as ->.
    { revert Hg. vm_compute. intros [= _ _ <-]. reflexivity. }
    exists k', mn'. split; [reflexivity|].
    destruct (proj2 (mnt_monitor_get_fd_spec table stdio
                       (watching (-1) [on mountinfo_entry; utab_entry]))
                ltac:(simpl; lia) k' mn' 3 Hg)
      as (_ & _ & _ & Hents & [(_ & _ & Hfd & _ & _ & Hreg)|(Hneg & _)]); [|lia].
    split; [exact Hfd|]. split.
    + destruct (Hents 1%nat utab_entry eq_refl) as (e' & He' & _ & _ & Hoff).
      rewrite He', (Hoff eq_refl). reflexivity.
    + apply Hreg. apply table_well_behaved.
  - destruct (mnt_monitor_get_fd (table_with_failing (Some EPERM)) PTR stdio with_failing)
      as [[[k' mn'] rc]|] eqn:Hg; [|exfalso; revert Hg; vm_compute; discriminate].
    assert (rc = - Z.of_N EPERM) as ->.
    { revert Hg. vm_compute. intros [= _ _ <-]. reflexivity. }
    exists k', mn'. split; [reflexivity|].
    destruct (proj2 (mnt_monitor_get_fd_spec (table_with_failing (Some EPERM)) stdio
                       with_failing)
                ltac:(simpl; lia) k' mn' _ Hg)
      as (_ & _ & _ & _ & [(Hpos & _)|(_ & Hfd & _ & Hclosed)]); [unfold EPERM in Hpos; lia|].
    split; [exact Hfd|]. apply Hclosed. vm_compute. discriminate.
Defined.

(** The mount table entry has just been enabled on a monitor with its
    epoll descriptor. *)
Lemma mnt_monitor_wait_after_enable_witness :
  quiet table_watched (mn_fd table_idle) /\
  mnt_monitor_wait table 1 PTR table_watched table_idle 0
  = Some (table_watched, table_idle, 0).
Proof.
  apply (mnt_monitor_wait_after_enable table 0 (running [])
           (watching 3 [with_fd 4 mountinfo_entry]) 0 (with_fd 4 mountinfo_entry)
           mountinfo_opers table_watched table_idle).
  - simpl. lia.
  - reflexivity.
  - reflexivity.
  - reflexivity.
  - simpl. lia.
  - reflexivity.
Defined.

(** A first wait, with a zero timeout, on a monitor whose mount table entry
    is enabled. *)
Lemma mnt_monitor_wait_first_poll_witness :
  mnt_monitor_wait table 1 PTR stdio (watching (-1) [on mountinfo_entry]) 0
  = Some (table_watched, table_idle, 0) /\
  0 <= 0.
Proof.
  split; [reflexivity|].
  apply (mnt_monitor_wait_first_poll table 1 stdio (watching (-1) [on mountinfo_entry])
           table_watched table_idle 0).
  - destruct table_well_behaved as [H _]. exact H.
  - simpl. lia.
  - intros [|j] e; simpl; [intros [= <-] _; reflexivity|discriminate].
  - reflexivity.
Defined.

Lemma mnt_monitor_close_fd_spec_witness :
  exists k' mn' me',
    mnt_monitor_close_fd table PTR table_watched table_changed = Some (k', mn', 0) /\
    mn_fd mn' = -1 /\
    mn_ents mn' !! 0%nat = Some me' /\
    me_enabled me' = false /\ me_active me' = false /\
    k_fdt k' !! 3 = None /\
    mnt_monitor_get_fd table PTR k' mn'
    = (let '(k2, fd) := epoll_create1 k' in
       Some (k2, set_fd fd mn', if Z.ltb fd 0 then neg_errno k2 else fd)).
Proof.
  destruct (mnt_monitor_close_fd_spec table table_watched table_changed
              table_changed_has_opers)
    as (k' & mn' & Hc & Hfd & _ & _ & Hents & Hnext).
  destruct (Hents 0%nat (with_fd 4 (pending mountinfo_entry)) eq_refl)
    as (me' & Hme' & _ & _ & Hoff & _).
  destruct Hoff as [Hen Hact]; [simpl; lia|].
  destruct Hnext as [Hclosed Hget]; [simpl; lia|].
  exists k', mn', me'. auto 10.
Defined.

(** The drain on an epoll instance with a level-triggered registration
    whose descriptor has data to read, and with an edge-triggered one. *)
Lemma drain_loop_level_triggered_witness :
  (drain (set_ready [4] channel_watched) 3 = None /\
   forall fuel, drain_loop fuel (set_ready [4] channel_watched) 3 = None) /\
  (exists k',
     drain (set_ready [4] table_watched) 3 = Some k' /\
     (forall fuel, (length (k_ready (set_ready [4%Z] table_watched)) < fuel)%nat ->
                   drain_loop fuel (set_ready [4] table_watched) 3 = Some k') /\
     k_fdt k' = k_fdt (set_ready [4] table_watched) /\
     (is_Some (interest_of (set_ready [4] table_watched) 3) -> quiet k' 3)).
Proof.
  split.
  - apply (proj1 (drain_loop_level_triggered 3 (set_ready [4] channel_watched))).
    reflexivity.
  - apply (proj2 (drain_loop_level_triggered 3 (set_ready [4] table_watched))).
    reflexivity.
Defined.

(** A monitor whose only enabled entry is the mount table. *)
Lemma mnt_monitor_get_fd_returns_witness :
  exists k' mn' rc,
    mnt_monitor_get_fd table PTR stdio (watching (-1) [on mountinfo_entry; utab_entry])
    = Some (k', mn', rc).
Proof.
  apply (mnt_monitor_get_fd_returns table stdio
           (watching (-1) [on mountinfo_entry; utab_entry])).
  - destruct table_well_behaved as (_ & H & _). exact H.
  - intros [|[|j]] e; simpl; try discriminate.
    + intros [= <-] _. split; [eexists|]; reflexivity.
    + intros [= <-]. discriminate.
Defined.

End MoreRuns.
